(** * Safecast data migration scripts: SQLite to PostgreSQL

    A shallow embedding of the three one-shot migration scripts

      - [migrate_all_data.py]       (spectra, marker flags and speed values),
      - [migrate_spectra.py]        (spectra and marker flags),
      - [update_spectra_columns.py] (channel data of existing spectra),

    followed by the properties of the reconciling copy they implement.

    The two database engines are collaborators of the scripts: a table with
    a primary key is a finite map from the key to the remaining columns, the
    PostgreSQL connection carries the committed state and the state of the
    open transaction, and the engine may refuse any write or commit
    (constraint violation, lost connection), which the scripts see as an
    exception.

    A run starts where both connections are open: the check that the SQLite
    file exists, the password prompt and the connection itself come before
    it, and when one of them fails the script ends there, with exit code 1
    and nothing written.  Reads ([SELECT] on either store, [input]) are
    taken to succeed.  The progress counters and the verification summary
    each script prints before it returns write nothing to the target; the
    counters of the insert loop and the closing checks on the spectra are
    modelled apart from the runs. *)

From Stdlib Require Import ZArith String Ascii List Lia.
From stdpp Require Import base tactics option list numbers gmap fin_maps sorting strings.

Local Open Scope Z_scope.

(** ** Python values *)

(** Values of a column as the [sqlite3] module returns them and as
    [psycopg2] receives them.  A float is only ever copied, so it is kept
    as its IEEE-754 bit pattern. *)
#[local] Unset Elimination Schemes.
Inductive pyval : Type :=
  | PyNone
  | PyInt (n : Z)
  | PyFloat (bits : Z)
  | PyStr (s : string)
  | PyBytes (b : list Byte.byte)
  | PyList (items : list pyval).
#[local] Set Elimination Schemes.

(** A naive [datetime.datetime] (no time zone attached). *)
Record datetime : Type := mk_datetime {
  year : Z; month : Z; day : Z; hour : Z; minute : Z; second : Z
}.

(** Proleptic Gregorian date of a day count relative to 1970-01-01. *)
Definition civil_from_days (days : Z) : Z * Z * Z :=
  let z := days + 719468 in
  let era := z / 146097 in
  let doe := z - era * 146097 in
  let yoe := (doe - doe / 1460 + doe / 36524 - doe / 146096) / 365 in
  let y := yoe + era * 400 in
  let doy := doe - (365 * yoe + yoe / 4 - yoe / 100) in
  let mp := (5 * doy + 2) / 153 in
  let d := doy - (153 * mp + 2) / 5 + 1 in
  let m := if mp <? 10 then mp + 3 else mp - 9 in
  (if m <=? 2 then y + 1 else y, m, d).

(** The calendar reading of [seconds] counted from 1970-01-01T00:00:00. *)
Definition calendar (seconds : Z) : datetime :=
  let '(y, m, d) := civil_from_days (seconds / 86400) in
  let sod := seconds mod 86400 in
  mk_datetime y m d (sod / 3600) ((sod mod 3600) / 60) (sod mod 60).

(** [datetime.utcfromtimestamp]: the epoch read as UTC. *)
Definition utcfromtimestamp (epoch : Z) : datetime := calendar epoch.

(** The years a [datetime] holds: [MINYEAR] to [MAXYEAR]. *)
Definition in_years (dt : datetime) : bool := (1 <=? year dt) && (year dt <=? 9999).

(** The naive local time CPython makes of an instant on a host whose
    offset from UTC is [tz], as far as the calendar decides it.  To tell
    the two readings of a repeated hour apart, [fromtimestamp] also reads
    the instant 24 hours before, and when the offset has dropped since then
    the instant that much before; each reading must fall in a year a
    [datetime] holds, or the call raises [ValueError].  So the first local
    day of year 1 cannot be converted. *)
Definition local_datetime (tz : Z → Z) (t : Z) : option datetime :=
  let dt := calendar (t + tz t) in
  if in_years dt then
    if in_years (calendar (t - 86400 + tz (t - 86400))) then
      let transition := tz t - tz (t - 86400) in
      if transition <? 0 then
        if in_years (calendar (t + transition + tz (t + transition)))
        then Some dt else None
      else Some dt
    else None
  else None.

(** [str.lower] on ASCII letters, and the test [confirm.lower() != 'yes']
    of every prompt, read positively. *)
Definition lower_ascii (c : ascii) : ascii :=
  let n := nat_of_ascii c in
  if (Nat.leb 65 n && Nat.leb n 90)%bool then ascii_of_nat (n + 32) else c.

Fixpoint lower (s : string) : string :=
  match s with
  | EmptyString => EmptyString
  | String c s' => String (lower_ascii c) (lower s')
  end.

Definition is_yes (confirm : string) : bool := String.eqb (lower confirm) "yes".

(** ** Data model *)

(** A marker: the two columns the scripts read and write.  [speed] is
    nullable; the scripts only copy a speed and compare it with zero, so it
    is an exact number here. *)
Record Marker : Type := mk_marker {
  has_spectrum : bool;
  speed : option Z
}.

(** A row of the SQLite table [spectra] without its key [id]. *)
Record SqliteSpectrum : Type := mk_sqlite_spectrum {
  src_marker_id : Z;
  src_channels : pyval;
  src_channel_count : pyval;
  src_energy_min_kev : pyval;
  src_energy_max_kev : pyval;
  src_live_time_sec : pyval;
  src_real_time_sec : pyval;
  src_device_model : pyval;
  src_calibration : pyval;
  src_source_format : pyval;
  src_filename : pyval;
  src_raw_data : pyval;
  src_created_at : option Z
}.

(** A row of the PostgreSQL table [spectra] without its key [id]. *)
Record PgSpectrum : Type := mk_pg_spectrum {
  marker_id : Z;
  channels : pyval;
  channel_count : pyval;
  energy_min_kev : pyval;
  energy_max_kev : pyval;
  live_time_sec : pyval;
  real_time_sec : pyval;
  device_model : pyval;
  calibration : pyval;
  source_format : pyval;
  filename : pyval;
  raw_data : pyval;
  created_at : datetime
}.

Record SqliteDb : Type := mk_sqlite {
  sqlite_markers : gmap Z Marker;
  sqlite_spectra : gmap Z SqliteSpectrum
}.

Record PgDb : Type := mk_pg {
  pg_markers : gmap Z Marker;
  pg_spectra : gmap Z PgSpectrum
}.

(** ** The PostgreSQL engine *)

(** The writes the scripts send, and [COMMIT]:
    - [INSERT INTO spectra (id, marker_id, ...) VALUES (...)];
    - [UPDATE markers SET has_spectrum = true WHERE id = %s AND has_spectrum = false]
      ([migrate_all_data.py]);
    - [UPDATE markers SET has_spectrum = true WHERE id = %s] ([migrate_spectra.py]);
    - [UPDATE markers AS m SET speed = v.speed FROM (VALUES ...) AS v(id, speed)
       WHERE m.id = v.id AND (m.speed IS NULL OR m.speed = 0)];
    - [UPDATE spectra SET channels = %s, channel_count = %s, energy_min_kev = %s,
       energy_max_kev = %s, live_time_sec = %s, real_time_sec = %s WHERE id = %s]. *)
Inductive pg_stmt : Type :=
  | InsertSpectrum (spec_id : Z) (row : PgSpectrum)
  | UpdateFlagIfFalse (id : Z)
  | UpdateFlag (id : Z)
  | UpdateSpeedValues (batch : list (Z * Z))
  | UpdateSpectrumColumns (spec_id : Z)
      (chans count emin emax live real : pyval)
  | Commit.

Definition speed_unset (m : Marker) : bool :=
  match speed m with
  | None => true
  | Some v => v =? 0
  end.

Definition speed_positive (m : Marker) : bool :=
  match speed m with
  | None => false
  | Some v => 0 <? v
  end.

(** One row of [VALUES] in the update of the speeds: the marker with that
    id, if there is one and its speed is null or zero, gets the speed. *)
Definition set_speed_if_unset (markers : gmap Z Marker) (v : Z * Z) : gmap Z Marker :=
  match markers !! v.1 with
  | Some m =>
      if speed_unset m
      then <[v.1 := mk_marker (has_spectrum m) (Some v.2)]> markers
      else markers
  | None => markers
  end.

Definition set_flag (m : Marker) : Marker := mk_marker true (speed m).

Definition set_flag_if_false (m : Marker) : Marker :=
  if has_spectrum m then m else set_flag m.

Definition set_columns (chans count emin emax live real : pyval) (s : PgSpectrum) : PgSpectrum :=
  mk_pg_spectrum (marker_id s) chans count emin emax live real
    (device_model s) (calibration s) (source_format s) (filename s)
    (raw_data s) (created_at s).

(** The effect of a write on the tables; [None] is the engine's own
    refusal (an [INSERT] of a primary key that is taken). *)
Definition pg_apply (st : pg_stmt) (db : PgDb) : option PgDb :=
  match st with
  | InsertSpectrum spec_id row =>
      match pg_spectra db !! spec_id with
      | Some _ => None
      | None => Some (mk_pg (pg_markers db) (<[spec_id := row]> (pg_spectra db)))
      end
  | UpdateFlagIfFalse id =>
      Some (mk_pg (alter set_flag_if_false id (pg_markers db)) (pg_spectra db))
  | UpdateFlag id =>
      Some (mk_pg (alter set_flag id (pg_markers db)) (pg_spectra db))
  | UpdateSpeedValues batch =>
      Some (mk_pg (foldl set_speed_if_unset (pg_markers db) batch) (pg_spectra db))
  | UpdateSpectrumColumns spec_id chans count emin emax live real =>
      Some (mk_pg (pg_markers db)
              (alter (set_columns chans count emin emax live real) spec_id (pg_spectra db)))
  | Commit => Some db
  end.

(** What surrounds a run: the host's time zone, as the offset from UTC in
    force at an instant; the instants the host's [localtime] cannot convert
    (they do not fit its [time_t], or its C library refuses them); the
    writes the engine refuses in a given state; and [json.loads] ([None]
    when it raises).  The host is a POSIX system running CPython 3.6 or
    later. *)
Record Env : Type := mk_env {
  utcoffset : Z → Z;
  localtime_fails : Z → bool;
  pg_rejects : pg_stmt → PgDb → bool;
  json_loads : string → option pyval
}.

(** The connection: what is committed, and what the open transaction sees. *)
Record PgConn : Type := mk_conn {
  committed : PgDb;
  pending : PgDb
}.

(** ** The scripts' monad: state, console output and exceptions *)

(** The lines of the console that tell the course of a run. *)
Inductive event : Type :=
  | MsgNothingToMigrate
  | MsgAlreadyMigrated
  | MsgCancelled
  | MsgSpectraPhase
  | MsgSpectraSkipped
  | MsgSpectraError
  | MsgFlagsPhase
  | MsgFlagsError
  | MsgSpeedPhase
  | MsgSpeedSkipped
  | MsgSpeedError
  | MsgMigrationError
  | MsgNoRecordsNeedUpdating
  | MsgCouldNotParse (spec_id : Z)
  | MsgUpdateError
  | MsgRolledBack.

Inductive exn : Type :=
  | SystemExit (code : Z)
  | TypeError
  | ValueError
  | OSError
  | DatabaseError
  | OutOfFuel.

(** [except Exception] does not catch [SystemExit]; [OutOfFuel] is not a
    Python exception but the model's bound on the [while True] loop, shown
    below never to be reached. *)
Definition is_exception (e : exn) : bool :=
  match e with
  | SystemExit _ | OutOfFuel => false
  | _ => true
  end.

Record World : Type := mk_world {
  pg_conn : PgConn;
  stdout : list event
}.

Inductive result (A : Type) : Type :=
  | Return (a : A)
  | Raise (e : exn).
Arguments Return {A} a.
Arguments Raise {A} e.

Definition M (A : Type) : Type := World → World * result A.

Definition ret {A} (a : A) : M A := λ w, (w, Return a).

Definition bind {A B} (m : M A) (k : A → M B) : M B :=
  λ w, match m w with
       | (w', Return a) => k a w'
       | (w', Raise e) => (w', Raise e)
       end.

Definition raise {A} (e : exn) : M A := λ w, (w, Raise e).

Notation "'let*' x ':=' m 'in' k" := (bind m (λ x, k))
  (at level 10, x name, m at level 100, k at level 200, only parsing).
Notation "m1 ;; m2" := (bind m1 (λ _, m2))
  (at level 100, m2 at level 200, right associativity, only parsing).

Definition try_except {A} (body : M A) (handler : exn → M A) : M A :=
  λ w, match body w with
       | (w', Raise e) => if is_exception e then handler e w' else (w', Raise e)
       | r => r
       end.

Fixpoint for_each {A} (f : A → M unit) (l : list A) : M unit :=
  match l with
  | [] => ret tt
  | x :: l' => f x ;; for_each f l'
  end.

Definition print (ev : event) : M unit :=
  λ w, (mk_world (pg_conn w) (stdout w ++ [ev]), Return tt).

Definition sys_exit {A} (code : Z) : M A := raise (SystemExit code).

(** A [SELECT] on the target sees the open transaction. *)
Definition pg_read : M PgDb := λ w, (w, Return (pending (pg_conn w))).

(** [cursor.execute] of a write. *)
Definition pg_execute (env : Env) (st : pg_stmt) : M unit :=
  λ w,
    let db := pending (pg_conn w) in
    if pg_rejects env st db then (w, Raise DatabaseError)
    else match pg_apply st db with
         | Some db' => (mk_world (mk_conn (committed (pg_conn w)) db') (stdout w), Return tt)
         | None => (w, Raise DatabaseError)
         end.

(** [cursor.execute("BEGIN")]: psycopg2 has opened the transaction with the
    first statement of the connection, so this changes nothing. *)
Definition pg_begin : M unit := ret tt.

Definition pg_commit (env : Env) : M unit :=
  λ w,
    let db := pending (pg_conn w) in
    if pg_rejects env Commit db then (w, Raise DatabaseError)
    else (mk_world (mk_conn db db) (stdout w), Return tt).

Definition pg_rollback : M unit :=
  λ w, (mk_world (mk_conn (committed (pg_conn w)) (committed (pg_conn w))) (stdout w), Return tt).

(** One reading of the host's clock by CPython ([local] in
    [_datetimemodule.c]): [localtime], which fails with [OverflowError] or
    [OSError] (one exception here: the scripts treat them alike) when the
    host cannot convert the instant, then the check of the year. *)
Definition localtime (env : Env) (t : Z) : result datetime :=
  if localtime_fails env t then Raise OSError
  else
    let dt := calendar (t + utcoffset env t) in
    if in_years dt then Return dt else Raise ValueError.

(** [datetime.fromtimestamp(created_at)]: no [tz] argument, so the result
    is the naive local time of the host.  [None] is a [TypeError].  After
    the instant itself CPython reads the instant 24 hours before and, when
    the offset from UTC has dropped in between, the instant that much
    before, to set the [fold] of the result; a reading that fails makes the
    call fail. *)
Definition datetime_fromtimestamp (env : Env) (created_at : option Z) : result datetime :=
  match created_at with
  | None => Raise TypeError
  | Some t =>
      match localtime env t with
      | Raise e => Raise e
      | Return dt =>
          match localtime env (t - 86400) with
          | Raise e => Raise e
          | Return _ =>
              let transition := utcoffset env t - utcoffset env (t - 86400) in
              if transition <? 0 then
                match localtime env (t + transition) with
                | Raise e => Raise e
                | Return _ => Return dt
                end
              else Return dt
          end
      end
  end.

Definition fromtimestamp (env : Env) (created_at : option Z) : M datetime :=
  λ w, (w, datetime_fromtimestamp env created_at).

(** ** Queries on the source *)

Definition by_id {A} (a b : Z * A) : Prop := a.1 ≤ b.1.

Global Instance by_id_dec {A} (a b : Z * A) : Decision (by_id a b) :=
  Z_le_dec a.1 b.1.

(** [SELECT ... FROM spectra ORDER BY id] *)
Definition select_spectra (src : SqliteDb) : list (Z * SqliteSpectrum) :=
  merge_sort by_id (map_to_list (sqlite_spectra src)).

(** [SELECT id FROM markers WHERE has_spectrum = 1] (no order is asked for) *)
Definition select_flagged (src : SqliteDb) : list Z :=
  (map_to_list (filter (λ kv, has_spectrum kv.2 = true) (sqlite_markers src))).*1.

Definition speed_row (kv : Z * Marker) : option (Z * Z) :=
  match speed kv.2 with
  | Some v => if 0 <? v then Some (kv.1, v) else None
  | None => None
  end.

(** [SELECT id, speed FROM markers WHERE speed IS NOT NULL AND speed > 0
     ORDER BY id] *)
Definition select_speed (src : SqliteDb) : list (Z * Z) :=
  omap speed_row (merge_sort by_id (map_to_list (sqlite_markers src))).

(** ... [LIMIT ? OFFSET ?] *)
Definition select_speed_batch (src : SqliteDb) (limit offset : nat) : list (Z * Z) :=
  take limit (drop offset (select_speed src)).

(** [SELECT COUNT( * ) FROM markers WHERE speed IS NOT NULL AND speed > 0],
    on either store. *)
Definition count_speed (markers : gmap Z Marker) : Z :=
  Z.of_nat (size (filter (λ kv, speed_positive kv.2 = true) markers)).

Definition count_rows {A} (table : gmap Z A) : Z := Z.of_nat (size table).

(** ** The insert loop of [migrate_all_data.py] and [migrate_spectra.py] *)

Definition is_none (v : pyval) : bool :=
  match v with
  | PyNone => true
  | _ => false
  end.

(** The body of [for row in spectra_rows]: skip a spectrum whose id the
    target has, else convert [created_at] and insert the row as fetched. *)
Definition insert_spectrum (env : Env) (row : Z * SqliteSpectrum) : M unit :=
  let '(spec_id, s) := row in
  let* db := pg_read in
  match pg_spectra db !! spec_id with
  | Some _ => ret tt
  | None =>
      let* created_timestamp := fromtimestamp env (src_created_at s) in
      pg_execute env
        (InsertSpectrum spec_id
           (mk_pg_spectrum (src_marker_id s) (src_channels s) (src_channel_count s)
              (src_energy_min_kev s) (src_energy_max_kev s)
              (src_live_time_sec s) (src_real_time_sec s)
              (src_device_model s) (src_calibration s) (src_source_format s)
              (src_filename s) (src_raw_data s) created_timestamp))
  end.

(** ** Running a script *)

(** A run starts on a fresh connection to the target and ends with the
    process: what the target keeps is what was committed. *)
Definition run (prog : M unit) (target : PgDb) : World * result unit :=
  prog (mk_world (mk_conn target target) []).

Definition target_after (o : World * result unit) : PgDb := committed (pg_conn o.1).

Definition exit_code (r : result unit) : Z :=
  match r with
  | Return _ => 0
  | Raise (SystemExit code) => code
  | Raise _ => 1
  end.

(** ** [migrate_all_data.py] *)

Module migrate_all_data.

Definition BATCH_SIZE : nat := Z.to_nat 10000.

(** The answers typed at the two prompts; the first is read only when the
    prompt is shown. *)
Record Answers : Type := mk_answers {
  recheck : string;
  proceed : string
}.

(** Part 1 *)
Definition migrate_spectral_data (env : Env) (src : SqliteDb) : M unit :=
  print MsgSpectraPhase ;;
  let spectra_rows := select_spectra src in
  try_except
    (pg_begin ;;
     for_each (insert_spectrum env) spectra_rows ;;
     pg_commit env)
    (λ _, pg_rollback ;; print MsgSpectraError ;; print MsgRolledBack ;; sys_exit 1).

(** Part 2 *)
Definition update_marker_flags (env : Env) (src : SqliteDb) : M unit :=
  print MsgFlagsPhase ;;
  try_except
    (pg_begin ;;
     let marker_ids := select_flagged src in
     for_each (λ marker_id, pg_execute env (UpdateFlagIfFalse marker_id)) marker_ids ;;
     pg_commit env)
    (λ _, pg_rollback ;; print MsgFlagsError ;; print MsgRolledBack ;; sys_exit 1).

(** The [while True] loop of part 3; [fuel] bounds its iterations.
    [execute_values] sends a batch in pages of 100 rows inside the batch's
    transaction; together the pages do what one statement over the batch
    does. *)
Fixpoint speed_loop (env : Env) (src : SqliteDb) (fuel offset : nat) : M unit :=
  match fuel with
  | O => raise OutOfFuel
  | S fuel' =>
      match select_speed_batch src BATCH_SIZE offset with
      | [] => ret tt
      | (_ :: _) as batch =>
          pg_begin ;;
          pg_execute env (UpdateSpeedValues batch) ;;
          pg_commit env ;;
          speed_loop env src fuel' (offset + BATCH_SIZE)%nat
      end
  end.

(** Part 3 *)
Definition migrate_speed_data (env : Env) (src : SqliteDb) : M unit :=
  print MsgSpeedPhase ;;
  try_except
    (speed_loop env src (S (length (select_speed src))) 0%nat)
    (λ _, pg_rollback ;; print MsgSpeedError ;; print MsgRolledBack ;; sys_exit 1).

Definition main (env : Env) (src : SqliteDb) (ans : Answers) : M unit :=
  let sqlite_spectra_count := count_rows (sqlite_spectra src) in
  let sqlite_markers_speed := count_speed (sqlite_markers src) in
  if (sqlite_spectra_count =? 0) && (sqlite_markers_speed =? 0)
  then print MsgNothingToMigrate ;; sys_exit 0
  else
    let* db := pg_read in
    let pg_spectra_count := count_rows (pg_spectra db) in
    let pg_markers_speed := count_speed (pg_markers db) in
    let spectra_to_migrate := sqlite_spectra_count - pg_spectra_count in
    let speed_to_migrate := sqlite_markers_speed - pg_markers_speed in
    (if (spectra_to_migrate <=? 0) && (speed_to_migrate <=? 0)
     then print MsgAlreadyMigrated ;;
          if is_yes (recheck ans) then ret tt
          else print MsgCancelled ;; sys_exit 0
     else ret tt) ;;
    (if is_yes (proceed ans) then ret tt
     else print MsgCancelled ;; sys_exit 0) ;;
    (if 0 <? spectra_to_migrate
     then migrate_spectral_data env src
     else print MsgSpectraSkipped) ;;
    update_marker_flags env src ;;
    (if 0 <? speed_to_migrate
     then migrate_speed_data env src
     else print MsgSpeedSkipped).

End migrate_all_data.

(** ** [migrate_spectra.py] *)

Module migrate_spectra.

Definition main (env : Env) (src : SqliteDb) (confirm : string) : M unit :=
  let sqlite_spectra_count := count_rows (sqlite_spectra src) in
  if sqlite_spectra_count =? 0
  then print MsgNothingToMigrate ;; sys_exit 0
  else if negb (is_yes confirm)
  then print MsgCancelled ;; sys_exit 0
  else
    let spectra_rows := select_spectra src in
    try_except
      (pg_begin ;;
       for_each (insert_spectrum env) spectra_rows ;;
       let marker_ids := select_flagged src in
       for_each (λ marker_id, pg_execute env (UpdateFlag marker_id)) marker_ids ;;
       pg_commit env)
      (λ _, pg_rollback ;; print MsgMigrationError ;; print MsgRolledBack ;; sys_exit 1).

End migrate_spectra.

(** ** [update_spectra_columns.py] *)

Module update_spectra_columns.

(** [SELECT COUNT( * ) FROM spectra WHERE channels IS NULL] *)
Definition count_null_channels (spectra : gmap Z PgSpectrum) : Z :=
  Z.of_nat (size (filter (λ kv, is_none (channels kv.2) = true) spectra)).

(** [SELECT ... FROM spectra WHERE channels IS NOT NULL ORDER BY id] *)
Definition select_with_channels (src : SqliteDb) : list (Z * SqliteSpectrum) :=
  filter (λ kv, is_none (src_channels kv.2) = false) (select_spectra src).

(** The inner [try]: [None] when the bare [except] is entered. *)
Definition parse_channels (env : Env) (channels_str : pyval) : option pyval :=
  match channels_str with
  | PyStr s => json_loads env s
  | PyNone => Some PyNone
  | other => Some other
  end.

(** The body of [for row in spectra_rows]. *)
Definition update_spectrum (env : Env) (row : Z * SqliteSpectrum) : M unit :=
  let '(spec_id, s) := row in
  match parse_channels env (src_channels s) with
  | None => print (MsgCouldNotParse spec_id)
  | Some chans =>
      pg_execute env
        (UpdateSpectrumColumns spec_id chans (src_channel_count s)
           (src_energy_min_kev s) (src_energy_max_kev s)
           (src_live_time_sec s) (src_real_time_sec s))
  end.

Definition main (env : Env) (src : SqliteDb) (confirm : string) : M unit :=
  let* db := pg_read in
  let null_count := count_null_channels (pg_spectra db) in
  if null_count =? 0
  then print MsgNoRecordsNeedUpdating ;; sys_exit 0
  else if negb (is_yes confirm)
  then print MsgCancelled ;; sys_exit 0
  else
    let spectra_rows := select_with_channels src in
    try_except
      (pg_begin ;;
       for_each (update_spectrum env) spectra_rows ;;
       pg_commit env)
      (λ _, pg_rollback ;; print MsgUpdateError ;; sys_exit 1).

End update_spectra_columns.

(** * What a run does to the target

    Each block of writes is related to a function on the tables: [None]
    where the data alone makes the block fail (a [created_at] that the
    calendar does not let [fromtimestamp] convert).  The engine's refusals
    and the failures of the host's [localtime] are the only other ways to
    fail. *)

Fixpoint fold_opt {A S} (f : A → S → option S) (l : list A) (s : S) : option S :=
  match l with
  | [] => Some s
  | x :: l' =>
      match f x s with
      | Some s' => fold_opt f l' s'
      | None => None
      end
  end.

(** The row [insert_spectrum] builds from a source row. *)
Definition converted (tz : Z → Z) (s : SqliteSpectrum) : option PgSpectrum :=
  match src_created_at s with
  | None => None
  | Some epoch =>
      match local_datetime tz epoch with
      | Some dt =>
          Some (mk_pg_spectrum (src_marker_id s) (src_channels s) (src_channel_count s)
                  (src_energy_min_kev s) (src_energy_max_kev s)
                  (src_live_time_sec s) (src_real_time_sec s)
                  (src_device_model s) (src_calibration s) (src_source_format s)
                  (src_filename s) (src_raw_data s) dt)
      | None => None
      end
  end.

Definition insert_effect (tz : Z → Z) (row : Z * SqliteSpectrum) (db : PgDb) : option PgDb :=
  match pg_spectra db !! row.1 with
  | Some _ => Some db
  | None =>
      match converted tz row.2 with
      | Some r => Some (mk_pg (pg_markers db) (<[row.1 := r]> (pg_spectra db)))
      | None => None
      end
  end.

Definition copy_effect (tz : Z → Z) (src : SqliteDb) (db : PgDb) : option PgDb :=
  fold_opt (insert_effect tz) (select_spectra src) db.

Definition flags_effect (f : Marker → Marker) (src : SqliteDb) (db : PgDb) : PgDb :=
  mk_pg (foldl (λ ms id, alter f id ms) (pg_markers db) (select_flagged src)) (pg_spectra db).

Definition speed_effect (rows : list (Z * Z)) (db : PgDb) : PgDb :=
  mk_pg (foldl set_speed_if_unset (pg_markers db) rows) (pg_spectra db).

(** The body of a transaction: it leaves what is committed and the console
    alone, and when it returns the open transaction has moved by [f]. *)
Definition tx_body (m : M unit) (f : PgDb → option PgDb) : Prop :=
  ∀ w w' r, m w = (w', r) →
    committed (pg_conn w') = committed (pg_conn w) ∧ stdout w' = stdout w ∧
    match r with
    | Return _ => f (pending (pg_conn w)) = Some (pending (pg_conn w'))
    | Raise e => is_exception e = true
    end.

(** A block that ends in [commit]. *)
Definition tx_commits (m : M unit) (f : PgDb → option PgDb) : Prop :=
  ∀ w w' r, m w = (w', r) →
    stdout w' = stdout w ∧
    match r with
    | Return _ => ∃ db', f (pending (pg_conn w)) = Some db' ∧ pg_conn w' = mk_conn db' db'
    | Raise e => is_exception e = true ∧ committed (pg_conn w') = committed (pg_conn w)
    end.

(** An [except] block that rolls back, prints [msgs] and exits with 1. *)
Definition rolls_back (h : exn → M unit) (msgs : list event) : Prop :=
  ∀ e w,
    h e w = (mk_world (mk_conn (committed (pg_conn w)) (committed (pg_conn w)))
               (stdout w ++ msgs), Raise (SystemExit 1)).

Definition clean (w : World) : Prop := pending (pg_conn w) = committed (pg_conn w).

(** ** The runs of [migrate_all_data.py], described *)

Definition nothing_to_migrate (src : SqliteDb) : bool :=
  (count_rows (sqlite_spectra src) =? 0) && (count_speed (sqlite_markers src) =? 0).

Definition spectra_to_migrate (src : SqliteDb) (db : PgDb) : Z :=
  count_rows (sqlite_spectra src) - count_rows (pg_spectra db).

Definition speed_to_migrate (src : SqliteDb) (db : PgDb) : Z :=
  count_speed (sqlite_markers src) - count_speed (pg_markers db).

Definition already_migrated (src : SqliteDb) (db : PgDb) : bool :=
  (spectra_to_migrate src db <=? 0) && (speed_to_migrate src db <=? 0).

(** The run gets past both prompts. *)
Definition started (src : SqliteDb) (ans : migrate_all_data.Answers) (t0 : PgDb) : Prop :=
  nothing_to_migrate src = false ∧
  (already_migrated src t0 = true → is_yes (migrate_all_data.recheck ans) = true) ∧
  is_yes (migrate_all_data.proceed ans) = true.

Definition greeting (src : SqliteDb) (t0 : PgDb) : list event :=
  if already_migrated src t0 then [MsgAlreadyMigrated] else [].

Definition spectra_msg (src : SqliteDb) (t0 : PgDb) : event :=
  if 0 <? spectra_to_migrate src t0 then MsgSpectraPhase else MsgSpectraSkipped.

Definition speed_msg (src : SqliteDb) (t0 : PgDb) : event :=
  if 0 <? speed_to_migrate src t0 then MsgSpeedPhase else MsgSpeedSkipped.

(** Part 1 and part 3 behind their gates; both gates are the pre-flight
    counts, taken on the target [t0] the run started from. *)
Definition spectra_phase (tz : Z → Z) (src : SqliteDb) (t0 : PgDb) : option PgDb :=
  if 0 <? spectra_to_migrate src t0 then copy_effect tz src t0 else Some t0.

Definition speed_phase (src : SqliteDb) (t0 tb : PgDb) : PgDb :=
  if 0 <? speed_to_migrate src t0 then speed_effect (select_speed src) tb else tb.

Definition world_at (db : PgDb) (msgs : list event) : World :=
  mk_world (mk_conn db db) msgs.

(** Every way a run of [main] on the target [t0] can end. *)
Inductive all_outcome (env : Env) (src : SqliteDb) (ans : migrate_all_data.Answers)
    (t0 : PgDb) : World * result unit → Prop :=
  | all_nothing :
      nothing_to_migrate src = true →
      all_outcome env src ans t0
        (world_at t0 [MsgNothingToMigrate], Raise (SystemExit 0))
  | all_declined_recheck :
      nothing_to_migrate src = false →
      already_migrated src t0 = true →
      is_yes (migrate_all_data.recheck ans) = false →
      all_outcome env src ans t0
        (world_at t0 [MsgAlreadyMigrated; MsgCancelled], Raise (SystemExit 0))
  | all_declined :
      nothing_to_migrate src = false →
      (already_migrated src t0 = true → is_yes (migrate_all_data.recheck ans) = true) →
      is_yes (migrate_all_data.proceed ans) = false →
      all_outcome env src ans t0
        (world_at t0 (greeting src t0 ++ [MsgCancelled]), Raise (SystemExit 0))
  | all_spectra_failed :
      started src ans t0 →
      0 < spectra_to_migrate src t0 →
      all_outcome env src ans t0
        (world_at t0 (greeting src t0 ++ [MsgSpectraPhase; MsgSpectraError; MsgRolledBack]),
         Raise (SystemExit 1))
  | all_flags_failed ta :
      started src ans t0 →
      spectra_phase (utcoffset env) src t0 = Some ta →
      all_outcome env src ans t0
        (world_at ta (greeting src t0 ++
                      [spectra_msg src t0; MsgFlagsPhase; MsgFlagsError; MsgRolledBack]),
         Raise (SystemExit 1))
  | all_speed_failed ta k :
      started src ans t0 →
      spectra_phase (utcoffset env) src t0 = Some ta →
      0 < speed_to_migrate src t0 →
      (k * migrate_all_data.BATCH_SIZE < length (select_speed src))%nat →
      all_outcome env src ans t0
        (world_at (speed_effect (take (k * migrate_all_data.BATCH_SIZE) (select_speed src))
                     (flags_effect set_flag_if_false src ta))
           (greeting src t0 ++
            [spectra_msg src t0; MsgFlagsPhase; MsgSpeedPhase; MsgSpeedError; MsgRolledBack]),
         Raise (SystemExit 1))
  | all_completed ta :
      started src ans t0 →
      spectra_phase (utcoffset env) src t0 = Some ta →
      all_outcome env src ans t0
        (world_at (speed_phase src t0 (flags_effect set_flag_if_false src ta))
           (greeting src t0 ++ [spectra_msg src t0; MsgFlagsPhase; speed_msg src t0]),
         Return tt).

(** ** The runs of [migrate_spectra.py], described *)

Inductive spectra_outcome (env : Env) (src : SqliteDb) (confirm : string)
    (t0 : PgDb) : World * result unit → Prop :=
  | spectra_nothing :
      count_rows (sqlite_spectra src) = 0 →
      spectra_outcome env src confirm t0
        (world_at t0 [MsgNothingToMigrate], Raise (SystemExit 0))
  | spectra_declined :
      count_rows (sqlite_spectra src) ≠ 0 →
      is_yes confirm = false →
      spectra_outcome env src confirm t0
        (world_at t0 [MsgCancelled], Raise (SystemExit 0))
  | spectra_failed :
      count_rows (sqlite_spectra src) ≠ 0 →
      is_yes confirm = true →
      spectra_outcome env src confirm t0
        (world_at t0 [MsgMigrationError; MsgRolledBack], Raise (SystemExit 1))
  | spectra_completed ta :
      count_rows (sqlite_spectra src) ≠ 0 →
      is_yes confirm = true →
      copy_effect (utcoffset env) src t0 = Some ta →
      spectra_outcome env src confirm t0
        (world_at (flags_effect set_flag src ta) [], Return tt).

(** ** The runs of [update_spectra_columns.py], described *)

Definition update_row_effect (env : Env) (db : PgDb) (row : Z * SqliteSpectrum) : PgDb :=
  match update_spectra_columns.parse_channels env (src_channels row.2) with
  | None => db
  | Some chans =>
      mk_pg (pg_markers db)
        (alter (set_columns chans (src_channel_count row.2)
                  (src_energy_min_kev row.2) (src_energy_max_kev row.2)
                  (src_live_time_sec row.2) (src_real_time_sec row.2))
           row.1 (pg_spectra db))
  end.

Definition update_effect (env : Env) (rows : list (Z * SqliteSpectrum)) (db : PgDb) : PgDb :=
  foldl (update_row_effect env) db rows.

(** What the script writes over a target row for a source row. *)
Definition columns_update (env : Env) (s : SqliteSpectrum) (row : PgSpectrum) : PgSpectrum :=
  match update_spectra_columns.parse_channels env (src_channels s) with
  | None => row
  | Some chans =>
      set_columns chans (src_channel_count s) (src_energy_min_kev s)
        (src_energy_max_kev s) (src_live_time_sec s) (src_real_time_sec s) row
  end.

(** The warnings printed for the rows whose channels do not parse. *)
Definition warning (env : Env) (row : Z * SqliteSpectrum) : list event :=
  match update_spectra_columns.parse_channels env (src_channels row.2) with
  | None => [MsgCouldNotParse row.1]
  | Some _ => []
  end.

Definition warnings (env : Env) (rows : list (Z * SqliteSpectrum)) : list event :=
  flat_map (warning env) rows.

Inductive update_outcome (env : Env) (src : SqliteDb) (confirm : string)
    (t0 : PgDb) : World * result unit → Prop :=
  | update_nothing :
      update_spectra_columns.count_null_channels (pg_spectra t0) = 0 →
      update_outcome env src confirm t0
        (world_at t0 [MsgNoRecordsNeedUpdating], Raise (SystemExit 0))
  | update_declined :
      update_spectra_columns.count_null_channels (pg_spectra t0) ≠ 0 →
      is_yes confirm = false →
      update_outcome env src confirm t0
        (world_at t0 [MsgCancelled], Raise (SystemExit 0))
  | update_failed n :
      update_spectra_columns.count_null_channels (pg_spectra t0) ≠ 0 →
      is_yes confirm = true →
      update_outcome env src confirm t0
        (world_at t0
           (warnings env (take n (update_spectra_columns.select_with_channels src))
            ++ [MsgUpdateError]),
         Raise (SystemExit 1))
  | update_completed :
      update_spectra_columns.count_null_channels (pg_spectra t0) ≠ 0 →
      is_yes confirm = true →
      update_outcome env src confirm t0
        (world_at (update_effect env (update_spectra_columns.select_with_channels src) t0)
           (warnings env (update_spectra_columns.select_with_channels src)),
         Return tt).

(** ** What a run keeps *)

(** A marker keeps a flag that is set and a speed that is set. *)
Definition marker_kept (m m' : Marker) : Prop :=
  (has_spectrum m = true → has_spectrum m' = true) ∧
  (speed_unset m = false → speed m' = speed m).

Definition markers_kept (ms ms' : gmap Z Marker) : Prop :=
  ∀ k m, ms !! k = Some m → ∃ m', ms' !! k = Some m' ∧ marker_kept m m'.

Definition positive (o : option Z) : bool :=
  match o with
  | Some v => 0 <? v
  | None => false
  end.

(** What the copy leaves under an id of the source: the row the target
    had, or else a new row linked to the source's marker. *)
Definition reconciled (s : SqliteSpectrum) (before after : option PgSpectrum) : Prop :=
  match before with
  | Some old => after = Some old
  | None => ∃ row, after = Some row ∧ marker_id row = src_marker_id s
  end.

(** ** Transactions and the errors in them

    What a transaction of a script leaves in the target when it goes
    through, and [None] when an error occurs in it: the engine refuses one
    of its statements or its commit, or a [created_at] is not converted. *)

(** A statement sent to the engine in the state [db]. *)
Definition sent (env : Env) (st : pg_stmt) (db : PgDb) : option PgDb :=
  if pg_rejects env st db then None else pg_apply st db.

(** A row in the insert loop. *)
Definition insert_sent (env : Env) (row : Z * SqliteSpectrum) (db : PgDb) : option PgDb :=
  match pg_spectra db !! row.1 with
  | Some _ => Some db
  | None =>
      match datetime_fromtimestamp env (src_created_at row.2) with
      | Return created_timestamp =>
          sent env
            (InsertSpectrum row.1
               (mk_pg_spectrum (src_marker_id row.2) (src_channels row.2)
                  (src_channel_count row.2)
                  (src_energy_min_kev row.2) (src_energy_max_kev row.2)
                  (src_live_time_sec row.2) (src_real_time_sec row.2)
                  (src_device_model row.2) (src_calibration row.2)
                  (src_source_format row.2)
                  (src_filename row.2) (src_raw_data row.2) created_timestamp))
            db
      | Raise _ => None
      end
  end.

(** The transaction of part 1 of [migrate_all_data.py]. *)
Definition insert_transaction (env : Env) (src : SqliteDb) (db : PgDb) : option PgDb :=
  fold_opt (insert_sent env) (select_spectra src) db ≫= sent env Commit.

(** Part 1, run or skipped as the counts say. *)
Definition inserted (env : Env) (src : SqliteDb) (t0 : PgDb) : option PgDb :=
  if 0 <? spectra_to_migrate src t0 then insert_transaction env src t0 else Some t0.








(** ** Counters and closing checks of the scripts *)

(** [for x in l] with an accumulator. *)
Fixpoint fold_each {A S} (f : S → A → M S) (s : S) (l : list A) : M S :=
  match l with
  | [] => ret s
  | x :: l' => let* s' := f s x in fold_each f s' l'
  end.

(** The body of the insert loop with its counters [inserted_count] and
    [skipped_count]. *)
Definition count_spectrum (env : Env) (counts : nat * nat) (row : Z * SqliteSpectrum)
    : M (nat * nat) :=
  let '(inserted_count, skipped_count) := counts in
  let '(spec_id, s) := row in
  let* db := pg_read in
  match pg_spectra db !! spec_id with
  | Some _ => ret (inserted_count, S skipped_count)
  | None =>
      let* created_timestamp := fromtimestamp env (src_created_at s) in
      pg_execute env
        (InsertSpectrum spec_id
           (mk_pg_spectrum (src_marker_id s) (src_channels s) (src_channel_count s)
              (src_energy_min_kev s) (src_energy_max_kev s)
              (src_live_time_sec s) (src_real_time_sec s)
              (src_device_model s) (src_calibration s) (src_source_format s)
              (src_filename s) (src_raw_data s) created_timestamp)) ;;
      ret (S inserted_count, skipped_count)
  end.

(** The insert loop of both scripts, returning
    [(inserted_count, skipped_count)]. *)
Definition insert_loop (env : Env) (rows : list (Z * SqliteSpectrum)) : M (nat * nat) :=
  fold_each (count_spectrum env) (0%nat, 0%nat) rows.

(** The closing check of [migrate_spectra.py]:
    [final_spectra_count >= sqlite_spectra_count]. *)
Definition spectra_verified (src : SqliteDb) : M bool :=
  let* db := pg_read in
  ret (count_rows (sqlite_spectra src) <=? count_rows (pg_spectra db)).

(** [migrate_spectra.py] to its end: [true] when it prints that the
    migration completed successfully, [false] when it prints the warning
    about the record count. *)
Definition migrate_spectra_checked (env : Env) (src : SqliteDb) (confirm : string) : M bool :=
  migrate_spectra.main env src confirm ;; spectra_verified src.

(** The first closing check of [migrate_all_data.py]:
    [final_spectra_count < sqlite_spectra_count]. *)
Definition spectra_mismatch (src : SqliteDb) : M bool :=
  let* db := pg_read in
  ret (count_rows (pg_spectra db) <? count_rows (sqlite_spectra src)).

(** [migrate_all_data.py] up to its first closing check: [true] when it
    prints the warning about the spectral records. *)
Definition migrate_all_data_checked (env : Env) (src : SqliteDb)
    (ans : migrate_all_data.Answers) : M bool :=
  migrate_all_data.main env src ans ;; spectra_mismatch src.

(** A fresh connection to the target: nothing pending, nothing printed. *)
Definition connect (target : PgDb) : World := mk_world (mk_conn target target) [].

(** ** What a completed run makes of a marker *)

(** The marker [id] of the target after the flag phase and, when
    [speed_ran], the speed phase of [migrate_all_data.py]. *)
Definition reconcile_marker (src : SqliteDb) (speed_ran : bool) (id : Z) (m : Marker) : Marker :=
  match sqlite_markers src !! id with
  | None => m
  | Some sm =>
      let m1 := if has_spectrum sm then set_flag_if_false m else m in
      match speed sm with
      | Some v =>
          if speed_ran && (0 <? v) && speed_unset m1
          then mk_marker (has_spectrum m1) (Some v)
          else m1
      | None => m1
      end
  end.

(** An engine that accepts every write. *)
Definition accepts (env : Env) : Prop := ∀ st db, pg_rejects env st db = false.

(** A host whose [localtime] converts every instant. *)
Definition converts (env : Env) : Prop := ∀ t, localtime_fails env t = false.

(** The columns of a target spectrum that [update_spectra_columns.py]
    does not name. *)
Definition other_columns (r : PgSpectrum)
    : Z * pyval * pyval * pyval * pyval * pyval * datetime :=
  (marker_id r, device_model r, calibration r, source_format r, filename r,
   raw_data r, created_at r).

(** * Example stores *)

Module Examples.

(** A [json.loads] for the examples: it reads an array of unsigned
    integers such as [[1,2,3]] and raises on every other text. *)
Definition digit (c : ascii) : option Z :=
  let n := nat_of_ascii c in
  if (Nat.leb 48 n && Nat.leb n 57)%bool then Some (Z.of_nat (n - 48)) else None.

Fixpoint parse_items (s : string) (cur : option Z) (acc : list pyval) : option (list pyval) :=
  match s with
  | EmptyString => None
  | String c rest =>
      if Ascii.eqb c "]" then
        match rest, cur, acc with
        | EmptyString, Some n, _ => Some (rev (PyInt n :: acc))
        | EmptyString, None, [] => Some []
        | _, _, _ => None
        end
      else if Ascii.eqb c "," then
        match cur with
        | Some n => parse_items rest None (PyInt n :: acc)
        | None => None
        end
      else
        match digit c with
        | Some d => parse_items rest (Some (10 * default 0 cur + d)) acc
        | None => None
        end
  end.

Definition array_loads (s : string) : option pyval :=
  match s with
  | String c rest => if Ascii.eqb c "[" then PyList <$> parse_items rest None [] else None
  | EmptyString => None
  end.

(** A host on UTC and a host in Tokyo, both with a [localtime] that
    converts every instant and an engine that accepts every write. *)
Definition utc_env : Env := mk_env (λ _, 0) (λ _, false) (λ _ _, false) array_loads.
Definition tokyo_env : Env := mk_env (λ _, 32400) (λ _, false) (λ _ _, false) array_loads.

Definition yes_yes : migrate_all_data.Answers := migrate_all_data.mk_answers "yes" "YES".

Definition sample (marker : Z) (chans : pyval) (epoch : Z) : SqliteSpectrum :=
  mk_sqlite_spectrum marker chans (PyInt 3) (PyFloat 0) (PyFloat 4658798933373091840)
    (PyFloat 4633641066610819072) (PyFloat 4633641066610819072)
    (PyStr "RadiaCode-102") PyNone (PyStr "n42") (PyStr "track.n42") PyNone (Some epoch).

Definition stored (marker : Z) (chans : pyval) : PgSpectrum :=
  mk_pg_spectrum marker chans (PyInt 2) (PyFloat 0) (PyFloat 4658798933373091840)
    (PyFloat 4633641066610819072) (PyFloat 4633641066610819072)
    (PyStr "RadiaCode-102") PyNone (PyStr "n42") (PyStr "old.n42") PyNone
    (mk_datetime 2024 5 1 12 0 0).

(** The source has spectra 1, 2 and 3; the target already has spectrum 2. *)
Definition src_three : SqliteDb :=
  mk_sqlite
    {[ 10 := mk_marker true None; 20 := mk_marker true (Some 12); 30 := mk_marker false (Some 55) ]}
    {[ 1 := sample 10 (PyStr "[1,2,3]") 0; 2 := sample 20 (PyStr "[4,5,6]") 86400;
       3 := sample 30 (PyStr "not json") 1700000000 ]}.

Definition tgt_one : PgDb :=
  mk_pg
    {[ 10 := mk_marker false None; 20 := mk_marker true (Some 10); 30 := mk_marker false (Some 0) ]}
    {[ 2 := stored 20 (PyList [PyInt 9; PyInt 9]) ]}.

(** As many spectra on both sides, under different ids. *)
Definition src_other_id : SqliteDb :=
  mk_sqlite {[ 10 := mk_marker true None ]} {[ 1 := sample 10 (PyStr "[1,2,3]") 0 ]}.

Definition tgt_other_id : PgDb :=
  mk_pg {[ 10 := mk_marker false None ]} {[ 2 := stored 10 (PyList [PyInt 9; PyInt 9]) ]}.

(** The same id on both sides, linked to different markers. *)
Definition src_relinked : SqliteDb :=
  mk_sqlite {[ 10 := mk_marker true None; 20 := mk_marker false None ]}
    {[ 2 := sample 10 (PyStr "[1,2,3]") 0 ]}.

Definition tgt_relinked : PgDb :=
  mk_pg {[ 10 := mk_marker false None; 20 := mk_marker false None ]}
    {[ 2 := stored 20 (PyList [PyInt 9; PyInt 9]) ]}.

(** One marker waits for its speed while another marker of the target,
    unknown to the source, has one. *)
Definition src_speed : SqliteDb :=
  mk_sqlite {[ 1 := mk_marker false (Some 5) ]} ∅.

Definition tgt_speed : PgDb :=
  mk_pg {[ 1 := mk_marker false None; 2 := mk_marker false (Some 7) ]} ∅.

(** Marker 42 has speed 55 in the source and none in the target; marker
    43 has a speed of its own in the target. *)
Definition src_speed_two : SqliteDb :=
  mk_sqlite {[ 42 := mk_marker false (Some 55); 43 := mk_marker false (Some 30) ]} ∅.

Definition tgt_speed_two : PgDb :=
  mk_pg {[ 42 := mk_marker false None; 43 := mk_marker false (Some 10) ]} ∅.

(** [n] markers with the ids [next], [next + 1], ... and the speed [v]. *)
Fixpoint markers_from (n : nat) (next : Z) (v : option Z) : gmap Z Marker :=
  match n with
  | O => ∅
  | S n' => <[next := mk_marker false v]> (markers_from n' (next + 1) v)
  end.

Definition many_markers (n : Z) (v : option Z) : gmap Z Marker :=
  markers_from (Z.to_nat n) 1 v.

(** One more marker with a speed than fits a batch, and a target in which
    none of them has its speed yet. *)
Definition src_many : SqliteDb := mk_sqlite (many_markers 10001 (Some 5)) ∅.

Definition tgt_many : PgDb := mk_pg (many_markers 10001 None) ∅.

(** The same target with one marker more, which has a speed of its own. *)
Definition tgt_many_and_one : PgDb :=
  mk_pg (<[10002 := mk_marker false (Some 7)]> (many_markers 10001 None)) ∅.

(** An engine that loses the connection on the second batch. *)
Definition second_batch_fails : Env :=
  mk_env (λ _, 0) (λ _, false)
    (λ st _, match st with
             | UpdateSpeedValues ((10001, _) :: _) => true
             | _ => false
             end)
    array_loads.


(** A target in which spectrum 2 has its channels and spectra 1 and 3
    wait for theirs. *)
Definition tgt_partly_filled : PgDb :=
  mk_pg
    {[ 10 := mk_marker true None; 20 := mk_marker true (Some 10); 30 := mk_marker false None ]}
    {[ 1 := stored 10 PyNone;
       2 := stored 20 (PyList [PyInt 9; PyInt 9]);
       3 := stored 30 PyNone ]}.

(** A source whose spectrum 5 has no [created_at]. *)
Definition src_no_created_at : SqliteDb :=
  mk_sqlite {[ 10 := mk_marker true None ]}
    {[ 4 := sample 10 (PyStr "[1,2,3]") 0;
       5 := mk_sqlite_spectrum 10 (PyStr "[7]") (PyInt 1) (PyFloat 0) (PyFloat 0)
              (PyFloat 0) (PyFloat 0) PyNone PyNone PyNone PyNone PyNone None ]}.

(** A source without spectra whose marker 10 is flagged. *)
Definition src_flag_only : SqliteDb :=
  mk_sqlite {[ 10 := mk_marker true None; 20 := mk_marker false (Some 0) ]} ∅.

End Examples.

(** * Lemmas *)

(** ** Monad lemmas *)

Lemma tx_body_ret : tx_body (ret tt) Some.
Proof. intros w w' r [= <- <-]. done. Qed.

Lemma tx_body_bind m1 m2 f g :
  tx_body m1 f → tx_body m2 g → tx_body (m1 ;; m2) (λ db, f db ≫= g).
Proof.
  intros H1 H2 w w' r. unfold bind.
  destruct (m1 w) as [w1 [[]|e]] eqn:E1; intros E2.
  - destruct (H1 _ _ _ E1) as (Hc & Ho & Hf).
    destruct (H2 _ _ _ E2) as (Hc' & Ho' & Hg).
    split; [congruence|]. split; [congruence|].
    destruct r as [[]|e]; [|done]. rewrite Hf. done.
  - injection E2 as <- <-. apply (H1 _ _ _ E1).
Qed.

Lemma tx_body_for_each {A} (step : A → M unit) (f : A → PgDb → option PgDb) l :
  (∀ x, tx_body (step x) (f x)) → tx_body (for_each step l) (fold_opt f l).
Proof.
  intros Hstep. induction l as [|x l IH]; simpl.
  - apply tx_body_ret.
  - intros w w' r E.
    destruct (tx_body_bind _ _ _ _ (Hstep x) IH w w' r E) as (Hc & Ho & Hr).
    split; [done|]. split; [done|].
    destruct r as [[]|e]; [|done].
    destruct (f x (pending (pg_conn w))); done.
Qed.

Lemma tx_body_execute env st : tx_body (pg_execute env st) (pg_apply st).
Proof.
  intros w w' r. unfold pg_execute.
  destruct (pg_rejects env st _).
  - intros [= <- <-]. done.
  - destruct (pg_apply st _) as [db'|] eqn:E; intros [= <- <-]; done.
Qed.

Lemma localtime_cases env t :
  (∃ e, localtime env t = Raise e ∧ is_exception e = true)
  ∨ (localtime env t = Return (calendar (t + utcoffset env t))
     ∧ in_years (calendar (t + utcoffset env t)) = true).
Proof.
  unfold localtime. destruct (localtime_fails env t); [left; by eexists|].
  cbv zeta. destruct (in_years _); [by right|left; by eexists].
Qed.

(** What [fromtimestamp] returns is what the calendar decides; it fails
    with an exception otherwise. *)
Lemma datetime_fromtimestamp_cases env created_at :
  (∃ e, datetime_fromtimestamp env created_at = Raise e ∧ is_exception e = true)
  ∨ (∃ t dt, created_at = Some t
             ∧ datetime_fromtimestamp env created_at = Return dt
             ∧ local_datetime (utcoffset env) t = Some dt).
Proof.
  unfold datetime_fromtimestamp, local_datetime.
  destruct created_at as [t|]; [|left; by eexists].
  cbv zeta.
  destruct (localtime_cases env t) as [(e & -> & He)|[-> H1]]; [left; by eexists|].
  destruct (localtime_cases env (t - 86400)) as [(e & -> & He)|[-> H2]];
    [left; by eexists|].
  destruct (utcoffset env t - utcoffset env (t - 86400) <? 0) eqn:Ht.
  - destruct (localtime_cases env (t + (utcoffset env t - utcoffset env (t - 86400))))
      as [(e & -> & He)|[-> H3]]; [left; by eexists|].
    right. eexists t, _. split; [done|]. split; [done|]. by rewrite H1, H2, Ht, H3.
  - right. eexists t, _. split; [done|]. split; [done|]. by rewrite H1, H2, Ht.
Qed.

(** On a host whose [localtime] converts every instant, the calendar alone
    decides. *)
Lemma datetime_fromtimestamp_converts env t dt :
  (∀ i, localtime_fails env i = false) →
  local_datetime (utcoffset env) t = Some dt →
  datetime_fromtimestamp env (Some t) = Return dt.
Proof.
  intros Hok. unfold datetime_fromtimestamp, local_datetime, localtime.
  rewrite !Hok. cbv zeta.
  destruct (in_years (calendar (t + utcoffset env t))); [|done].
  destruct (in_years (calendar (t - 86400 + utcoffset env (t - 86400)))); [|done].
  destruct (_ <? 0); [|by intros [= ->]].
  destruct (in_years _); [by intros [= ->]|done].
Qed.

(** On a host on UTC the first instant of year 1 is not converted (the
    probe of the day before falls in year 0), the same time a day later
    is. *)
Example first_day_of_year_one :
  calendar (-62135596800) = mk_datetime 1 1 1 0 0 0
  ∧ local_datetime (λ _, 0) (-62135596800) = None
  ∧ local_datetime (λ _, 0) (-62135596800 + 86400) = Some (mk_datetime 1 1 2 0 0 0)
  ∧ local_datetime (λ _, 0) 253402300799 = Some (mk_datetime 9999 12 31 23 59 59)
  ∧ local_datetime (λ _, 0) 253402300800 = None.
Proof. vm_compute. repeat split. Qed.

Lemma tx_body_insert_spectrum env row :
  tx_body (insert_spectrum env row) (insert_effect (utcoffset env) row).
Proof.
  destruct row as [spec_id s]. intros w w' r.
  unfold insert_spectrum, insert_effect, bind, pg_read, fromtimestamp, converted. simpl.
  destruct (pg_spectra (pending (pg_conn w)) !! spec_id) as [old|] eqn:E.
  - intros [= <- <-]. done.
  - destruct (datetime_fromtimestamp_cases env (src_created_at s))
      as [(e & -> & He)|(t & dt & -> & -> & ->)]; [intros [= <- <-]; done|].
    unfold ret. intros Hx.
    destruct (tx_body_execute _ _ _ _ _ Hx) as (Hc & Ho & Hr).
    split; [done|]. split; [done|].
    destruct r as [[]|e]; [|done]. simpl in Hr. rewrite E in Hr. done.
Qed.

Lemma tx_commits_commit env : tx_commits (pg_commit env) Some.
Proof.
  intros w w' r. unfold pg_commit.
  destruct (pg_rejects env Commit _); intros [= <- <-]; simpl; eauto.
Qed.

Lemma tx_commits_bind m1 m2 f g :
  tx_body m1 f → tx_commits m2 g → tx_commits (m1 ;; m2) (λ db, f db ≫= g).
Proof.
  intros H1 H2 w w' r. unfold bind.
  destruct (m1 w) as [w1 [[]|e]] eqn:E1; intros E2.
  - destruct (H1 _ _ _ E1) as (Hc & Ho & Hf).
    destruct (H2 _ _ _ E2) as (Ho' & Hg).
    split; [congruence|].
    destruct r as [[]|e].
    + destruct Hg as (db' & Hg & Hw). exists db'. rewrite Hf. done.
    + destruct Hg as [? ?]. split; [done|congruence].
  - injection E2 as <- <-. destruct (H1 _ _ _ E1) as (Hc & Ho & Hf). done.
Qed.

(** What a [try] around a committing block and a rolling-back [except]
    can do from a clean connection. *)
Lemma try_except_cases m f h msgs w w' r :
  tx_commits m f → rolls_back h msgs → clean w →
  try_except m h w = (w', r) →
  (∃ db', f (committed (pg_conn w)) = Some db' ∧ r = Return tt ∧
          w' = mk_world (mk_conn db' db') (stdout w))
  ∨ (r = Raise (SystemExit 1) ∧
     w' = mk_world (mk_conn (committed (pg_conn w)) (committed (pg_conn w)))
            (stdout w ++ msgs)).
Proof.
  intros Hm Hh Hclean. unfold try_except.
  destruct (m w) as [w1 [[]|e]] eqn:E1.
  - intros [= <- <-]. left.
    destruct (Hm _ _ _ E1) as (Ho & db' & Hf & Hw).
    exists db'. rewrite <- Hclean. split; [done|]. split; [done|].
    destruct w1 as [c o]. simpl in *. congruence.
  - destruct (Hm _ _ _ E1) as (Ho & He & Hc). rewrite He.
    rewrite Hh. intros [= <- <-]. right. split; [done|]. congruence.
Qed.

(** ** The phases of [migrate_all_data.py] *)

Lemma mk_pg_eta db : mk_pg (pg_markers db) (pg_spectra db) = db.
Proof. by destruct db. Qed.

Lemma speed_effect_nil db : speed_effect [] db = db.
Proof. apply mk_pg_eta. Qed.

Lemma speed_effect_app l1 l2 db :
  speed_effect (l1 ++ l2) db = speed_effect l2 (speed_effect l1 db).
Proof. unfold speed_effect. simpl. by rewrite foldl_app. Qed.

Lemma fold_opt_alter (f : Marker → Marker) ids db :
  fold_opt (λ id db, Some (mk_pg (alter f id (pg_markers db)) (pg_spectra db))) ids db
  = Some (mk_pg (foldl (λ ms id, alter f id ms) (pg_markers db) ids) (pg_spectra db)).
Proof.
  revert db. induction ids as [|id ids IH]; intros db; simpl.
  - by rewrite mk_pg_eta.
  - by rewrite IH.
Qed.

Lemma rolls_back_intro (a b : event) :
  rolls_back (λ _, pg_rollback ;; print a ;; print b ;; sys_exit 1) [a; b].
Proof. intros e w. unfold bind, pg_rollback, print, sys_exit, raise. simpl. by rewrite <- app_assoc. Qed.

Lemma BATCH_SIZE_pos : (0 < migrate_all_data.BATCH_SIZE)%nat.
Proof. unfold migrate_all_data.BATCH_SIZE. lia. Qed.

Lemma take_nil_inv {A} (n : nat) (l : list A) : (0 < n)%nat → take n l = [] → l = [].
Proof. destruct n; [lia|]. by destruct l. Qed.

Section all_phases.
Import migrate_all_data.
Local Opaque BATCH_SIZE.

Lemma migrate_spectral_data_cases env src w w' r :
  clean w → migrate_spectral_data env src w = (w', r) →
  (∃ ta, copy_effect (utcoffset env) src (committed (pg_conn w)) = Some ta ∧
         r = Return tt ∧
         w' = mk_world (mk_conn ta ta) (stdout w ++ [MsgSpectraPhase]))
  ∨ (r = Raise (SystemExit 1) ∧
     w' = mk_world (mk_conn (committed (pg_conn w)) (committed (pg_conn w)))
            (stdout w ++ [MsgSpectraPhase; MsgSpectraError; MsgRolledBack])).
Proof.
  intros Hclean. unfold migrate_spectral_data.
  unfold bind at 1. unfold print at 1. intros E.
  eapply try_except_cases in E;
    [ | apply tx_commits_bind; [apply tx_body_ret|];
        apply tx_commits_bind; [apply tx_body_for_each, tx_body_insert_spectrum|];
        apply tx_commits_commit
      | apply rolls_back_intro | done ].
  simpl in E. destruct E as [(ta & Hta & -> & ->)|[-> ->]].
  - left. exists ta. split; [|done].
    unfold copy_effect. destruct (fold_opt _ _ _); done.
  - right. by rewrite <- app_assoc.
Qed.

Lemma update_marker_flags_cases env src w w' r :
  clean w → update_marker_flags env src w = (w', r) →
  (r = Return tt ∧
   w' = (let tb := flags_effect set_flag_if_false src (committed (pg_conn w)) in
         mk_world (mk_conn tb tb) (stdout w ++ [MsgFlagsPhase])))
  ∨ (r = Raise (SystemExit 1) ∧
     w' = mk_world (mk_conn (committed (pg_conn w)) (committed (pg_conn w)))
            (stdout w ++ [MsgFlagsPhase; MsgFlagsError; MsgRolledBack])).
Proof.
  intros Hclean. unfold update_marker_flags.
  unfold bind at 1. unfold print at 1. intros E.
  eapply try_except_cases in E;
    [ | apply tx_commits_bind; [apply tx_body_ret|];
        apply tx_commits_bind;
          [apply tx_body_for_each; intros id; apply tx_body_execute|];
        apply tx_commits_commit
      | apply rolls_back_intro | done ].
  simpl in E. destruct E as [(tb & Htb & -> & ->)|[-> ->]].
  - left. split; [done|].
    change (λ x : Z, pg_apply (UpdateFlagIfFalse x))
      with (λ id db, Some (mk_pg (alter set_flag_if_false id (pg_markers db)) (pg_spectra db)))
      in Htb.
    rewrite fold_opt_alter in Htb. simpl in Htb. injection Htb as <-. done.
  - right. by rewrite <- app_assoc.
Qed.

Lemma speed_loop_cases env src fuel off w w' r :
  clean w → (length (drop off (select_speed src)) < fuel)%nat →
  speed_loop env src fuel off w = (w', r) →
  stdout w' = stdout w ∧
  match r with
  | Return _ =>
      pg_conn w' =
        (let d := speed_effect (drop off (select_speed src)) (committed (pg_conn w)) in
         mk_conn d d)
  | Raise e =>
      is_exception e = true ∧
      ∃ k, (k * BATCH_SIZE < length (drop off (select_speed src)))%nat ∧
           committed (pg_conn w') =
             speed_effect (take (k * BATCH_SIZE) (drop off (select_speed src)))
               (committed (pg_conn w))
  end.
Proof.
  revert off w. induction fuel as [|fuel IH]; intros off w Hclean Hfuel; [lia|].
  simpl. unfold select_speed_batch.
  set (L := drop off (select_speed src)) in *.
  destruct (take BATCH_SIZE L) as [|p b] eqn:Eb.
  - intros [= <- <-]. split; [done|].
    apply take_nil_inv in Eb; [|apply BATCH_SIZE_pos]. rewrite Eb. simpl.
    rewrite speed_effect_nil. destruct w as [[c q] o]. unfold clean in Hclean.
    simpl in *. by subst.
  - assert (HL : (0 < length L)%nat).
    { destruct L; [by rewrite take_nil in Eb|simpl; lia]. }
    unfold bind, pg_begin, ret, pg_execute, pg_commit. simpl.
    destruct (pg_rejects env (UpdateSpeedValues (p :: b)) _).
    { intros [= <- <-]. split; [done|]. split; [done|].
      exists 0%nat. simpl. split; [done|]. by rewrite speed_effect_nil. }
    destruct (pg_rejects env Commit _).
    { intros [= <- <-]. split; [done|]. split; [done|].
      exists 0%nat. simpl. split; [done|]. by rewrite speed_effect_nil. }
    intros E. apply IH in E; [|done|].
    2:{ rewrite <- drop_drop. fold L. rewrite length_drop.
        pose proof BATCH_SIZE_pos. lia. }
    simpl in E. destruct E as [Ho Hr]. split; [done|].
    rewrite <- drop_drop in Hr. fold L in Hr.
    change (mk_pg (foldl set_speed_if_unset
                     (set_speed_if_unset (pg_markers (pending (pg_conn w))) p) b)
              (pg_spectra (pending (pg_conn w))))
      with (speed_effect (p :: b) (pending (pg_conn w))) in Hr.
    rewrite <- Eb, Hclean in Hr.
    destruct r as [[]|e].
    + rewrite Hr. simpl. rewrite <- speed_effect_app, take_drop. done.
    + destruct Hr as [He (k & Hk & Hr)]. split; [done|].
      exists (S k). rewrite length_drop in Hk. split.
      { simpl. lia. }
      rewrite Hr, <- speed_effect_app. simpl.
      by rewrite take_take_drop.
Qed.

Lemma migrate_speed_data_cases env src w w' r :
  clean w → migrate_speed_data env src w = (w', r) →
  (r = Return tt ∧
   w' = (let d := speed_effect (select_speed src) (committed (pg_conn w)) in
         mk_world (mk_conn d d) (stdout w ++ [MsgSpeedPhase])))
  ∨ (r = Raise (SystemExit 1) ∧
     ∃ k, (k * BATCH_SIZE < length (select_speed src))%nat ∧
       w' = (let d := speed_effect (take (k * BATCH_SIZE) (select_speed src))
                        (committed (pg_conn w)) in
             mk_world (mk_conn d d)
               (stdout w ++ [MsgSpeedPhase; MsgSpeedError; MsgRolledBack]))).
Proof.
  intros Hclean. unfold migrate_speed_data.
  unfold bind at 1. unfold print at 1. unfold try_except.
  destruct (speed_loop _ _ _ _ _) as [w1 r1] eqn:E.
  apply speed_loop_cases in E; [|done|rewrite drop_0; lia].
  rewrite drop_0 in E.
  simpl in E. destruct E as [Ho Hr].
  destruct r1 as [[]|e].
  - intros [= <- <-]. left. split; [done|].
    destruct w1 as [c o]. simpl in *. by subst.
  - destruct Hr as [He (k & Hk & Hr)]. rewrite He.
    rewrite (rolls_back_intro _ _ e). intros [= <- <-]. right. split; [done|].
    exists k. split; [done|]. simpl. rewrite Hr, Ho, <- app_assoc. done.
Qed.

End all_phases.

(** ** The runs of [migrate_all_data.py] *)

Lemma clean_world_at db msgs : clean (world_at db msgs).
Proof. done. Qed.

Lemma flags_speed_outcome env src ans t0 ta :
  started src ans t0 →
  spectra_phase (utcoffset env) src t0 = Some ta →
  all_outcome env src ans t0
    ((migrate_all_data.update_marker_flags env src ;;
      (if 0 <? speed_to_migrate src t0
       then migrate_all_data.migrate_speed_data env src
       else print MsgSpeedSkipped))
       (world_at ta (greeting src t0 ++ [spectra_msg src t0]))).
Proof.
  intros Hs Hta. unfold bind.
  destruct (migrate_all_data.update_marker_flags env src _) as [w1 r1] eqn:E1.
  apply update_marker_flags_cases in E1; [|apply clean_world_at].
  cbn [world_at pg_conn committed stdout] in E1.
  rewrite <- !app_assoc in E1. cbn [app] in E1.
  destruct E1 as [[-> ->]|[-> ->]].
  2:{ by apply all_flags_failed. }
  cbv zeta. pose proof (all_completed env src ans t0 ta Hs Hta) as Hdone.
  unfold speed_phase, speed_msg in Hdone.
  destruct (0 <? speed_to_migrate src t0) eqn:Hg.
  - destruct (migrate_all_data.migrate_speed_data env src _) as [w2 r2] eqn:E2.
    apply migrate_speed_data_cases in E2; [|done].
    cbn [pg_conn committed stdout] in E2.
    rewrite <- !app_assoc in E2. cbn [app] in E2.
    destruct E2 as [[-> ->]|[-> (k & Hk & ->)]].
    + apply Hdone.
    + apply all_speed_failed; [done|done|lia|done].
  - unfold print. cbn [pg_conn stdout]. rewrite <- app_assoc. apply Hdone.
Qed.

Lemma phases_outcome env src ans t0 :
  started src ans t0 →
  all_outcome env src ans t0
    (((if 0 <? spectra_to_migrate src t0
       then migrate_all_data.migrate_spectral_data env src
       else print MsgSpectraSkipped) ;;
      migrate_all_data.update_marker_flags env src ;;
      (if 0 <? speed_to_migrate src t0
       then migrate_all_data.migrate_speed_data env src
       else print MsgSpeedSkipped))
       (world_at t0 (greeting src t0))).
Proof.
  intros Hs. unfold bind at 1.
  pose proof (flags_speed_outcome env src ans t0) as Hrest.
  unfold spectra_phase, spectra_msg in Hrest.
  destruct (0 <? spectra_to_migrate src t0) eqn:Hg.
  - destruct (migrate_all_data.migrate_spectral_data env src _) as [w1 r1] eqn:E1.
    apply migrate_spectral_data_cases in E1; [|apply clean_world_at].
    cbn [world_at pg_conn committed stdout] in E1.
    destruct E1 as [(ta & Hta & -> & ->)|[-> ->]].
    + by apply Hrest.
    + apply all_spectra_failed; [done|lia].
  - unfold print at 1. by apply Hrest.
Qed.

Lemma main_all_outcome env src ans t0 :
  all_outcome env src ans t0 (run (migrate_all_data.main env src ans) t0).
Proof.
  unfold run, migrate_all_data.main. cbv zeta.
  change ((count_rows (sqlite_spectra src) =? 0) && (count_speed (sqlite_markers src) =? 0))
    with (nothing_to_migrate src).
  destruct (nothing_to_migrate src) eqn:Hn.
  { apply all_nothing. done. }
  unfold bind at 1. unfold pg_read at 1. cbn [pending pg_conn].
  change (count_rows (sqlite_spectra src) - count_rows (pg_spectra t0))
    with (spectra_to_migrate src t0).
  change (count_speed (sqlite_markers src) - count_speed (pg_markers t0))
    with (speed_to_migrate src t0).
  change ((spectra_to_migrate src t0 <=? 0) && (speed_to_migrate src t0 <=? 0))
    with (already_migrated src t0).
  pose proof (phases_outcome env src ans t0) as Hrest.
  pose proof (all_declined env src ans t0 Hn) as Hno.
  unfold started, greeting in *.
  unfold bind at 1.
  destruct (already_migrated src t0) eqn:Ha.
  - unfold bind at 1. unfold print at 1. cbn [pg_conn stdout app].
    destruct (is_yes (migrate_all_data.recheck ans)) eqn:Hy1.
    + unfold ret at 1. unfold bind at 1.
      destruct (is_yes (migrate_all_data.proceed ans)) eqn:Hy2.
      * unfold ret at 1. by apply Hrest.
      * by apply Hno.
    + by apply all_declined_recheck.
  - unfold ret at 1. unfold bind at 1.
    destruct (is_yes (migrate_all_data.proceed ans)) eqn:Hy2.
    + unfold ret at 1. by apply Hrest.
    + by apply Hno.
Qed.

(** The loop of part 3 never runs out of its bound: a run ends by
    returning or by [sys.exit] with code 0 or 1. *)
Lemma main_all_terminates env src ans t0 :
  let o := run (migrate_all_data.main env src ans) t0 in
  o.2 = Return tt ∨ o.2 = Raise (SystemExit 0) ∨ o.2 = Raise (SystemExit 1).
Proof.
  intros o. pose proof (main_all_outcome env src ans t0) as H. fold o in H.
  inversion H; subst; simpl; auto.
Qed.

(** ** The rows the source queries return *)

Lemma elem_of_select_spectra src id s :
  (id, s) ∈ select_spectra src ↔ sqlite_spectra src !! id = Some s.
Proof.
  unfold select_spectra. rewrite merge_sort_Permutation.
  apply elem_of_map_to_list.
Qed.

Lemma NoDup_select_spectra src : NoDup (select_spectra src).*1.
Proof.
  unfold select_spectra. rewrite merge_sort_Permutation.
  apply NoDup_fst_map_to_list.
Qed.

Lemma elem_of_select_flagged src id :
  id ∈ select_flagged src ↔
  ∃ m, sqlite_markers src !! id = Some m ∧ has_spectrum m = true.
Proof.
  unfold select_flagged. rewrite list_elem_of_fmap. split.
  - intros ([k m] & -> & Hin). apply elem_of_map_to_list in Hin.
    apply map_lookup_filter_Some in Hin as [? ?]. eauto.
  - intros (m & Hm & Hf). exists (id, m). split; [done|].
    apply elem_of_map_to_list, map_lookup_filter_Some. done.
Qed.

Lemma NoDup_select_flagged src : NoDup (select_flagged src).
Proof. apply NoDup_fst_map_to_list. Qed.

Lemma speed_row_Some kv id v :
  speed_row kv = Some (id, v) ↔ kv.1 = id ∧ speed kv.2 = Some v ∧ 0 < v.
Proof.
  unfold speed_row. destruct kv as [k m]. simpl.
  destruct (speed m) as [x|]; [|naive_solver].
  destruct (0 <? x) eqn:E.
  - apply Z.ltb_lt in E. naive_solver.
  - apply Z.ltb_ge in E. split; [done|]. intros (_ & [= ->] & ?). lia.
Qed.

Lemma elem_of_select_speed src id v :
  (id, v) ∈ select_speed src ↔
  ∃ m, sqlite_markers src !! id = Some m ∧ speed m = Some v ∧ 0 < v.
Proof.
  unfold select_speed. rewrite list_elem_of_omap. split.
  - intros ([k m] & Hin & Hrow).
    rewrite merge_sort_Permutation in Hin. apply elem_of_map_to_list in Hin.
    apply speed_row_Some in Hrow as (<- & ? & ?). eauto.
  - intros (m & Hm & Hv & Hpos). exists (id, m). split.
    + rewrite merge_sort_Permutation. by apply elem_of_map_to_list.
    + by apply speed_row_Some.
Qed.

Lemma omap_speed_row_fst l id :
  id ∈ (omap speed_row l).*1 → id ∈ l.*1.
Proof.
  rewrite !list_elem_of_fmap. intros ([k v] & -> & Hin).
  apply list_elem_of_omap in Hin as (kv & Hin & Hrow).
  apply speed_row_Some in Hrow as (<- & _). eauto.
Qed.

Lemma NoDup_omap_speed_row l : NoDup l.*1 → NoDup (omap speed_row l).*1.
Proof.
  induction l as [|kv l IH]; simpl; [done|].
  rewrite NoDup_cons. intros [Hnin Hnd].
  destruct (speed_row kv) as [[k v]|] eqn:E; simpl; [|by apply IH].
  apply speed_row_Some in E as (<- & _).
  apply NoDup_cons. split; [|by apply IH].
  intros Hin. by apply Hnin, omap_speed_row_fst.
Qed.

Lemma NoDup_select_speed src : NoDup (select_speed src).*1.
Proof.
  unfold select_speed. apply NoDup_omap_speed_row.
  rewrite merge_sort_Permutation. apply NoDup_fst_map_to_list.
Qed.

Lemma select_speed_positive src id v : (id, v) ∈ select_speed src → 0 < v.
Proof. rewrite elem_of_select_speed. naive_solver. Qed.

(** ** The insert loop, row by row *)

Lemma fold_insert_markers tz rows db db' :
  fold_opt (insert_effect tz) rows db = Some db' → pg_markers db' = pg_markers db.
Proof.
  revert db. induction rows as [|[id s] rows IH]; intros db; simpl.
  - by intros [= ->].
  - unfold insert_effect at 1. simpl.
    destruct (pg_spectra db !! id); [by apply IH|].
    destruct (converted tz s); [|done].
    intros E. by rewrite (IH _ E).
Qed.

Lemma fold_insert_keeps tz rows db db' id r :
  fold_opt (insert_effect tz) rows db = Some db' →
  pg_spectra db !! id = Some r → pg_spectra db' !! id = Some r.
Proof.
  revert db. induction rows as [|[k s] rows IH]; intros db; simpl.
  - by intros [= ->].
  - unfold insert_effect at 1. simpl.
    destruct (pg_spectra db !! k) eqn:Ek; [by apply IH|].
    destruct (converted tz s); [|done].
    intros E Hid. apply (IH _ E). simpl.
    rewrite lookup_insert_ne; [done|]. congruence.
Qed.

Lemma fold_insert_absent tz rows db db' id :
  fold_opt (insert_effect tz) rows db = Some db' →
  pg_spectra db !! id = None → id ∉ rows.*1 → pg_spectra db' !! id = None.
Proof.
  revert db. induction rows as [|[k s] rows IH]; intros db; simpl.
  - by intros [= ->].
  - rewrite not_elem_of_cons. unfold insert_effect at 1. simpl.
    destruct (pg_spectra db !! k) eqn:Ek; [naive_solver|].
    destruct (converted tz s); [|done].
    intros E Hid [Hne Hnin]. apply (IH _ E); [|done]. simpl.
    by rewrite lookup_insert_ne.
Qed.

Lemma fold_insert_new tz rows db db' id s :
  fold_opt (insert_effect tz) rows db = Some db' →
  NoDup rows.*1 → (id, s) ∈ rows → pg_spectra db !! id = None →
  ∃ r, converted tz s = Some r ∧ pg_spectra db' !! id = Some r.
Proof.
  revert db. induction rows as [|[k s'] rows IH]; intros db; simpl.
  - intros _ _ Hin. by apply elem_of_nil in Hin.
  - rewrite NoDup_cons, elem_of_cons. unfold insert_effect at 1. simpl.
    intros E [Hnin Hnd] [[= <- <-]|Hin] Hid.
    + rewrite Hid in E. destruct (converted tz s) as [r|]; [|done].
      exists r. split; [done|].
      apply (fold_insert_keeps _ _ _ _ _ _ E). simpl. apply lookup_insert_eq.
    + assert (k ≠ id).
      { intros ->. apply Hnin, list_elem_of_fmap. by exists (id, s). }
      destruct (pg_spectra db !! k) eqn:Ek; [by apply (IH _ E)|].
      destruct (converted tz s'); [|done].
      apply (IH _ E); [done|done|]. simpl. by rewrite lookup_insert_ne.
Qed.

(** The spectra after a copy that went through: what the target had, and
    for every other id of the source the converted row. *)
Lemma copy_effect_lookup tz src db db' id :
  copy_effect tz src db = Some db' →
  pg_spectra db' !! id =
    match pg_spectra db !! id with
    | Some r => Some r
    | None => sqlite_spectra src !! id ≫= converted tz
    end.
Proof.
  unfold copy_effect. intros E.
  destruct (pg_spectra db !! id) as [r|] eqn:Hid.
  - by apply (fold_insert_keeps _ _ _ _ _ _ E).
  - destruct (sqlite_spectra src !! id) as [s|] eqn:Hs; simpl.
    + destruct (fold_insert_new _ _ _ _ id s E) as (r & Hr & Hl);
        [apply NoDup_select_spectra|by apply elem_of_select_spectra|done|].
      congruence.
    + apply (fold_insert_absent _ _ _ _ _ E); [done|].
      rewrite list_elem_of_fmap. intros ([k s] & -> & Hin).
      apply elem_of_select_spectra in Hin. simpl in *. congruence.
Qed.

Lemma copy_effect_present tz src db db' id :
  copy_effect tz src db = Some db' →
  is_Some (sqlite_spectra src !! id) → is_Some (pg_spectra db' !! id).
Proof.
  unfold copy_effect. intros E [s Hs].
  destruct (pg_spectra db !! id) as [r|] eqn:Hid.
  - exists r. by apply (fold_insert_keeps _ _ _ _ _ _ E).
  - destruct (fold_insert_new _ _ _ _ id s E) as (r & Hr & Hl);
      [apply NoDup_select_spectra|by apply elem_of_select_spectra|done|].
    by exists r.
Qed.

Lemma copy_effect_markers tz src db db' :
  copy_effect tz src db = Some db' → pg_markers db' = pg_markers db.
Proof. apply fold_insert_markers. Qed.

(** A copy onto a target that has every id of the source changes nothing. *)
Lemma copy_effect_noop tz src db db' :
  copy_effect tz src db = Some db' →
  (∀ id, is_Some (sqlite_spectra src !! id) → is_Some (pg_spectra db !! id)) →
  db' = db.
Proof.
  intros E Hall. destruct db as [ms sp], db' as [ms' sp'].
  pose proof (copy_effect_markers _ _ _ _ E) as Hm. simpl in *. subst ms'.
  f_equal. apply map_eq. intros id.
  pose proof (copy_effect_lookup _ _ _ _ id E) as Hl. simpl in Hl. rewrite Hl.
  destruct (sp !! id) eqn:Hid; [done|].
  destruct (sqlite_spectra src !! id) as [s|] eqn:Hs; [|done].
  destruct (Hall id) as [r Hr]; [by eexists|]. congruence.
Qed.

(** ** The flag updates, marker by marker *)

Lemma foldl_alter_lookup (f : Marker → Marker) ids (ms : gmap Z Marker) k :
  NoDup ids →
  foldl (λ ms id, alter f id ms) ms ids !! k
  = if decide (k ∈ ids) then f <$> ms !! k else ms !! k.
Proof.
  revert ms. induction ids as [|id ids IH]; intros ms; cbn [foldl].
  - intros _. case_decide as H; [by apply elem_of_nil in H|done].
  - rewrite NoDup_cons. intros [Hnin Hnd]. rewrite IH by done.
    destruct (decide (k = id)) as [->|Hne].
    + rewrite lookup_alter_eq.
      rewrite (decide_False (P := id ∈ ids)) by done.
      rewrite (decide_True (P := id ∈ id :: ids)) by apply list_elem_of_here.
      done.
    + rewrite lookup_alter_ne by done.
      destruct (decide (k ∈ ids)) as [Hin|Hin'].
      * rewrite (decide_True (P := k ∈ id :: ids)) by (by apply list_elem_of_further).
        done.
      * rewrite (decide_False (P := k ∈ id :: ids)); [done|].
        rewrite elem_of_cons. naive_solver.
Qed.

Lemma flags_effect_lookup f src db k :
  pg_markers (flags_effect f src db) !! k
  = if decide (k ∈ select_flagged src) then f <$> pg_markers db !! k
    else pg_markers db !! k.
Proof. apply foldl_alter_lookup, NoDup_select_flagged. Qed.

Lemma flags_effect_spectra f src db :
  pg_spectra (flags_effect f src db) = pg_spectra db.
Proof. done. Qed.

(** Once the flagged markers of the source are flagged in the target, the
    flag updates of either script change nothing. *)
Lemma flags_effect_noop f src db :
  (∀ m, has_spectrum m = true → f m = m) →
  (∀ k m, k ∈ select_flagged src → pg_markers db !! k = Some m → has_spectrum m = true) →
  flags_effect f src db = db.
Proof.
  intros Hf Hall. destruct db as [ms sp]. unfold flags_effect. simpl. f_equal.
  apply map_eq. intros k.
  pose proof (flags_effect_lookup f src (mk_pg ms sp) k) as Hl. simpl in Hl.
  unfold flags_effect in Hl. simpl in Hl. rewrite Hl.
  case_decide as Hin; [|done].
  destruct (ms !! k) as [m|] eqn:Hk; [|done]. simpl.
  by rewrite (Hf m (Hall k m Hin Hk)).
Qed.

Lemma set_flag_if_false_flagged m : has_spectrum (set_flag_if_false m) = true.
Proof. unfold set_flag_if_false. by destruct (has_spectrum m) eqn:E. Qed.

Lemma set_flag_if_false_speed m : speed (set_flag_if_false m) = speed m.
Proof. unfold set_flag_if_false. by destruct (has_spectrum m). Qed.

Lemma set_flag_if_false_id m : has_spectrum m = true → set_flag_if_false m = m.
Proof. unfold set_flag_if_false. by intros ->. Qed.

Lemma set_flag_id m : has_spectrum m = true → set_flag m = m.
Proof. destruct m as [h v]. simpl. by intros ->. Qed.

(** ** The speed updates, marker by marker *)

Lemma set_speed_lookup ms v k :
  set_speed_if_unset ms v !! k
  = match ms !! k with
    | Some m =>
        if decide (k = v.1) then
          Some (if speed_unset m then mk_marker (has_spectrum m) (Some v.2) else m)
        else Some m
    | None => None
    end.
Proof.
  unfold set_speed_if_unset. destruct (decide (k = v.1)) as [->|Hne].
  - destruct (ms !! v.1) as [m|] eqn:E; rewrite ?E; [|done].
    destruct (speed_unset m); [by rewrite lookup_insert_eq|by rewrite E].
  - destruct (ms !! v.1) as [m|] eqn:E.
    + destruct (speed_unset m); [rewrite lookup_insert_ne by done|];
        by destruct (ms !! k).
    + by destruct (ms !! k).
Qed.

Lemma foldl_speed_absent rows (ms : gmap Z Marker) k :
  k ∉ rows.*1 → foldl set_speed_if_unset ms rows !! k = ms !! k.
Proof.
  revert ms. induction rows as [|v rows IH]; intros ms; simpl; [done|].
  rewrite not_elem_of_cons. intros [Hne Hnin]. rewrite IH by done.
  rewrite set_speed_lookup. destruct (ms !! k); [|done].
  by rewrite decide_False.
Qed.

Lemma foldl_speed_set rows (ms : gmap Z Marker) k m :
  ms !! k = Some m → speed_unset m = false →
  foldl set_speed_if_unset ms rows !! k = Some m.
Proof.
  revert ms. induction rows as [|v rows IH]; intros ms; simpl; [done|].
  intros Hk Hset. apply IH; [|done].
  rewrite set_speed_lookup, Hk, Hset. by case_decide.
Qed.

Lemma foldl_speed_None rows (ms : gmap Z Marker) k :
  ms !! k = None → foldl set_speed_if_unset ms rows !! k = None.
Proof.
  revert ms. induction rows as [|v rows IH]; intros ms; simpl; [done|].
  intros Hk. apply IH. by rewrite set_speed_lookup, Hk.
Qed.

Lemma foldl_speed_unset rows (ms : gmap Z Marker) k v m :
  NoDup rows.*1 → (k, v) ∈ rows → ms !! k = Some m → speed_unset m = true →
  foldl set_speed_if_unset ms rows !! k = Some (mk_marker (has_spectrum m) (Some v)).
Proof.
  revert ms. induction rows as [|[k' v'] rows IH]; intros ms; simpl.
  - intros _ Hin. by apply elem_of_nil in Hin.
  - rewrite NoDup_cons, elem_of_cons. intros [Hnin Hnd] [[= <- <-]|Hin] Hk Hun.
    + rewrite foldl_speed_absent by done.
      rewrite set_speed_lookup, Hk, Hun. simpl. by rewrite decide_True.
    + assert (k ≠ k').
      { intros ->. apply Hnin, list_elem_of_fmap. by exists (k', v). }
      apply IH; [done|done| |done].
      rewrite set_speed_lookup, Hk. simpl. by rewrite decide_False.
Qed.

(** Every marker keeps its flag, and no marker appears or disappears. *)
Lemma foldl_speed_flag rows (ms : gmap Z Marker) k :
  has_spectrum <$> foldl set_speed_if_unset ms rows !! k = has_spectrum <$> ms !! k.
Proof.
  revert ms. induction rows as [|v rows IH]; intros ms; simpl; [done|].
  rewrite IH, set_speed_lookup. destruct (ms !! k) as [m|]; [|done].
  case_decide; [|done]. simpl. by destruct (speed_unset m).
Qed.

(** Updates that find every speed of their rows set change nothing. *)
Lemma foldl_speed_noop rows (ms : gmap Z Marker) :
  (∀ k v m, (k, v) ∈ rows → ms !! k = Some m → speed_unset m = false) →
  foldl set_speed_if_unset ms rows = ms.
Proof.
  induction rows as [|[k v] rows IH]; simpl; [done|].
  intros Hall.
  assert (set_speed_if_unset ms (k, v) = ms) as ->.
  { unfold set_speed_if_unset. simpl. destruct (ms !! k) as [m|] eqn:Hk; [|done].
    rewrite (Hall k v m); [done|apply list_elem_of_here|done]. }
  apply IH. intros k' v' m' Hin. apply (Hall k' v' m'). by apply list_elem_of_further.
Qed.

(** After the updates every marker of their rows has its speed set. *)
Lemma foldl_speed_settled rows (ms : gmap Z Marker) k v m :
  (∀ k v, (k, v) ∈ rows → 0 < v) →
  (k, v) ∈ rows → foldl set_speed_if_unset ms rows !! k = Some m →
  speed_unset m = false.
Proof.
  revert ms. induction rows as [|[k' v'] rows IH]; intros ms Hpos; simpl.
  - intros Hin. by apply elem_of_nil in Hin.
  - rewrite elem_of_cons. intros [[= <- <-]|Hin] Hl.
    + destruct (set_speed_if_unset ms (k, v) !! k) as [m1|] eqn:E1.
      2:{ by rewrite foldl_speed_None in Hl. }
      assert (speed_unset m1 = false) as Hm1.
      { rewrite set_speed_lookup in E1. simpl in E1.
        destruct (ms !! k) as [m0|] eqn:E0; [|done].
        rewrite decide_True in E1 by done. injection E1 as <-.
        destruct (speed_unset m0) eqn:E; [|done].
        unfold speed_unset. simpl.
        assert (0 < v) by (apply (Hpos k v), list_elem_of_here). lia. }
      rewrite (foldl_speed_set _ _ _ _ E1 Hm1) in Hl. congruence.
    + eapply IH; [|done|done].
      intros k2 v2 H2. apply (Hpos k2 v2). by apply list_elem_of_further.
Qed.

(** ** The pre-flight counts *)

Lemma count_speed_fmap (ms : gmap Z Marker) :
  count_speed ms = Z.of_nat (size (filter (λ kv, positive kv.2 = true) (speed <$> ms))).
Proof.
  unfold count_speed. rewrite map_filter_fmap, map_size_fmap. done.
Qed.

Lemma count_speed_ext (ms ms' : gmap Z Marker) :
  (∀ k, speed <$> ms !! k = speed <$> ms' !! k) → count_speed ms = count_speed ms'.
Proof.
  intros H. rewrite !count_speed_fmap.
  replace (speed <$> ms) with (speed <$> ms'); [done|].
  apply map_eq. intros k. by rewrite !lookup_fmap.
Qed.

Lemma count_speed_flags f src db :
  (∀ m, speed (f m) = speed m) →
  count_speed (pg_markers (flags_effect f src db)) = count_speed (pg_markers db).
Proof.
  intros Hf. apply count_speed_ext. intros k. rewrite flags_effect_lookup.
  case_decide; [|done]. destruct (pg_markers db !! k); simpl; [|done].
  by rewrite Hf.
Qed.

(** ** The runs of [migrate_spectra.py] *)

Lemma main_spectra_outcome env src confirm t0 :
  spectra_outcome env src confirm t0 (run (migrate_spectra.main env src confirm) t0).
Proof.
  unfold run, migrate_spectra.main. cbv zeta.
  destruct (count_rows (sqlite_spectra src) =? 0) eqn:Hn.
  { apply spectra_nothing. lia. }
  destruct (is_yes confirm) eqn:Hy; cbn [negb].
  2:{ apply spectra_declined; [lia|done]. }
  destruct (try_except _ _ _) as [w r] eqn:E.
  eapply try_except_cases in E;
    [ | apply tx_commits_bind; [apply tx_body_ret|];
        apply tx_commits_bind; [apply tx_body_for_each, tx_body_insert_spectrum|];
        apply tx_commits_bind;
          [apply tx_body_for_each; intros id; apply tx_body_execute|];
        apply tx_commits_commit
      | apply rolls_back_intro | done ].
  cbn [pg_conn committed stdout mbind option_bind] in E.
  destruct E as [(tb & Htb & -> & ->)|[-> ->]].
  - fold (copy_effect (utcoffset env) src t0) in Htb.
    destruct (copy_effect (utcoffset env) src t0) as [ta|] eqn:Hta; [|done].
    simpl in Htb.
    change (λ x : Z, pg_apply (UpdateFlag x))
      with (λ id db, Some (mk_pg (alter set_flag id (pg_markers db)) (pg_spectra db)))
      in Htb.
    rewrite fold_opt_alter in Htb. simpl in Htb. injection Htb as <-.
    apply (spectra_completed env src confirm t0 ta); [lia|done|done].
  - apply spectra_failed; [lia|done].
Qed.

(** ** The runs of [update_spectra_columns.py] *)

Lemma update_loop_cases env rows w w' r :
  for_each (update_spectra_columns.update_spectrum env) rows w = (w', r) →
  committed (pg_conn w') = committed (pg_conn w) ∧
  match r with
  | Return _ =>
      pending (pg_conn w') = update_effect env rows (pending (pg_conn w)) ∧
      stdout w' = stdout w ++ warnings env rows
  | Raise e =>
      is_exception e = true ∧
      ∃ n, stdout w' = stdout w ++ warnings env (take n rows)
  end.
Proof.
  revert w. induction rows as [|[id s] rows IH]; intros w.
  - intros [= <- <-]. simpl. by rewrite app_nil_r.
  - cbn [for_each]. unfold bind at 1.
    unfold update_spectra_columns.update_spectrum at 1.
    assert (Hw : ∀ n, warnings env (take (S n) ((id, s) :: rows))
                      = warning env (id, s) ++ warnings env (take n rows)) by done.
    assert (Hw' : warnings env ((id, s) :: rows)
                  = warning env (id, s) ++ warnings env rows) by done.
    assert (He : ∀ db, update_effect env ((id, s) :: rows) db
                       = update_effect env rows (update_row_effect env db (id, s))) by done.
    rewrite Hw', He. unfold update_row_effect, warning in *. cbn [fst snd] in *.
    destruct (update_spectra_columns.parse_channels env (src_channels s)) as [chans|].
    + unfold pg_execute. destruct (pg_rejects env _ _).
      { intros [= <- <-]. split; [done|]. split; [done|].
        exists 0%nat. simpl. by rewrite app_nil_r. }
      cbn [pg_apply]. intros E. apply IH in E. cbn [pg_conn committed pending stdout] in E.
      destruct E as [Hc Hr]. split; [done|].
      destruct r as [[]|e]; [done|].
      destruct Hr as [Hex [n Hn]]. split; [done|].
      exists (S n). by rewrite Hw.
    + unfold print. intros E. apply IH in E. cbn [pg_conn committed pending stdout] in E.
      destruct E as [Hc Hr]. split; [done|].
      destruct r as [[]|e].
      * destruct Hr as [Hp Ho]. split; [done|]. by rewrite Ho, <- app_assoc.
      * destruct Hr as [Hex [n Hn]]. split; [done|].
        exists (S n). by rewrite Hw, Hn, <- app_assoc.
Qed.

Lemma main_update_outcome env src confirm t0 :
  update_outcome env src confirm t0
    (run (update_spectra_columns.main env src confirm) t0).
Proof.
  unfold run, update_spectra_columns.main.
  unfold bind at 1. unfold pg_read at 1. cbn [pg_conn pending]. cbv zeta.
  destruct (update_spectra_columns.count_null_channels (pg_spectra t0) =? 0) eqn:Hn.
  { apply update_nothing. lia. }
  destruct (is_yes confirm) eqn:Hy; cbn [negb].
  2:{ apply update_declined; [lia|done]. }
  unfold try_except. unfold bind at 1. unfold pg_begin at 1, ret at 1.
  unfold bind at 1.
  destruct (for_each _ _ _) as [w1 r1] eqn:E1.
  apply update_loop_cases in E1. cbn [pg_conn committed pending stdout app] in E1.
  destruct E1 as [Hc Hr]. destruct w1 as [[c1 p1] o1]. cbn in Hc, Hr. subst c1.
  destruct r1 as [[]|e].
  - destruct Hr as [-> ->]. unfold pg_commit. cbn [pg_conn pending committed stdout].
    destruct (pg_rejects env Commit _).
    + cbn. pose proof (update_failed env src confirm t0
        (length (update_spectra_columns.select_with_channels src))) as H.
      rewrite firstn_all in H. apply H; [lia|done].
    + apply update_completed; [lia|done].
  - destruct Hr as [-> [n ->]]. cbn.
    apply update_failed; [lia|done].
Qed.

(** ** Runs that complete, and what a second run finds *)

Lemma speed_phase_spectra src t0 tb : pg_spectra (speed_phase src t0 tb) = pg_spectra tb.
Proof. unfold speed_phase. by destruct (0 <? _). Qed.

Lemma speed_phase_flag src t0 tb k :
  has_spectrum <$> pg_markers (speed_phase src t0 tb) !! k
  = has_spectrum <$> pg_markers tb !! k.
Proof. unfold speed_phase. destruct (0 <? _); [apply foldl_speed_flag|done]. Qed.

Lemma spectra_phase_markers tz src t0 ta :
  spectra_phase tz src t0 = Some ta → pg_markers ta = pg_markers t0.
Proof.
  unfold spectra_phase. destruct (0 <? _); [apply copy_effect_markers|by intros [= ->]].
Qed.

Lemma converted_fields tz s r :
  converted tz s = Some r →
  marker_id r = src_marker_id s ∧ channels r = src_channels s ∧
  ∃ epoch, src_created_at s = Some epoch ∧
           created_at r = calendar (epoch + tz epoch).
Proof.
  unfold converted. destruct (src_created_at s) as [epoch|]; [|done].
  destruct (local_datetime tz epoch) as [dt|] eqn:Hdt; [|done]. intros [= <-]. simpl.
  split; [done|]. split; [done|]. exists epoch. split; [done|].
  unfold local_datetime in Hdt. cbv zeta in Hdt.
  repeat (case_match; try done); by injection Hdt as <-.
Qed.

(** A completed run of [main]: the target it leaves. *)
Lemma main_all_completed env src ans t0 :
  (run (migrate_all_data.main env src ans) t0).2 = Return tt →
  started src ans t0 ∧
  ∃ ta, spectra_phase (utcoffset env) src t0 = Some ta ∧
        run (migrate_all_data.main env src ans) t0
        = (world_at (speed_phase src t0 (flags_effect set_flag_if_false src ta))
             (greeting src t0 ++ [spectra_msg src t0; MsgFlagsPhase; speed_msg src t0]),
           Return tt).
Proof.
  pose proof (main_all_outcome env src ans t0) as H.
  destruct (run _ t0) as [w r]. simpl. intros ->.
  inversion H; subst. eauto.
Qed.

Lemma main_spectra_completed env src confirm t0 :
  (run (migrate_spectra.main env src confirm) t0).2 = Return tt →
  ∃ ta, copy_effect (utcoffset env) src t0 = Some ta ∧
        run (migrate_spectra.main env src confirm) t0
        = (world_at (flags_effect set_flag src ta) [], Return tt).
Proof.
  pose proof (main_spectra_outcome env src confirm t0) as H.
  destruct (run _ t0) as [w r]. simpl. intros ->.
  inversion H; subst. eauto.
Qed.

(** Part 1 on a target that already went through part 1 inserts nothing. *)
Lemma spectra_phase_again tz1 tz2 src t0 ta t1 ta2 :
  spectra_phase tz1 src t0 = Some ta →
  pg_spectra t1 = pg_spectra ta →
  spectra_phase tz2 src t1 = Some ta2 →
  ta2 = t1.
Proof.
  unfold spectra_phase, spectra_to_migrate. intros H1 Hsp H2.
  destruct (0 <? count_rows (sqlite_spectra src) - count_rows (pg_spectra t1)) eqn:G2;
    [|congruence].
  apply (copy_effect_noop _ _ _ _ H2). intros id Hid. rewrite Hsp.
  destruct (0 <? count_rows (sqlite_spectra src) - count_rows (pg_spectra t0)) eqn:G1.
  - by apply (copy_effect_present _ _ _ _ _ H1).
  - injection H1 as <-. rewrite Hsp in G2. congruence.
Qed.

(** Part 2 on a target whose flags went through part 2 changes nothing. *)
Lemma flags_effect_again f src ta t1 :
  (∀ m, has_spectrum m = true → f m = m) →
  (∀ k, has_spectrum <$> pg_markers t1 !! k
        = has_spectrum <$> pg_markers (flags_effect set_flag_if_false src ta) !! k) →
  flags_effect f src t1 = t1.
Proof.
  intros Hf H. apply flags_effect_noop; [done|]. intros k m Hin Hk.
  specialize (H k). rewrite Hk, flags_effect_lookup, decide_True in H by done.
  destruct (pg_markers ta !! k) as [m0|]; [|done]. simpl in H.
  injection H as ->. apply set_flag_if_false_flagged.
Qed.

(** Speed updates that ran once find nothing left to set. *)
Lemma speed_effect_again src n m db :
  speed_effect (take n (select_speed src)) (speed_effect (take m (select_speed src)) db)
  = speed_effect (take m (select_speed src)) db ∨ (m < n)%nat.
Proof.
  destruct (decide (n ≤ m)%nat) as [Hle|]; [left|right; lia].
  unfold speed_effect at 1. cbn [pg_markers pg_spectra speed_effect].
  rewrite foldl_speed_noop; [done|].
  intros k v mk Hin Hk. eapply (foldl_speed_settled _ _ k v); [| |exact Hk].
  - intros k' v' Hin'. apply (select_speed_positive src k').
    by apply (subseteq_take m).
  - apply list_elem_of_lookup in Hin as (i & Hi).
    apply lookup_take_Some in Hi as [Hi Hlt].
    apply list_elem_of_lookup. exists i. apply lookup_take_Some. split; [done|lia].
Qed.

Lemma speed_effect_idem src n db :
  speed_effect (take n (select_speed src)) (speed_effect (take n (select_speed src)) db)
  = speed_effect (take n (select_speed src)) db.
Proof. destruct (speed_effect_again src n n db); [done|lia]. Qed.

Lemma speed_effect_prefix src n db :
  speed_effect (select_speed src) (speed_effect (take n (select_speed src)) db)
  = speed_effect (select_speed src) db.
Proof.
  rewrite <- (take_drop n (select_speed src)) at 1.
  rewrite speed_effect_app, speed_effect_idem, <- speed_effect_app, take_drop. done.
Qed.

Lemma speed_effect_full_prefix src n db :
  speed_effect (take n (select_speed src)) (speed_effect (select_speed src) db)
  = speed_effect (select_speed src) db.
Proof.
  rewrite <- (firstn_all (select_speed src)) at 2 3.
  destruct (speed_effect_again src n (length (select_speed src)) db) as [H|H]; [done|].
  rewrite (take_ge _ n) by lia. rewrite firstn_all. rewrite <- (firstn_all (select_speed src)) at 1 2 3.
  apply speed_effect_idem.
Qed.

Lemma speed_effect_take_all src db :
  speed_effect (take (length (select_speed src)) (select_speed src)) db
  = speed_effect (select_speed src) db.
Proof. by rewrite firstn_all. Qed.

(** The speed gate is still open after a run only if the run went through
    part 3. *)
Lemma speed_gate_again src t0 tb :
  count_speed (pg_markers tb) = count_speed (pg_markers t0) →
  0 < speed_to_migrate src (speed_phase src t0 tb) →
  speed_phase src t0 tb = speed_effect (select_speed src) tb.
Proof.
  unfold speed_phase, speed_to_migrate. intros Hc.
  destruct (0 <? count_speed (sqlite_markers src) - count_speed (pg_markers t0)) eqn:G;
    [done|].
  rewrite Hc. lia.
Qed.

Section rerun.
Context (env1 env2 : Env) (src : SqliteDb) (t0 ta : PgDb).
Hypothesis Hta : spectra_phase (utcoffset env1) src t0 = Some ta.

Let tb := flags_effect set_flag_if_false src ta.
Let t1 := speed_phase src t0 tb.

Lemma rerun_spectra ta2 :
  spectra_phase (utcoffset env2) src t1 = Some ta2 → ta2 = t1.
Proof.
  apply (spectra_phase_again _ _ _ _ _ _ _ Hta).
  unfold t1. by rewrite speed_phase_spectra.
Qed.

Lemma rerun_flags : flags_effect set_flag_if_false src t1 = t1.
Proof.
  apply (flags_effect_again _ _ ta); [apply set_flag_if_false_id|].
  intros k. apply speed_phase_flag.
Qed.

Lemma rerun_count : count_speed (pg_markers tb) = count_speed (pg_markers t0).
Proof.
  unfold tb. rewrite count_speed_flags by apply set_flag_if_false_speed.
  by rewrite (spectra_phase_markers _ _ _ _ Hta).
Qed.

Lemma rerun_speed n :
  0 < speed_to_migrate src t1 →
  speed_effect (take n (select_speed src)) t1 = t1.
Proof.
  intros G. unfold t1 in *. rewrite (speed_gate_again _ _ _ rerun_count G).
  apply speed_effect_full_prefix.
Qed.

Lemma rerun_speed_phase : speed_phase src t1 t1 = t1.
Proof.
  unfold speed_phase at 1. destruct (0 <? speed_to_migrate src t1) eqn:G; [|done].
  rewrite <- speed_effect_take_all. apply rerun_speed. lia.
Qed.

(** Whatever a second run does, it leaves the target as the first left it. *)
Lemma rerun_fixed ans o :
  all_outcome env2 src ans t1 o → committed (pg_conn o.1) = t1.
Proof.
  intros H. inversion H as [| | | |ta2 Hs H2|ta2 k Hs H2 G Hk|ta2 Hs H2]; subst; simpl;
    try done.
  - by apply rerun_spectra.
  - apply rerun_spectra in H2 as ->. rewrite rerun_flags. by apply rerun_speed.
  - apply rerun_spectra in H2 as ->. rewrite rerun_flags. apply rerun_speed_phase.
Qed.

End rerun.

Lemma main_all_rerun env1 env2 src ans1 ans2 t0 :
  (run (migrate_all_data.main env1 src ans1) t0).2 = Return tt →
  target_after (run (migrate_all_data.main env2 src ans2)
                  (target_after (run (migrate_all_data.main env1 src ans1) t0)))
  = target_after (run (migrate_all_data.main env1 src ans1) t0).
Proof.
  intros H. apply main_all_completed in H as (_ & ta & Hta & ->).
  unfold target_after at 2 3. simpl.
  apply (rerun_fixed env1 env2 src t0 ta Hta ans2), main_all_outcome.
Qed.

Lemma main_spectra_rerun env1 env2 src c1 c2 t0 :
  (run (migrate_spectra.main env1 src c1) t0).2 = Return tt →
  target_after (run (migrate_spectra.main env2 src c2)
                  (target_after (run (migrate_spectra.main env1 src c1) t0)))
  = target_after (run (migrate_spectra.main env1 src c1) t0).
Proof.
  intros H. apply main_spectra_completed in H as (ta & Hta & ->).
  unfold target_after at 2 3. simpl.
  pose proof (main_spectra_outcome env2 src c2 (flags_effect set_flag src ta)) as H.
  destruct (run _ _) as [w r]. unfold target_after. simpl.
  inversion H as [| | |ta2 Hn Hy H2]; subst; simpl; try done.
  assert (ta2 = flags_effect set_flag src ta) as ->.
  { apply (copy_effect_noop _ _ _ _ H2). intros id Hid.
    rewrite flags_effect_spectra. by apply (copy_effect_present _ _ _ _ _ Hta). }
  apply flags_effect_noop; [apply set_flag_id|].
  intros k m Hin. rewrite flags_effect_lookup, decide_True by done.
  destruct (pg_markers ta !! k); [|done]. by intros [= <-].
Qed.

(** ** What every run keeps of the markers *)

Lemma markers_kept_refl ms : markers_kept ms ms.
Proof. intros k m Hk. exists m. by split. Qed.

Lemma markers_kept_trans ms1 ms2 ms3 :
  markers_kept ms1 ms2 → markers_kept ms2 ms3 → markers_kept ms1 ms3.
Proof.
  intros H12 H23 k m Hk.
  destruct (H12 k m Hk) as (m2 & Hk2 & Hf2 & Hs2).
  destruct (H23 k m2 Hk2) as (m3 & Hk3 & Hf3 & Hs3).
  exists m3. split; [done|]. split; [naive_solver|].
  intros Hset. rewrite Hs3, Hs2; [done|done|].
  unfold speed_unset in *. by rewrite (Hs2 Hset).
Qed.

Lemma markers_kept_flags f src db :
  (∀ m, marker_kept m (f m)) →
  markers_kept (pg_markers db) (pg_markers (flags_effect f src db)).
Proof.
  intros Hf k m Hk. rewrite flags_effect_lookup, Hk.
  case_decide; simpl; [by exists (f m)|]. exists m. by split.
Qed.

Lemma marker_kept_set_flag m : marker_kept m (set_flag m).
Proof. by split. Qed.

Lemma marker_kept_set_flag_if_false m : marker_kept m (set_flag_if_false m).
Proof.
  split; [intros _; apply set_flag_if_false_flagged|].
  intros _. apply set_flag_if_false_speed.
Qed.

Lemma markers_kept_speed rows (ms : gmap Z Marker) :
  markers_kept ms (foldl set_speed_if_unset ms rows).
Proof.
  revert ms. induction rows as [|v rows IH]; intros ms; simpl.
  - apply markers_kept_refl.
  - eapply markers_kept_trans; [|apply IH].
    intros k m Hk. rewrite set_speed_lookup, Hk.
    case_decide; [|exists m; by split].
    eexists. split; [done|].
    destruct (speed_unset m) eqn:E; split; simpl; (done || congruence).
Qed.

Lemma update_effect_markers env rows db :
  pg_markers (update_effect env rows db) = pg_markers db.
Proof.
  unfold update_effect. revert db. induction rows as [|row rows IH]; intros db; simpl; [done|].
  rewrite IH. unfold update_row_effect. by destruct (update_spectra_columns.parse_channels _ _).
Qed.

Lemma all_outcome_markers env src ans t0 o :
  all_outcome env src ans t0 o →
  markers_kept (pg_markers t0) (pg_markers (committed (pg_conn o.1))).
Proof.
  intros H.
  assert (Hta : ∀ ta, spectra_phase (utcoffset env) src t0 = Some ta →
                      markers_kept (pg_markers t0)
                        (pg_markers (flags_effect set_flag_if_false src ta))).
  { intros ta Hta. rewrite <- (spectra_phase_markers _ _ _ _ Hta).
    apply markers_kept_flags, marker_kept_set_flag_if_false. }
  inversion H as [| | | |ta Hs H2|ta k Hs H2 G Hk|ta Hs H2]; subst; simpl;
    try apply markers_kept_refl.
  - rewrite (spectra_phase_markers _ _ _ _ H2). apply markers_kept_refl.
  - eapply markers_kept_trans; [by apply Hta|apply markers_kept_speed].
  - eapply markers_kept_trans; [by apply Hta|].
    unfold speed_phase. destruct (0 <? _); [apply markers_kept_speed|apply markers_kept_refl].
Qed.

Lemma spectra_outcome_markers env src confirm t0 o :
  spectra_outcome env src confirm t0 o →
  markers_kept (pg_markers t0) (pg_markers (committed (pg_conn o.1))).
Proof.
  intros H. inversion H as [| | |ta Hn Hy H2]; subst; simpl;
    try apply markers_kept_refl.
  rewrite <- (copy_effect_markers _ _ _ _ H2).
  apply markers_kept_flags, marker_kept_set_flag.
Qed.

Lemma update_outcome_markers env src confirm t0 o :
  update_outcome env src confirm t0 o →
  pg_markers (committed (pg_conn o.1)) = pg_markers t0.
Proof.
  intros H. inversion H; subst; simpl; try done. apply update_effect_markers.
Qed.

(** ** Interrupted runs *)

Ltac no_such_message H :=
  unfold greeting, spectra_msg, speed_msg in H;
  repeat case_match; simpl in H;
  repeat (apply elem_of_cons in H as [H|H]; [discriminate H|]);
  by apply elem_of_nil in H.

(** A run that printed the error message of part 3 stopped there, after
    [k] batches. *)
Lemma all_outcome_speed_error env src ans t0 o :
  all_outcome env src ans t0 o →
  MsgSpeedError ∈ stdout o.1 →
  ∃ ta k,
    spectra_phase (utcoffset env) src t0 = Some ta ∧
    0 < speed_to_migrate src t0 ∧
    (k * migrate_all_data.BATCH_SIZE < length (select_speed src))%nat ∧
    o.2 = Raise (SystemExit 1) ∧
    committed (pg_conn o.1)
    = speed_effect (take (k * migrate_all_data.BATCH_SIZE) (select_speed src))
        (flags_effect set_flag_if_false src ta).
Proof.
  intros H Hmsg.
  inversion H as [| | | |ta Hs H2|ta k Hs H2 G Hk|ta Hs H2]; subst; simpl in Hmsg;
    try (exfalso; no_such_message Hmsg).
  exists ta, k. done.
Qed.

(** ** The rows a run inserts *)

Lemma copy_effect_reconciled tz src db db' id s :
  copy_effect tz src db = Some db' →
  sqlite_spectra src !! id = Some s →
  reconciled s (pg_spectra db !! id) (pg_spectra db' !! id).
Proof.
  intros E Hs. rewrite (copy_effect_lookup _ _ _ _ id E).
  destruct (copy_effect_present _ _ _ _ id E) as [r Hr]; [by eexists|].
  rewrite (copy_effect_lookup _ _ _ _ id E) in Hr.
  unfold reconciled. destruct (pg_spectra db !! id); [done|].
  rewrite Hs in *. simpl in *. exists r. split; [done|].
  by apply converted_fields in Hr as (? & _).
Qed.

Lemma main_all_inserted env src ans t0 id s row :
  sqlite_spectra src !! id = Some s →
  pg_spectra t0 !! id = None →
  (run (migrate_all_data.main env src ans) t0).2 = Return tt →
  pg_spectra (target_after (run (migrate_all_data.main env src ans) t0)) !! id = Some row →
  converted (utcoffset env) s = Some row.
Proof.
  intros Hs Hid Hdone. apply main_all_completed in Hdone as (_ & ta & Hta & ->).
  unfold target_after, world_at. cbn [fst pg_conn committed].
  rewrite speed_phase_spectra, flags_effect_spectra.
  unfold spectra_phase in Hta. destruct (0 <? _).
  - rewrite (copy_effect_lookup _ _ _ _ id Hta), Hid, Hs. done.
  - injection Hta as <-. congruence.
Qed.

Lemma main_spectra_inserted env src confirm t0 id s row :
  sqlite_spectra src !! id = Some s →
  pg_spectra t0 !! id = None →
  (run (migrate_spectra.main env src confirm) t0).2 = Return tt →
  pg_spectra (target_after (run (migrate_spectra.main env src confirm) t0)) !! id = Some row →
  converted (utcoffset env) s = Some row.
Proof.
  intros Hs Hid Hdone. apply main_spectra_completed in Hdone as (ta & Hta & ->).
  unfold target_after, world_at. cbn [fst pg_conn committed].
  rewrite flags_effect_spectra.
  rewrite (copy_effect_lookup _ _ _ _ id Hta), Hid, Hs. done.
Qed.

(** ** The updates of [update_spectra_columns.py], row by row *)

Lemma elem_of_select_with_channels src id s :
  (id, s) ∈ update_spectra_columns.select_with_channels src ↔
  sqlite_spectra src !! id = Some s ∧ is_none (src_channels s) = false.
Proof.
  unfold update_spectra_columns.select_with_channels.
  rewrite list_elem_of_filter, elem_of_select_spectra. simpl. tauto.
Qed.

Lemma NoDup_select_with_channels src :
  NoDup (update_spectra_columns.select_with_channels src).*1.
Proof.
  unfold update_spectra_columns.select_with_channels.
  assert (Hsub : (update_spectra_columns.select_with_channels src).*1
                 `sublist_of` (select_spectra src).*1)
    by apply fmap_sublist, sublist_filter.
  apply (sublist_NoDup _ _ (NoDup_select_spectra src) Hsub).
Qed.

Lemma update_row_lookup env db k s i :
  pg_spectra (update_row_effect env db (k, s)) !! i
  = if decide (i = k) then columns_update env s <$> pg_spectra db !! i
    else pg_spectra db !! i.
Proof.
  unfold update_row_effect, columns_update. simpl.
  destruct (update_spectra_columns.parse_channels env (src_channels s)); simpl.
  - case_decide as H; [subst; apply lookup_alter_eq|by apply lookup_alter_ne].
  - case_decide; [|done]. by destruct (pg_spectra db !! i).
Qed.

Lemma update_effect_absent env rows db i :
  i ∉ rows.*1 → pg_spectra (update_effect env rows db) !! i = pg_spectra db !! i.
Proof.
  unfold update_effect. revert db.
  induction rows as [|[k s] rows IH]; intros db; simpl; [done|].
  rewrite not_elem_of_cons. intros [Hne Hnin].
  rewrite IH, update_row_lookup by done. by rewrite decide_False.
Qed.

Lemma update_effect_lookup env rows db i s :
  NoDup rows.*1 → (i, s) ∈ rows →
  pg_spectra (update_effect env rows db) !! i = columns_update env s <$> pg_spectra db !! i.
Proof.
  unfold update_effect. revert db.
  induction rows as [|[k s'] rows IH]; intros db; simpl.
  - intros _ Hin. by apply elem_of_nil in Hin.
  - rewrite NoDup_cons, elem_of_cons. intros [Hnin Hnd] [[= <- <-]|Hin].
    + fold (update_effect env rows (update_row_effect env db (i, s))).
      rewrite update_effect_absent, update_row_lookup by done.
      by rewrite decide_True.
    + assert (i ≠ k).
      { intros ->. apply Hnin, list_elem_of_fmap. by exists (k, s). }
      rewrite IH, update_row_lookup by done. by rewrite decide_False.
Qed.




Lemma main_update_completed env src confirm t0 :
  (run (update_spectra_columns.main env src confirm) t0).2 = Return tt →
  run (update_spectra_columns.main env src confirm) t0
  = (world_at (update_effect env (update_spectra_columns.select_with_channels src) t0)
       (warnings env (update_spectra_columns.select_with_channels src)),
     Return tt).
Proof.
  pose proof (main_update_outcome env src confirm t0) as H.
  destruct (run _ t0) as [w r]. simpl. intros ->.
  inversion H; subst. done.
Qed.

(** ** Errors in a transaction *)


Lemma sent_commit env db db' : sent env Commit db = Some db' → db' = db.
Proof. unfold sent. destruct (pg_rejects env Commit db); [done|]. by intros [= <-]. Qed.










Section all_phases_exact.
Import migrate_all_data.
Local Opaque BATCH_SIZE.








End all_phases_exact.




(** ** Runs that go through *)

Lemma copy_effect_convertible tz src db db' id s :
  copy_effect tz src db = Some db' →
  sqlite_spectra src !! id = Some s → pg_spectra db !! id = None →
  is_Some (converted tz s).
Proof.
  intros E Hs Hid.
  pose proof (copy_effect_present _ _ _ _ id E (ltac:(by eexists))) as Hp.
  rewrite (copy_effect_lookup _ _ _ _ id E), Hid, Hs in Hp. done.
Qed.

Lemma copy_effect_is_Some tz rows db :
  (∀ id s, (id, s) ∈ rows → pg_spectra db !! id = None → is_Some (converted tz s)) →
  is_Some (fold_opt (insert_effect tz) rows db).
Proof.
  revert db. induction rows as [|[id s] rows IH]; intros db H; simpl.
  - by eexists.
  - unfold insert_effect at 1. cbn [fst snd].
    destruct (pg_spectra db !! id) as [old|] eqn:Hid.
    + apply IH. intros id' s' Hin. apply H. by right.
    + destruct (H id s (list_elem_of_here _ _) Hid) as [r ->].
      apply IH. intros id' s' Hin Hnone. cbn [pg_spectra] in Hnone.
      apply lookup_insert_None in Hnone as [Hnone _].
      apply (H id' s'); [by right|done].
Qed.

Section accepting_engine.
Context (env : Env) (Hacc : accepts env) (Hloc : converts env).

Lemma execute_returns st w :
  is_Some (pg_apply st (pending (pg_conn w))) → (pg_execute env st w).2 = Return tt.
Proof. unfold pg_execute. rewrite Hacc. by intros [db' ->]. Qed.

Lemma commit_returns w : (pg_commit env w).2 = Return tt.
Proof. unfold pg_commit. by rewrite Hacc. Qed.

Lemma bind_returns (m1 m2 : M unit) w :
  (m1 w).2 = Return tt → (∀ w', (m2 w').2 = Return tt) → ((m1 ;; m2) w).2 = Return tt.
Proof. unfold bind. destruct (m1 w) as [w1 [[]|e]]; [|done]. intros _ H. apply H. Qed.

Lemma for_each_returns {A} (f : A → M unit) l :
  (∀ x w, (f x w).2 = Return tt) → ∀ w, (for_each f l w).2 = Return tt.
Proof.
  intros Hf. induction l as [|x l IH]; intros w; [done|].
  cbn [for_each]. by apply bind_returns.
Qed.

Lemma try_except_returns (m : M unit) h w :
  (m w).2 = Return tt → (try_except m h w).2 = Return tt.
Proof. unfold try_except. by destruct (m w) as [w1 [[]|e]]. Qed.

Lemma insert_spectrum_returns row w :
  is_Some (insert_effect (utcoffset env) row (pending (pg_conn w))) →
  (insert_spectrum env row w).2 = Return tt.
Proof.
  destruct row as [id s].
  unfold insert_effect, insert_spectrum, bind, pg_read, converted, fromtimestamp.
  cbn [fst snd].
  destruct (pg_spectra (pending (pg_conn w)) !! id) eqn:Hid; [done|].
  destruct (src_created_at s) as [epoch|]; [|by intros [? ?]].
  destruct (local_datetime (utcoffset env) epoch) as [dt|] eqn:Hdt; [|by intros [? ?]].
  rewrite (datetime_fromtimestamp_converts env epoch dt Hloc Hdt).
  intros _. apply execute_returns. cbn [pg_apply]. rewrite Hid. by eexists.
Qed.

Lemma insert_rows_return rows w :
  is_Some (fold_opt (insert_effect (utcoffset env)) rows (pending (pg_conn w))) →
  (for_each (insert_spectrum env) rows w).2 = Return tt.
Proof.
  revert w. induction rows as [|row rows IH]; intros w; [done|].
  cbn [for_each fold_opt]. intros Hsome. unfold bind.
  destruct (insert_effect (utcoffset env) row (pending (pg_conn w))) as [db1|] eqn:E1;
    [|by destruct Hsome].
  pose proof (insert_spectrum_returns row w (ltac:(by rewrite E1))) as Hret.
  destruct (insert_spectrum env row w) as [w1 r] eqn:E. simpl in Hret. subst r.
  destruct (tx_body_insert_spectrum env row w w1 _ E) as (_ & _ & Hf).
  apply IH. rewrite E1 in Hf. injection Hf as <-. done.
Qed.

Lemma speed_loop_returns src fuel off w :
  (length (drop off (select_speed src)) < fuel)%nat →
  (migrate_all_data.speed_loop env src fuel off w).2 = Return tt.
Proof.
  revert off w. induction fuel as [|fuel IH]; intros off w Hfuel; [lia|].
  cbn [migrate_all_data.speed_loop]. unfold select_speed_batch.
  destruct (take migrate_all_data.BATCH_SIZE (drop off (select_speed src)))
    as [|p b] eqn:Eb; [done|].
  assert (HL : (0 < length (drop off (select_speed src)))%nat).
  { destruct (drop off (select_speed src)); [by rewrite take_nil in Eb|simpl; lia]. }
  apply bind_returns; [done|]. intros w1.
  apply bind_returns; [by apply execute_returns|]. intros w2.
  apply bind_returns; [apply commit_returns|]. intros w3.
  apply IH. rewrite <- drop_drop, length_drop.
  pose proof BATCH_SIZE_pos. lia.
Qed.

Lemma update_marker_flags_returns src w :
  (migrate_all_data.update_marker_flags env src w).2 = Return tt.
Proof.
  unfold migrate_all_data.update_marker_flags.
  apply bind_returns; [done|]. intros w1. apply try_except_returns.
  apply bind_returns; [done|]. intros w2.
  apply bind_returns; [|intros; apply commit_returns].
  apply for_each_returns. intros id w3. by apply execute_returns.
Qed.

Lemma migrate_speed_data_returns src w :
  (migrate_all_data.migrate_speed_data env src w).2 = Return tt.
Proof.
  unfold migrate_all_data.migrate_speed_data.
  apply bind_returns; [done|]. intros w1. apply try_except_returns.
  apply speed_loop_returns. rewrite drop_0. lia.
Qed.

Lemma migrate_spectral_data_returns src w :
  is_Some (copy_effect (utcoffset env) src (pending (pg_conn w))) →
  (migrate_all_data.migrate_spectral_data env src w).2 = Return tt.
Proof.
  intros Hsome. unfold migrate_all_data.migrate_spectral_data.
  unfold bind at 1. unfold print at 1. apply try_except_returns.
  unfold bind at 1. unfold pg_begin at 1, ret at 1.
  apply bind_returns; [by apply insert_rows_return|]. intros w1. apply commit_returns.
Qed.

Lemma main_spectra_returns src confirm t0 :
  sqlite_spectra src ≠ ∅ → is_yes confirm = true →
  is_Some (copy_effect (utcoffset env) src t0) →
  (run (migrate_spectra.main env src confirm) t0).2 = Return tt.
Proof.
  intros Hne Hy Hsome. unfold run, migrate_spectra.main. cbv zeta.
  assert (Hc : (count_rows (sqlite_spectra src) =? 0) = false).
  { apply Z.eqb_neq. unfold count_rows. apply map_size_non_empty_iff in Hne. lia. }
  rewrite Hc, Hy. cbn [negb]. apply try_except_returns.
  unfold bind at 1. unfold pg_begin at 1, ret at 1.
  apply bind_returns; [by apply insert_rows_return|]. intros w1.
  apply bind_returns; [|intros; apply commit_returns].
  apply for_each_returns. intros id w2. by apply execute_returns.
Qed.

Lemma main_all_returns src ans t0 :
  started src ans t0 →
  (0 < spectra_to_migrate src t0 → is_Some (copy_effect (utcoffset env) src t0)) →
  (run (migrate_all_data.main env src ans) t0).2 = Return tt.
Proof.
  intros (Hn & Hr & Hy) Hsome. unfold run, migrate_all_data.main. cbv zeta.
  change ((count_rows (sqlite_spectra src) =? 0) && (count_speed (sqlite_markers src) =? 0))
    with (nothing_to_migrate src).
  rewrite Hn. unfold bind at 1. unfold pg_read at 1. cbn [pending pg_conn].
  change (count_rows (sqlite_spectra src) - count_rows (pg_spectra t0))
    with (spectra_to_migrate src t0).
  change (count_speed (sqlite_markers src) - count_speed (pg_markers t0))
    with (speed_to_migrate src t0).
  change ((spectra_to_migrate src t0 <=? 0) && (speed_to_migrate src t0 <=? 0))
    with (already_migrated src t0).
  rewrite Hy.
  assert (Hrest : ∀ msgs,
    (((if 0 <? spectra_to_migrate src t0
       then migrate_all_data.migrate_spectral_data env src
       else print MsgSpectraSkipped) ;;
      migrate_all_data.update_marker_flags env src ;;
      (if 0 <? speed_to_migrate src t0
       then migrate_all_data.migrate_speed_data env src
       else print MsgSpeedSkipped)) (mk_world (mk_conn t0 t0) msgs)).2 = Return tt).
  { intros msgs. apply bind_returns.
    - destruct (0 <? spectra_to_migrate src t0) eqn:Hg; [|done].
      apply migrate_spectral_data_returns. apply Hsome. by apply Z.ltb_lt.
    - intros w1. apply bind_returns; [apply update_marker_flags_returns|].
      intros w2. destruct (0 <? speed_to_migrate src t0); [|done].
      apply migrate_speed_data_returns. }
  unfold bind at 1.
  destruct (already_migrated src t0).
  - rewrite (Hr eq_refl). unfold bind at 1. unfold print at 1, ret at 1.
    unfold bind at 1. unfold ret at 1. apply Hrest.
  - unfold ret at 1. unfold bind at 1. unfold ret at 1. apply Hrest.
Qed.

End accepting_engine.

Lemma count_speed_none (markers : gmap Z Marker) :
  (∀ id m, markers !! id = Some m → speed_positive m = false) →
  count_speed markers = 0.
Proof.
  intros H. unfold count_speed.
  replace (filter (λ kv : Z * Marker, speed_positive kv.2 = true) markers)
    with (∅ : gmap Z Marker); [by rewrite map_size_empty|].
  symmetry. apply map_empty_filter. intros id m Hm. simpl.
  rewrite (H id m Hm). done.
Qed.

(** ** The scripts that insert never call [json.loads] *)





(** * The claims *)

(** C1, as the code has it: after a completed run whose insert phase ran
    (always in [migrate_spectra.py]; in [migrate_all_data.py] when the
    source counts more spectra than the target), the target has a row under
    every id of the source.  A row the run inserted is linked to the
    source's marker; a row the target already had under that id is kept as
    it was. *)
Theorem C1_source_spectra_reach_target env src t0 id s :
  sqlite_spectra src !! id = Some s →
  (∀ ans,
     let o := run (migrate_all_data.main env src ans) t0 in
     o.2 = Return tt → 0 < spectra_to_migrate src t0 →
     reconciled s (pg_spectra t0 !! id) (pg_spectra (target_after o) !! id))
  ∧ (∀ confirm,
       let o := run (migrate_spectra.main env src confirm) t0 in
       o.2 = Return tt →
       reconciled s (pg_spectra t0 !! id) (pg_spectra (target_after o) !! id)).
Proof.
  intros Hs. split.
  - intros ans o Hdone G. unfold o in *.
    apply main_all_completed in Hdone as (_ & ta & Hta & ->).
    unfold target_after. simpl. rewrite speed_phase_spectra, flags_effect_spectra.
    unfold spectra_phase in Hta. apply Z.ltb_lt in G. rewrite G in Hta.
    by apply (copy_effect_reconciled _ _ _ _ _ _ Hta).
  - intros confirm o Hdone. unfold o in *.
    apply main_spectra_completed in Hdone as (ta & Hta & ->).
    unfold target_after. simpl.
    by apply (copy_effect_reconciled _ _ _ _ _ _ Hta).
Qed.

Lemma C1_witness :
  (∃ row, pg_spectra (target_after (run (migrate_all_data.main Examples.utc_env
            Examples.src_three Examples.yes_yes) Examples.tgt_one)) !! 1 = Some row
          ∧ marker_id row = 10)
  ∧ pg_spectra (target_after (run (migrate_spectra.main Examples.utc_env
            Examples.src_three "yes") Examples.tgt_one)) !! 2
    = Some (Examples.stored 20 (PyList [PyInt 9; PyInt 9])).
Proof.
  destruct (C1_source_spectra_reach_target Examples.utc_env Examples.src_three
              Examples.tgt_one 1 (Examples.sample 10 (PyStr "[1,2,3]") 0) eq_refl)
    as [Hall _].
  destruct (C1_source_spectra_reach_target Examples.utc_env Examples.src_three
              Examples.tgt_one 2 (Examples.sample 20 (PyStr "[4,5,6]") 86400) eq_refl)
    as [_ Hsp].
  split.
  - apply (Hall Examples.yes_yes); [vm_compute; reflexivity|vm_compute; reflexivity].
  - apply (Hsp "yes"). vm_compute; reflexivity.
Defined.

(** C1 as stated fails twice.  With one spectrum on each side under
    different ids the counts are equal, [migrate_all_data.py] skips its
    insert phase and completes without spectrum 1; and a spectrum the
    target has under the id of a source spectrum keeps its own marker. *)
Lemma C1_counterexample :
  (let o := run (migrate_all_data.main Examples.utc_env Examples.src_other_id
                   Examples.yes_yes) Examples.tgt_other_id in
   o.2 = Return tt
   ∧ is_Some (sqlite_spectra Examples.src_other_id !! 1)
   ∧ is_Some (pg_markers Examples.tgt_other_id !! 10)
   ∧ pg_spectra (target_after o) !! 1 = None)
  ∧ (let o := run (migrate_spectra.main Examples.utc_env Examples.src_relinked "yes")
                Examples.tgt_relinked in
     o.2 = Return tt
     ∧ src_marker_id <$> sqlite_spectra Examples.src_relinked !! 2 = Some 10
     ∧ marker_id <$> pg_spectra (target_after o) !! 2 = Some 20).
Proof. vm_compute. repeat split; eauto. Qed.

(** C2: a run after a run that completed leaves the target as the first
    run left it, whatever the answers, the time zone and the engine's
    refusals of the second run: it inserts no spectrum and changes no flag
    and no speed.  This holds for [migrate_all_data.py] and for
    [migrate_spectra.py]. *)
Theorem C2_second_run_changes_nothing env1 env2 src t0 :
  (∀ ans1 ans2,
     let once := run (migrate_all_data.main env1 src ans1) t0 in
     let twice := run (migrate_all_data.main env2 src ans2) (target_after once) in
     once.2 = Return tt → target_after twice = target_after once)
  ∧ (∀ confirm1 confirm2,
       let once := run (migrate_spectra.main env1 src confirm1) t0 in
       let twice := run (migrate_spectra.main env2 src confirm2) (target_after once) in
       once.2 = Return tt → target_after twice = target_after once).
Proof.
  split.
  - intros ans1 ans2 once twice. apply main_all_rerun.
  - intros c1 c2 once twice. apply main_spectra_rerun.
Qed.

Lemma C2_witness :
  target_after (run (migrate_all_data.main Examples.tokyo_env Examples.src_three
                       Examples.yes_yes)
                  (target_after (run (migrate_all_data.main Examples.utc_env
                                        Examples.src_three Examples.yes_yes)
                                   Examples.tgt_one)))
  = target_after (run (migrate_all_data.main Examples.utc_env Examples.src_three
                         Examples.yes_yes) Examples.tgt_one)
  ∧ target_after (run (migrate_spectra.main Examples.tokyo_env Examples.src_three "Yes")
                    (target_after (run (migrate_spectra.main Examples.utc_env
                                          Examples.src_three "yes") Examples.tgt_one)))
    = target_after (run (migrate_spectra.main Examples.utc_env Examples.src_three "yes")
                      Examples.tgt_one).
Proof.
  destruct (C2_second_run_changes_nothing Examples.utc_env Examples.tokyo_env
              Examples.src_three Examples.tgt_one) as [Hall Hsp].
  split.
  - apply (Hall Examples.yes_yes Examples.yes_yes). vm_compute; reflexivity.
  - apply (Hsp "yes" "Yes"). vm_compute; reflexivity.
Defined.

(** C3, as the code has it: when a run of [migrate_all_data.py] completes
    and its speed phase ran (the source counts more markers with a positive
    speed than the target did), a target marker whose speed was null or
    zero has the positive speed of the source; and however a run ends, a
    target marker keeps a speed that was positive. *)
Theorem C3_speed_copied_and_kept env src ans t0 id m :
  pg_markers t0 !! id = Some m →
  let o := run (migrate_all_data.main env src ans) t0 in
  (∀ sm v,
     sqlite_markers src !! id = Some sm → speed sm = Some v → 0 < v →
     speed_unset m = true →
     o.2 = Return tt → 0 < speed_to_migrate src t0 →
     speed <$> pg_markers (target_after o) !! id = Some (Some v))
  ∧ (speed_positive m = true →
     speed <$> pg_markers (target_after o) !! id = Some (speed m)).
Proof.
  intros Hm o. split.
  - intros sm v Hsm Hv Hpos Hun Hdone G. unfold o in *.
    apply main_all_completed in Hdone as (_ & ta & Hta & ->).
    unfold target_after. simpl. unfold speed_phase.
    apply Z.ltb_lt in G. rewrite G. simpl.
    pose proof (flags_effect_lookup set_flag_if_false src ta id) as Hb.
    rewrite (spectra_phase_markers _ _ _ _ Hta), Hm in Hb.
    assert (∃ mb, pg_markers (flags_effect set_flag_if_false src ta) !! id = Some mb
                  ∧ speed_unset mb = true) as (mb & Hmb & Hunb).
    { case_decide; simpl in Hb; eexists; (split; [exact Hb|]); [|done].
      unfold speed_unset. by rewrite set_flag_if_false_speed. }
    rewrite (foldl_speed_unset _ _ id v mb); [done|apply NoDup_select_speed| |done|done].
    apply elem_of_select_speed. eauto.
  - intros Hpos.
    destruct (all_outcome_markers env src ans t0 o (main_all_outcome env src ans t0) id m Hm)
      as (m' & Hm' & _ & Hs).
    unfold target_after. rewrite Hm'. simpl. rewrite Hs; [done|].
    unfold speed_positive, speed_unset in *. destruct (speed m); [lia|done].
Qed.

Lemma C3_witness :
  speed <$> pg_markers (target_after (run (migrate_all_data.main Examples.utc_env
              Examples.src_speed_two Examples.yes_yes) Examples.tgt_speed_two)) !! 42 = Some (Some 55)
  ∧ speed <$> pg_markers (target_after (run (migrate_all_data.main Examples.utc_env
                Examples.src_speed_two Examples.yes_yes) Examples.tgt_speed_two)) !! 43 = Some (Some 10).
Proof.
  split.
  - pose proof (C3_speed_copied_and_kept Examples.utc_env Examples.src_speed_two Examples.yes_yes
             Examples.tgt_speed_two 42 (mk_marker false None) eq_refl) as H.
    cbv zeta in H. destruct H as [H _].
    apply (H (mk_marker false (Some 55)) 55); vm_compute; reflexivity.
  - pose proof (C3_speed_copied_and_kept Examples.utc_env Examples.src_speed_two Examples.yes_yes
             Examples.tgt_speed_two 43 (mk_marker false (Some 10)) eq_refl) as H.
    cbv zeta in H. destruct H as [_ H].
    apply H. vm_compute; reflexivity.
Defined.

(** C3 as stated fails: marker 1 has speed 5 in the source and no speed in
    the target, but marker 2 of the target has a speed, so both sides count
    one marker with a speed; the run skips its speed phase and completes
    with marker 1 still without a speed. *)
Lemma C3_counterexample :
  let o := run (migrate_all_data.main Examples.utc_env Examples.src_speed
                  Examples.yes_yes) Examples.tgt_speed in
  o.2 = Return tt
  ∧ speed <$> sqlite_markers Examples.src_speed !! 1 = Some (Some 5)
  ∧ speed <$> pg_markers Examples.tgt_speed !! 1 = Some None
  ∧ speed <$> pg_markers (target_after o) !! 1 = Some None
  ∧ stdout o.1 = [MsgAlreadyMigrated; MsgSpectraSkipped; MsgFlagsPhase; MsgSpeedSkipped].
Proof. vm_compute. repeat split. Qed.

(** C5, as the code has it.  A target marker whose source marker has
    [has_spectrum] set has it set after a run of [migrate_all_data.py] or
    of [migrate_spectra.py] that returns; such a run does return when the
    source has something to migrate, the prompts are answered yes, the
    engine refuses nothing and every [created_at] to insert converts.  On a
    source without spectra (for [migrate_all_data.py]: and without a
    positive speed) the run ends with exit code 0 before the flag update,
    and the flag is as it was.  However a run of any of the three scripts
    ends, a target marker that had [has_spectrum] set still has it. *)
Theorem C5_flags_set_and_never_cleared env src t0 id m :
  pg_markers t0 !! id = Some m →
  (∀ sm, sqlite_markers src !! id = Some sm → has_spectrum sm = true →
     (∀ ans,
        let o := run (migrate_all_data.main env src ans) t0 in
        o.2 = Return tt →
        has_spectrum <$> pg_markers (target_after o) !! id = Some true)
     ∧ (∀ confirm,
          let o := run (migrate_spectra.main env src confirm) t0 in
          o.2 = Return tt →
          has_spectrum <$> pg_markers (target_after o) !! id = Some true)
     ∧ (accepts env → converts env →
        (∀ id' s, sqlite_spectra src !! id' = Some s → pg_spectra t0 !! id' = None →
                  is_Some (converted (utcoffset env) s)) →
        (∀ ans, started src ans t0 →
           let o := run (migrate_all_data.main env src ans) t0 in
           o.2 = Return tt
           ∧ has_spectrum <$> pg_markers (target_after o) !! id = Some true)
        ∧ (∀ confirm, sqlite_spectra src ≠ ∅ → is_yes confirm = true →
             let o := run (migrate_spectra.main env src confirm) t0 in
             o.2 = Return tt
             ∧ has_spectrum <$> pg_markers (target_after o) !! id = Some true))
     ∧ (sqlite_spectra src = ∅ →
        (∀ confirm,
           let o := run (migrate_spectra.main env src confirm) t0 in
           o.2 = Raise (SystemExit 0)
           ∧ has_spectrum <$> pg_markers (target_after o) !! id = Some (has_spectrum m))
        ∧ (∀ ans,
             (∀ id' m', sqlite_markers src !! id' = Some m' → speed_positive m' = false) →
             let o := run (migrate_all_data.main env src ans) t0 in
             o.2 = Raise (SystemExit 0)
             ∧ has_spectrum <$> pg_markers (target_after o) !! id
               = Some (has_spectrum m))))
  ∧ (has_spectrum m = true →
     (∀ ans,
        has_spectrum <$> pg_markers (target_after
          (run (migrate_all_data.main env src ans) t0)) !! id = Some true)
     ∧ (∀ confirm,
          has_spectrum <$> pg_markers (target_after
            (run (migrate_spectra.main env src confirm) t0)) !! id = Some true)
     ∧ (∀ confirm,
          has_spectrum <$> pg_markers (target_after
            (run (update_spectra_columns.main env src confirm) t0)) !! id = Some true)).
Proof.
  intros Hm. split.
  - intros sm Hsm Hflag.
    assert (Hin : id ∈ select_flagged src) by (apply elem_of_select_flagged; eauto).
    assert (Hall : ∀ ans,
      let o := run (migrate_all_data.main env src ans) t0 in
      o.2 = Return tt →
      has_spectrum <$> pg_markers (target_after o) !! id = Some true).
    { intros ans o Hdone. unfold o in *.
      apply main_all_completed in Hdone as (_ & ta & Hta & ->).
      unfold target_after, world_at. cbn [fst pg_conn committed].
      rewrite speed_phase_flag, flags_effect_lookup, decide_True by done.
      rewrite (spectra_phase_markers _ _ _ _ Hta), Hm. simpl.
      by rewrite set_flag_if_false_flagged. }
    assert (Hspectra : ∀ confirm,
      let o := run (migrate_spectra.main env src confirm) t0 in
      o.2 = Return tt →
      has_spectrum <$> pg_markers (target_after o) !! id = Some true).
    { intros confirm o Hdone. unfold o in *.
      apply main_spectra_completed in Hdone as (ta & Hta & ->).
      unfold target_after, world_at. cbn [fst pg_conn committed].
      rewrite flags_effect_lookup, decide_True by done.
      by rewrite (copy_effect_markers _ _ _ _ Hta), Hm. }
    split; [done|]. split; [done|]. split.
    + intros Hacc Hloc Hconv.
      assert (Hsome : is_Some (copy_effect (utcoffset env) src t0)).
      { apply copy_effect_is_Some. intros id' s Hs. apply Hconv.
        by apply elem_of_select_spectra. }
      split.
      * intros ans Hst o.
        pose proof (main_all_returns env Hacc Hloc src ans t0 Hst (λ _, Hsome)) as Hret.
        split; [done|]. by apply Hall.
      * intros confirm Hne Hy o.
        pose proof (main_spectra_returns env Hacc Hloc src confirm t0 Hne Hy Hsome) as Hret.
        split; [done|]. by apply Hspectra.
    + intros He.
      assert (Hc : count_rows (sqlite_spectra src) = 0)
        by (unfold count_rows; by rewrite He, map_size_empty).
      split.
      * intros confirm o. pose proof (main_spectra_outcome env src confirm t0) as Ho.
        fold o in Ho. inversion Ho as [?|Hn|Hn|ta Hn]; try done.
        unfold target_after. cbn [fst snd world_at pg_conn committed]. by rewrite Hm.
      * intros ans Hs o. pose proof (main_all_outcome env src ans t0) as Ho. fold o in Ho.
        assert (Hn : nothing_to_migrate src = true).
        { unfold nothing_to_migrate. by rewrite Hc, count_speed_none. }
        inversion Ho as [?|Hf|Hf|[Hf _]|? [Hf _]|? ? [Hf _]|? [Hf _]]; try congruence.
        unfold target_after. cbn [fst snd world_at pg_conn committed]. by rewrite Hm.
  - intros Hflag. split; [|split].
    + intros ans.
      destruct (all_outcome_markers env src ans t0 _ (main_all_outcome env src ans t0) id m Hm)
        as (m' & Hm' & Hf & _).
      unfold target_after. rewrite Hm'. simpl. by rewrite Hf.
    + intros confirm.
      destruct (spectra_outcome_markers env src confirm t0 _
                  (main_spectra_outcome env src confirm t0) id m Hm)
        as (m' & Hm' & Hf & _).
      unfold target_after. rewrite Hm'. simpl. by rewrite Hf.
    + intros confirm. unfold target_after.
      rewrite (update_outcome_markers env src confirm t0 _
                 (main_update_outcome env src confirm t0)), Hm.
      simpl. by rewrite Hflag.
Qed.

(** Marker 10 is flagged in the source and not in the target: a run of
    [migrate_spectra.py] and a run of [migrate_all_data.py] return and flag
    it; marker 20, flagged in the target, is still flagged after a run of
    [update_spectra_columns.py]. *)
Lemma C5_witness :
  (let o := run (migrate_spectra.main Examples.utc_env Examples.src_three "yes")
              Examples.tgt_one in
   o.2 = Return tt
   ∧ has_spectrum <$> pg_markers (target_after o) !! 10 = Some true)
  ∧ (let o := run (migrate_all_data.main Examples.utc_env Examples.src_three
                     Examples.yes_yes) Examples.tgt_one in
     o.2 = Return tt
     ∧ has_spectrum <$> pg_markers (target_after o) !! 10 = Some true)
  ∧ has_spectrum <$> pg_markers (target_after (run (update_spectra_columns.main
        Examples.utc_env Examples.src_three "yes") Examples.tgt_one)) !! 20 = Some true.
Proof.
  destruct (C5_flags_set_and_never_cleared Examples.utc_env Examples.src_three
              Examples.tgt_one 10 (mk_marker false None) eq_refl) as [H _].
  destruct (H (mk_marker true None) eq_refl eq_refl) as (_ & _ & Hgo & _).
  destruct Hgo as [Hall Hspectra].
  - intros st db. reflexivity.
  - intros t. reflexivity.
  - intros id' s Hs Hid.
    apply (copy_effect_convertible (utcoffset Examples.utc_env) Examples.src_three
             Examples.tgt_one
             ltac:(let t := eval vm_compute in
                          (default Examples.tgt_one
                             (copy_effect (utcoffset Examples.utc_env) Examples.src_three
                                Examples.tgt_one)) in
                   exact t) id' s); [vm_compute; reflexivity|exact Hs|exact Hid].
  - split; [|split].
    + apply Hspectra; [|reflexivity].
      intros He. apply (f_equal (λ m, m !! 1)) in He. vm_compute in He. discriminate.
    + apply Hall. split; [reflexivity|]. split; [|reflexivity]. intros _. reflexivity.
    + destruct (C5_flags_set_and_never_cleared Examples.utc_env Examples.src_three
                  Examples.tgt_one 20 (mk_marker true (Some 10)) eq_refl) as [_ H'].
      destruct (H' eq_refl) as (_ & _ & Hup). apply (Hup "yes").
Defined.

(** C5 as stated fails on a source without spectra: marker 10 is flagged
    in the source and not in the target; both scripts find nothing to
    migrate, end with exit code 0, and leave marker 10 unflagged. *)
Lemma C5_counterexample :
  let a := run (migrate_all_data.main Examples.utc_env Examples.src_flag_only
                  Examples.yes_yes) Examples.tgt_one in
  let b := run (migrate_spectra.main Examples.utc_env Examples.src_flag_only "yes")
             Examples.tgt_one in
  has_spectrum <$> sqlite_markers Examples.src_flag_only !! 10 = Some true
  ∧ has_spectrum <$> pg_markers Examples.tgt_one !! 10 = Some false
  ∧ a.2 = Raise (SystemExit 0)
  ∧ stdout a.1 = [MsgNothingToMigrate]
  ∧ has_spectrum <$> pg_markers (target_after a) !! 10 = Some false
  ∧ b.2 = Raise (SystemExit 0)
  ∧ stdout b.1 = [MsgNothingToMigrate]
  ∧ has_spectrum <$> pg_markers (target_after b) !! 10 = Some false.
Proof. vm_compute. repeat split. Qed.



(** C4, as the code has it: when a run of [migrate_all_data.py] stops in
    its speed phase after [k] batches and the program is run again, then,
    provided the second run completes and still finds more markers with a
    positive speed in the source than in the target (the gate of the speed
    phase), the target ends as a run without the interruption leaves it. *)
Theorem C4_interrupted_speed_phase_resumes env1 env2 env0 src ans1 ans2 ans0 t0 :
  let interrupted := run (migrate_all_data.main env1 src ans1) t0 in
  let resumed := run (migrate_all_data.main env2 src ans2) (target_after interrupted) in
  let whole := run (migrate_all_data.main env0 src ans0) t0 in
  MsgSpeedError ∈ stdout interrupted.1 →
  utcoffset env0 = utcoffset env1 →
  whole.2 = Return tt →
  resumed.2 = Return tt →
  0 < speed_to_migrate src (target_after interrupted) →
  (∃ ta k,
     spectra_phase (utcoffset env1) src t0 = Some ta ∧
     (k * migrate_all_data.BATCH_SIZE < length (select_speed src))%nat ∧
     target_after interrupted
     = speed_effect (take (k * migrate_all_data.BATCH_SIZE) (select_speed src))
         (flags_effect set_flag_if_false src ta))
  ∧ target_after resumed = target_after whole.
Proof.
  intros interrupted resumed whole Hmsg Htz Hwhole Hres G.
  destruct (all_outcome_speed_error env1 src ans1 t0 interrupted
              (main_all_outcome env1 src ans1 t0) Hmsg)
    as (ta & k & Hta & G0 & Hk & _ & Ht1).
  split; [by exists ta, k|].
  unfold whole, resumed in *. clear whole resumed.
  apply main_all_completed in Hwhole as (_ & ta0 & Hta0 & ->).
  apply main_all_completed in Hres as (_ & ta2 & Hta2 & ->).
  unfold target_after in *. cbn [fst world_at pg_conn committed] in *.
  rewrite Htz, Hta in Hta0. injection Hta0 as <-.
  set (tb := flags_effect set_flag_if_false src ta) in *.
  set (t1 := committed (pg_conn interrupted.1)) in *.
  assert (ta2 = t1) as ->.
  { apply (spectra_phase_again _ (utcoffset env2) _ _ _ _ _ Hta); [by rewrite Ht1|done]. }
  assert (flags_effect set_flag_if_false src t1 = t1) as ->.
  { apply (flags_effect_again _ _ ta); [apply set_flag_if_false_id|].
    intros i. rewrite Ht1. apply foldl_speed_flag. }
  unfold speed_phase.
  apply Z.ltb_lt in G, G0. rewrite G, G0, Ht1.
  apply speed_effect_prefix.
Qed.

Lemma C4_witness :
  target_after (run (migrate_all_data.main Examples.utc_env Examples.src_many
                       Examples.yes_yes)
                  (target_after (run (migrate_all_data.main Examples.second_batch_fails
                                        Examples.src_many Examples.yes_yes)
                                   Examples.tgt_many)))
  = target_after (run (migrate_all_data.main Examples.utc_env Examples.src_many
                         Examples.yes_yes) Examples.tgt_many).
Proof.
  apply (C4_interrupted_speed_phase_resumes Examples.second_batch_fails Examples.utc_env
           Examples.utc_env Examples.src_many Examples.yes_yes Examples.yes_yes
           Examples.yes_yes Examples.tgt_many).
  - vm_compute. set_solver.
  - reflexivity.
  - vm_compute; reflexivity.
  - vm_compute; reflexivity.
  - vm_compute; reflexivity.
Defined.

(** C4 as stated fails: 10001 markers wait for their speed, in two batches,
    and the target has one marker more with a speed of its own.  The first
    run loses the connection on the second batch.  Run again, the program
    counts 10001 markers with a speed on both sides, skips the speed phase
    and completes; marker 10001 never gets the speed that a run without the
    interruption gives it. *)
Lemma C4_counterexample :
  let interrupted :=
    run (migrate_all_data.main Examples.second_batch_fails Examples.src_many Examples.yes_yes)
      Examples.tgt_many_and_one in
  let resumed :=
    run (migrate_all_data.main Examples.utc_env Examples.src_many Examples.yes_yes)
      (target_after interrupted) in
  let whole :=
    run (migrate_all_data.main Examples.utc_env Examples.src_many Examples.yes_yes)
      Examples.tgt_many_and_one in
  interrupted.2 = Raise (SystemExit 1)
  ∧ stdout interrupted.1
    = [MsgSpectraSkipped; MsgFlagsPhase; MsgSpeedPhase; MsgSpeedError; MsgRolledBack]
  ∧ speed <$> pg_markers (target_after interrupted) !! 1 = Some (Some 5)
  ∧ resumed.2 = Return tt
  ∧ stdout resumed.1
    = [MsgAlreadyMigrated; MsgSpectraSkipped; MsgFlagsPhase; MsgSpeedSkipped]
  ∧ whole.2 = Return tt
  ∧ speed <$> pg_markers (target_after resumed) !! 10001 = Some None
  ∧ speed <$> pg_markers (target_after whole) !! 10001 = Some (Some 5).
Proof. vm_compute. repeat split. Qed.




(** C7, as the code has it: the [created_at] of an inserted spectrum is
    the calendar reading of the source's epoch seconds in the local time of
    the host that runs the script ([datetime.fromtimestamp] without a time
    zone), that is of the epoch shifted by the host's offset from UTC.  It
    is the UTC reading when that offset is zero. *)
Theorem C7_created_at_is_host_local_time env src t0 id s row :
  sqlite_spectra src !! id = Some s →
  pg_spectra t0 !! id = None →
  (∀ ans,
     let o := run (migrate_all_data.main env src ans) t0 in
     o.2 = Return tt → pg_spectra (target_after o) !! id = Some row →
     ∃ epoch, src_created_at s = Some epoch
              ∧ created_at row = calendar (epoch + utcoffset env epoch)
              ∧ (utcoffset env epoch = 0 → created_at row = utcfromtimestamp epoch))
  ∧ (∀ confirm,
       let o := run (migrate_spectra.main env src confirm) t0 in
       o.2 = Return tt → pg_spectra (target_after o) !! id = Some row →
       ∃ epoch, src_created_at s = Some epoch
                ∧ created_at row = calendar (epoch + utcoffset env epoch)
                ∧ (utcoffset env epoch = 0 → created_at row = utcfromtimestamp epoch)).
Proof.
  intros Hs Hid.
  assert (H : converted (utcoffset env) s = Some row →
              ∃ epoch, src_created_at s = Some epoch
                       ∧ created_at row = calendar (epoch + utcoffset env epoch)
                       ∧ (utcoffset env epoch = 0 → created_at row = utcfromtimestamp epoch)).
  { intros Hc. apply converted_fields in Hc as (_ & _ & epoch & He & Hr).
    exists epoch. split; [done|]. split; [done|].
    intros Hz. rewrite Hr, Hz, Z.add_0_r. done. }
  split.
  - intros ans o Hdone Hrow. apply H. by apply (main_all_inserted env src ans t0 id).
  - intros confirm o Hdone Hrow. apply H.
    by apply (main_spectra_inserted env src confirm t0 id).
Qed.

Lemma C7_witness :
  ∃ epoch,
    src_created_at (Examples.sample 30 (PyStr "not json") 1700000000) = Some epoch
    ∧ created_at (mk_pg_spectrum 30 (PyStr "not json") (PyInt 3) (PyFloat 0)
                    (PyFloat 4658798933373091840) (PyFloat 4633641066610819072)
                    (PyFloat 4633641066610819072) (PyStr "RadiaCode-102") PyNone
                    (PyStr "n42") (PyStr "track.n42") PyNone
                    (mk_datetime 2023 11 14 22 13 20))
      = calendar (epoch + utcoffset Examples.utc_env epoch)
    ∧ (utcoffset Examples.utc_env epoch = 0 →
       created_at (mk_pg_spectrum 30 (PyStr "not json") (PyInt 3) (PyFloat 0)
                     (PyFloat 4658798933373091840) (PyFloat 4633641066610819072)
                     (PyFloat 4633641066610819072) (PyStr "RadiaCode-102") PyNone
                     (PyStr "n42") (PyStr "track.n42") PyNone
                     (mk_datetime 2023 11 14 22 13 20))
       = utcfromtimestamp epoch).
Proof.
  destruct (C7_created_at_is_host_local_time Examples.utc_env Examples.src_three
              Examples.tgt_one 3 (Examples.sample 30 (PyStr "not json") 1700000000)
              (mk_pg_spectrum 30 (PyStr "not json") (PyInt 3) (PyFloat 0)
                 (PyFloat 4658798933373091840) (PyFloat 4633641066610819072)
                 (PyFloat 4633641066610819072) (PyStr "RadiaCode-102") PyNone
                 (PyStr "n42") (PyStr "track.n42") PyNone
                 (mk_datetime 2023 11 14 22 13 20))
              eq_refl eq_refl) as [_ H].
  apply (H "yes"); vm_compute; reflexivity.
Defined.

(** C7 as stated fails on a host in Tokyo: the source's [created_at] is 0,
    which is 1970-01-01 00:00:00 in UTC, and the row is stored with
    1970-01-01 09:00:00. *)
Lemma C7_counterexample :
  let o := run (migrate_spectra.main Examples.tokyo_env Examples.src_three "yes")
             Examples.tgt_one in
  o.2 = Return tt
  ∧ src_created_at <$> sqlite_spectra Examples.src_three !! 1 = Some (Some 0)
  ∧ pg_spectra Examples.tgt_one !! 1 = None
  ∧ created_at <$> pg_spectra (target_after o) !! 1 = Some (mk_datetime 1970 1 1 9 0 0)
  ∧ utcfromtimestamp 0 = mk_datetime 1970 1 1 0 0 0.
Proof. vm_compute. repeat split. Qed.



(** C6 fails on the code: the [UPDATE] of [update_spectra_columns.py] has
    no guard on the target's current value.  Spectrum 2 of the target has
    its channels (two counts) and its channel count; the run, started
    because spectra 1 and 3 have none, overwrites both with the source's
    values. *)
Theorem C6_populated_spectrum_is_overwritten :
  let o := run (update_spectra_columns.main Examples.utc_env Examples.src_three "yes")
             Examples.tgt_partly_filled in
  o.2 = Return tt
  ∧ update_spectra_columns.count_null_channels (pg_spectra Examples.tgt_partly_filled) = 2
  ∧ channels <$> pg_spectra Examples.tgt_partly_filled !! 2 = Some (PyList [PyInt 9; PyInt 9])
  ∧ channel_count <$> pg_spectra Examples.tgt_partly_filled !! 2 = Some (PyInt 2)
  ∧ channels <$> pg_spectra (target_after o) !! 2
    = Some (PyList [PyInt 4; PyInt 5; PyInt 6])
  ∧ channel_count <$> pg_spectra (target_after o) !! 2 = Some (PyInt 3).
Proof. vm_compute. repeat split. Qed.

(** * Further properties *)

(** ** Spectra the target already has, and the ids it ends with *)

Lemma spectra_phase_keeps tz src t0 ta id r :
  spectra_phase tz src t0 = Some ta →
  pg_spectra t0 !! id = Some r → pg_spectra ta !! id = Some r.
Proof.
  unfold spectra_phase. destruct (0 <? _).
  - apply fold_insert_keeps.
  - by intros [= ->].
Qed.

Lemma all_outcome_spectra env src ans t0 o :
  all_outcome env src ans t0 o →
  pg_spectra (committed (pg_conn o.1)) = pg_spectra t0
  ∨ ∃ ta, spectra_phase (utcoffset env) src t0 = Some ta
          ∧ pg_spectra (committed (pg_conn o.1)) = pg_spectra ta.
Proof.
  intros H.
  inversion H as [| | | |ta Hs H2|ta k Hs H2 G Hk|ta Hs H2]; subst; simpl;
    try (by left); right; exists ta; split; try done.
  by rewrite speed_phase_spectra.
Qed.

(** Neither migrating script ever changes or removes a spectrum that the
    target has: however a run ends, every row of the target's [spectra]
    is still there, with every column as it was. *)
Theorem existing_spectra_are_never_touched env src t0 id r :
  pg_spectra t0 !! id = Some r →
  (∀ ans,
     pg_spectra (target_after (run (migrate_all_data.main env src ans) t0)) !! id = Some r)
  ∧ (∀ confirm,
       pg_spectra (target_after (run (migrate_spectra.main env src confirm) t0)) !! id
       = Some r).
Proof.
  intros Hr. split.
  - intros ans. unfold target_after.
    destruct (all_outcome_spectra env src ans t0 _ (main_all_outcome env src ans t0))
      as [->|(ta & Hta & ->)]; [done|].
    by apply (spectra_phase_keeps _ _ _ _ _ _ Hta).
  - intros confirm. unfold target_after.
    pose proof (main_spectra_outcome env src confirm t0) as H.
    inversion H as [| | |ta Hn Hy H2]; subst; simpl; try done.
    by apply (fold_insert_keeps _ _ _ _ _ _ H2).
Qed.

Lemma existing_spectra_are_never_touched_witness :
  pg_spectra (target_after (run (migrate_all_data.main Examples.tokyo_env
      Examples.src_three Examples.yes_yes) Examples.tgt_one)) !! 2
  = Some (Examples.stored 20 (PyList [PyInt 9; PyInt 9])).
Proof.
  destruct (existing_spectra_are_never_touched Examples.tokyo_env Examples.src_three
              Examples.tgt_one 2 (Examples.stored 20 (PyList [PyInt 9; PyInt 9])) eq_refl)
    as [H _].
  apply (H Examples.yes_yes).
Defined.

Lemma copy_effect_dom tz src db db' :
  copy_effect tz src db = Some db' →
  dom (pg_spectra db') = dom (pg_spectra db) ∪ dom (sqlite_spectra src).
Proof.
  intros E. apply set_eq. intros id.
  rewrite elem_of_union, !elem_of_dom, (copy_effect_lookup _ _ _ _ id E).
  pose proof (copy_effect_present _ _ _ _ id E) as Hp.
  rewrite (copy_effect_lookup _ _ _ _ id E) in Hp.
  destruct (pg_spectra db !! id) as [r|] eqn:Hid.
  - split; [by left|by eexists].
  - destruct (sqlite_spectra src !! id) as [s|] eqn:Hs; simpl in *.
    + split; [by right|]. intros _. apply Hp. by eexists.
    + split; [by intros [? ?]|]. by intros [[? ?]|[? ?]].
Qed.

(** The ids of the target's spectra after a completed run: those it had
    together with those of the source.  In [migrate_all_data.py] that is so
    when the insert phase ran; when the counts kept it from running the
    table is as it was. *)
Theorem spectra_ids_after_a_completed_run env src t0 :
  (∀ confirm,
     let o := run (migrate_spectra.main env src confirm) t0 in
     o.2 = Return tt →
     dom (pg_spectra (target_after o)) = dom (pg_spectra t0) ∪ dom (sqlite_spectra src))
  ∧ (∀ ans,
       let o := run (migrate_all_data.main env src ans) t0 in
       o.2 = Return tt →
       (0 < spectra_to_migrate src t0 →
        dom (pg_spectra (target_after o)) = dom (pg_spectra t0) ∪ dom (sqlite_spectra src))
       ∧ (spectra_to_migrate src t0 ≤ 0 →
          pg_spectra (target_after o) = pg_spectra t0)).
Proof.
  split.
  - intros confirm o Hdone. unfold o in *.
    apply main_spectra_completed in Hdone as (ta & Hta & ->).
    unfold target_after, world_at. cbn [fst pg_conn committed].
    rewrite flags_effect_spectra. by apply (copy_effect_dom (utcoffset env)).
  - intros ans o Hdone. unfold o in *.
    apply main_all_completed in Hdone as (_ & ta & Hta & ->).
    unfold target_after, world_at. cbn [fst pg_conn committed].
    rewrite speed_phase_spectra, flags_effect_spectra.
    unfold spectra_phase in Hta. split; intros G.
    + apply Z.ltb_lt in G. rewrite G in Hta. by apply (copy_effect_dom (utcoffset env)).
    + apply Z.ltb_ge in G. rewrite G in Hta. by injection Hta as <-.
Qed.

Lemma spectra_ids_after_a_completed_run_witness :
  dom (pg_spectra (target_after (run (migrate_spectra.main Examples.utc_env
         Examples.src_three "yes") Examples.tgt_one)))
  = dom (pg_spectra Examples.tgt_one) ∪ dom (sqlite_spectra Examples.src_three).
Proof.
  destruct (spectra_ids_after_a_completed_run Examples.utc_env Examples.src_three
              Examples.tgt_one) as [H _].
  apply (H "yes"). vm_compute; reflexivity.
Defined.

(** ** The markers of the target *)

Lemma flag_fmap_dom (a b : gmap Z Marker) :
  (∀ k, has_spectrum <$> a !! k = has_spectrum <$> b !! k) → dom a = dom b.
Proof.
  intros H. apply set_eq. intros k. rewrite !elem_of_dom.
  specialize (H k). by destruct (a !! k), (b !! k).
Qed.

Lemma flags_effect_dom f src db :
  dom (pg_markers (flags_effect f src db)) = dom (pg_markers db).
Proof.
  apply set_eq. intros k. rewrite !elem_of_dom, flags_effect_lookup.
  case_decide; [|done]. by rewrite fmap_is_Some.
Qed.

Lemma speed_effect_dom rows db :
  dom (pg_markers (speed_effect rows db)) = dom (pg_markers db).
Proof. apply flag_fmap_dom. intros k. apply foldl_speed_flag. Qed.

(** No script ever inserts or deletes a marker: however a run of any of
    the three ends, the target has the markers it had, under the same
    ids. *)
Theorem markers_are_never_inserted_or_deleted env src t0 :
  (∀ ans,
     dom (pg_markers (target_after (run (migrate_all_data.main env src ans) t0)))
     = dom (pg_markers t0))
  ∧ (∀ confirm,
       dom (pg_markers (target_after (run (migrate_spectra.main env src confirm) t0)))
       = dom (pg_markers t0))
  ∧ (∀ confirm,
       pg_markers (target_after (run (update_spectra_columns.main env src confirm) t0))
       = pg_markers t0).
Proof.
  split; [|split].
  - intros ans. unfold target_after.
    pose proof (main_all_outcome env src ans t0) as H.
    inversion H as [| | | |ta Hs H2|ta k Hs H2 G Hk|ta Hs H2]; subst; simpl; try done.
    + by rewrite (spectra_phase_markers _ _ _ _ H2).
    + change (foldl set_speed_if_unset _ _)
        with (pg_markers (speed_effect
                (take (k * migrate_all_data.BATCH_SIZE) (select_speed src))
                (flags_effect set_flag_if_false src ta))).
      by rewrite speed_effect_dom, flags_effect_dom, (spectra_phase_markers _ _ _ _ H2).
    + unfold speed_phase. destruct (0 <? _);
        by rewrite ?speed_effect_dom, flags_effect_dom, (spectra_phase_markers _ _ _ _ H2).
  - intros confirm. unfold target_after.
    pose proof (main_spectra_outcome env src confirm t0) as H.
    inversion H as [| | |ta Hn Hy H2]; subst; simpl; try done.
    change (dom (pg_markers (flags_effect set_flag src ta)) = dom (pg_markers t0)).
    by rewrite flags_effect_dom, (copy_effect_markers _ _ _ _ H2).
  - intros confirm.
    apply (update_outcome_markers env src confirm t0 _ (main_update_outcome env src confirm t0)).
Qed.

Lemma select_flagged_decide src id :
  id ∈ select_flagged src ↔
  match sqlite_markers src !! id with
  | Some sm => has_spectrum sm = true
  | None => False
  end.
Proof.
  rewrite elem_of_select_flagged. destruct (sqlite_markers src !! id) as [sm|].
  - split; [by intros (? & [= <-] & ?)|eauto].
  - split; [by intros (? & ? & ?)|done].
Qed.

Lemma select_speed_fst src id :
  id ∈ (select_speed src).*1 ↔
  ∃ sm v, sqlite_markers src !! id = Some sm ∧ speed sm = Some v ∧ 0 < v.
Proof.
  rewrite list_elem_of_fmap. split.
  - intros ([k v] & -> & Hin). apply elem_of_select_speed in Hin as (sm & ? & ? & ?).
    by exists sm, v.
  - intros (sm & v & ? & ? & ?). exists (id, v). split; [done|].
    apply elem_of_select_speed. eauto.
Qed.

Lemma speed_effect_lookup src (ms : gmap Z Marker) id :
  foldl set_speed_if_unset ms (select_speed src) !! id
  = reconcile_marker (mk_sqlite (mk_marker false <$> (speed <$> sqlite_markers src))
                        (sqlite_spectra src)) true id <$> ms !! id.
Proof.
  unfold reconcile_marker. cbn [sqlite_markers]. rewrite !lookup_fmap.
  destruct (ms !! id) as [m|] eqn:Hm; [|by apply foldl_speed_None].
  simpl. destruct (sqlite_markers src !! id) as [sm|] eqn:Hsm; simpl.
  - destruct (speed sm) as [v|] eqn:Hv.
    + destruct (0 <? v) eqn:Hpos; simpl.
      * destruct (speed_unset m) eqn:Hun.
        -- apply foldl_speed_unset; [apply NoDup_select_speed| |done|done].
           apply elem_of_select_speed. exists sm. split; [done|]. split; [done|lia].
        -- by apply foldl_speed_set.
      * rewrite foldl_speed_absent; [done|]. rewrite select_speed_fst.
        intros (sm' & v' & ? & ? & ?). simplify_eq. lia.
    + rewrite foldl_speed_absent; [done|]. rewrite select_speed_fst.
      intros (sm' & v' & ? & ? & ?). simplify_eq.
  - rewrite foldl_speed_absent; [done|]. rewrite select_speed_fst.
    intros (sm' & v' & ? & ? & ?). simplify_eq.
Qed.

(** Every marker of the target after a completed run of
    [migrate_all_data.py]: its flag is set if the source's marker is
    flagged, and it has the source's speed if the speed phase ran, that
    speed is positive and its own was null or zero; nothing else about it
    changes, and a marker the source does not have is as it was. *)
Theorem markers_after_a_completed_run env src ans t0 id :
  let o := run (migrate_all_data.main env src ans) t0 in
  o.2 = Return tt →
  pg_markers (target_after o) !! id
  = reconcile_marker src (0 <? speed_to_migrate src t0) id <$> pg_markers t0 !! id.
Proof.
  intros o Hdone. unfold o in *.
  apply main_all_completed in Hdone as (_ & ta & Hta & ->).
  unfold target_after, world_at. cbn [fst pg_conn committed].
  pose proof (flags_effect_lookup set_flag_if_false src ta id) as Hb.
  rewrite (spectra_phase_markers _ _ _ _ Hta) in Hb.
  pose proof (select_flagged_decide src id) as Hfl.
  unfold speed_phase. destruct (0 <? speed_to_migrate src t0).
  - cbn [speed_effect pg_markers]. rewrite speed_effect_lookup, Hb.
    unfold reconcile_marker. cbn [sqlite_markers]. rewrite !lookup_fmap.
    destruct (sqlite_markers src !! id) as [sm|]; simpl.
    + destruct (has_spectrum sm).
      * rewrite decide_True by by apply Hfl.
        destruct (pg_markers t0 !! id); [|done]. simpl.
        by destruct (speed sm).
      * rewrite decide_False by (rewrite Hfl; done).
        destruct (pg_markers t0 !! id); [|done]. simpl.
        by destruct (speed sm).
    + rewrite decide_False by (rewrite Hfl; tauto).
      by destruct (pg_markers t0 !! id).
  - rewrite Hb. unfold reconcile_marker.
    destruct (sqlite_markers src !! id) as [sm|]; simpl.
    + destruct (has_spectrum sm).
      * rewrite decide_True by by apply Hfl.
        destruct (pg_markers t0 !! id); [|done]. simpl.
        by destruct (speed sm).
      * rewrite decide_False by (rewrite Hfl; done).
        destruct (pg_markers t0 !! id); [|done]. simpl.
        by destruct (speed sm).
    + rewrite decide_False by (rewrite Hfl; tauto).
      by destruct (pg_markers t0 !! id).
Qed.

Lemma markers_after_a_completed_run_witness :
  pg_markers (target_after (run (migrate_all_data.main Examples.utc_env
      Examples.src_three Examples.yes_yes) Examples.tgt_one)) !! 30
  = Some (mk_marker false (Some 55)).
Proof.
  apply (markers_after_a_completed_run Examples.utc_env Examples.src_three
           Examples.yes_yes Examples.tgt_one 30).
  vm_compute; reflexivity.
Defined.

(** ** What [update_spectra_columns.py] writes *)

Lemma update_effect_pointwise env src t0 id :
  pg_spectra (update_effect env (update_spectra_columns.select_with_channels src) t0) !! id
  = match sqlite_spectra src !! id with
    | Some s =>
        if is_none (src_channels s) then pg_spectra t0 !! id
        else columns_update env s <$> pg_spectra t0 !! id
    | None => pg_spectra t0 !! id
    end.
Proof.
  destruct (sqlite_spectra src !! id) as [s|] eqn:Hs.
  - destruct (is_none (src_channels s)) eqn:Hn.
    + apply update_effect_absent. rewrite list_elem_of_fmap.
      intros ([k s'] & -> & Hin). apply elem_of_select_with_channels in Hin as [? ?].
      simpl in *. congruence.
    + apply update_effect_lookup; [apply NoDup_select_with_channels|].
      by apply elem_of_select_with_channels.
  - apply update_effect_absent. rewrite list_elem_of_fmap.
    intros ([k s'] & -> & Hin). apply elem_of_select_with_channels in Hin as [? ?].
    simpl in *. congruence.
Qed.

Lemma columns_update_other env s r :
  other_columns (columns_update env s r) = other_columns r.
Proof.
  unfold columns_update. by destruct (update_spectra_columns.parse_channels _ _).
Qed.

Lemma columns_update_idem env s r :
  columns_update env s (columns_update env s r) = columns_update env s r.
Proof.
  unfold columns_update. by destruct (update_spectra_columns.parse_channels _ _).
Qed.

Lemma columns_update_ext env1 env2 s r :
  json_loads env2 = json_loads env1 →
  columns_update env2 s r = columns_update env1 s r.
Proof.
  intros H. unfold columns_update, update_spectra_columns.parse_channels.
  by rewrite H.
Qed.

(** However a run of [update_spectra_columns.py] ends, the target has the
    spectra it had, under the same ids; in each of them the columns the
    [UPDATE] does not name ([marker_id], [device_model], [calibration],
    [source_format], [filename], [raw_data], [created_at]) are as they
    were; and a spectrum for which the source has no row with channels is
    entirely as it was. *)
Theorem update_writes_only_its_columns env src confirm t0 :
  let o := run (update_spectra_columns.main env src confirm) t0 in
  dom (pg_spectra (target_after o)) = dom (pg_spectra t0)
  ∧ ∀ id r,
      pg_spectra t0 !! id = Some r →
      ∃ r', pg_spectra (target_after o) !! id = Some r'
            ∧ other_columns r' = other_columns r
            ∧ ((∀ s, sqlite_spectra src !! id = Some s → is_none (src_channels s) = true) →
               r' = r).
Proof.
  intros o.
  assert (Hpt : ∀ id,
    pg_spectra (target_after o) !! id = pg_spectra t0 !! id
    ∨ ∃ s, sqlite_spectra src !! id = Some s ∧ is_none (src_channels s) = false
           ∧ pg_spectra (target_after o) !! id = columns_update env s <$> pg_spectra t0 !! id).
  { intros id. unfold o, target_after.
    pose proof (main_update_outcome env src confirm t0) as H.
    inversion H; subst; simpl; try (by left).
    rewrite update_effect_pointwise.
    destruct (sqlite_spectra src !! id) as [s|]; [|by left].
    destruct (is_none (src_channels s)) eqn:Hn; [by left|].
    right. by exists s. }
  split.
  - apply set_eq. intros id. rewrite !elem_of_dom.
    destruct (Hpt id) as [->|(s & _ & _ & ->)]; [done|]. by rewrite fmap_is_Some.
  - intros id r Hr. destruct (Hpt id) as [->|(s & Hs & Hn & ->)].
    + exists r. done.
    + rewrite Hr. simpl. eexists. split; [done|].
      split; [apply columns_update_other|].
      intros Hall. rewrite (Hall s Hs) in Hn. done.
Qed.

Lemma pg_ext db db' :
  pg_markers db = pg_markers db' → pg_spectra db = pg_spectra db' → db = db'.
Proof. destruct db, db'. simpl. by intros -> ->. Qed.

Lemma update_effect_again env1 env2 src t0 :
  json_loads env2 = json_loads env1 →
  update_effect env2 (update_spectra_columns.select_with_channels src)
    (update_effect env1 (update_spectra_columns.select_with_channels src) t0)
  = update_effect env1 (update_spectra_columns.select_with_channels src) t0.
Proof.
  intros Hj. apply pg_ext.
  - by rewrite !update_effect_markers.
  - apply map_eq. intros id. rewrite !update_effect_pointwise.
    destruct (sqlite_spectra src !! id) as [s|]; [|done].
    destruct (is_none (src_channels s)); [done|].
    destruct (pg_spectra t0 !! id) as [r|]; [|done]. simpl.
    by rewrite (columns_update_ext env1 env2), columns_update_idem.
Qed.

(** A second run of [update_spectra_columns.py] after one that completed
    leaves the target as the first left it, however the second ends, as
    long as [json.loads] reads the texts as it did. *)
Theorem update_second_run_changes_nothing env1 env2 src confirm1 confirm2 t0 :
  let once := run (update_spectra_columns.main env1 src confirm1) t0 in
  let twice := run (update_spectra_columns.main env2 src confirm2) (target_after once) in
  json_loads env2 = json_loads env1 →
  once.2 = Return tt →
  target_after twice = target_after once.
Proof.
  intros once twice Hj Hdone. unfold twice, once in *. clear once twice.
  rewrite (main_update_completed _ _ _ _ Hdone).
  unfold target_after at 2 3. cbn [fst world_at pg_conn committed].
  pose proof (main_update_outcome env2 src confirm2
                (update_effect env1 (update_spectra_columns.select_with_channels src) t0))
    as H.
  unfold target_after.
  inversion H; subst; simpl; try done.
  by apply update_effect_again.
Qed.

Lemma update_second_run_changes_nothing_witness :
  target_after (run (update_spectra_columns.main Examples.tokyo_env Examples.src_three "YES")
                  (target_after (run (update_spectra_columns.main Examples.utc_env
                                        Examples.src_three "yes")
                                   Examples.tgt_partly_filled)))
  = target_after (run (update_spectra_columns.main Examples.utc_env Examples.src_three "yes")
                    Examples.tgt_partly_filled).
Proof.
  apply (update_second_run_changes_nothing Examples.utc_env Examples.tokyo_env
           Examples.src_three "yes" "YES" Examples.tgt_partly_filled).
  - reflexivity.
  - vm_compute; reflexivity.
Defined.

(** ** The counters of the insert loop *)

Lemma count_spectrum_step env c1 c2 id s w :
  count_spectrum env (c1, c2) (id, s) w
  = match insert_spectrum env (id, s) w with
    | (w', Return _) =>
        (w', Return (match pg_spectra (pending (pg_conn w)) !! id with
                     | Some _ => (c1, S c2)
                     | None => (S c1, c2)
                     end))
    | (w', Raise e) => (w', Raise e)
    end.
Proof.
  unfold count_spectrum, insert_spectrum, bind, pg_read, ret.
  destruct (pg_spectra (pending (pg_conn w)) !! id); [done|].
  destruct (fromtimestamp env (src_created_at s) w) as [w1 [dt|e]]; [|done].
  by destruct (pg_execute env _ w1) as [w2 [[]|e]].
Qed.

Lemma insert_spectrum_size env id s w w' :
  insert_spectrum env (id, s) w = (w', Return tt) →
  size (pg_spectra (pending (pg_conn w')))
  = (size (pg_spectra (pending (pg_conn w)))
     + match pg_spectra (pending (pg_conn w)) !! id with Some _ => 0 | None => 1 end)%nat.
Proof.
  intros H. destruct (tx_body_insert_spectrum env (id, s) w w' _ H) as (_ & _ & Hf).
  unfold insert_effect in Hf. cbn [fst snd] in Hf.
  destruct (pg_spectra (pending (pg_conn w)) !! id) eqn:Hid.
  - injection Hf as <-. lia.
  - destruct (converted _ _) in Hf; [|done]. injection Hf as <-.
    cbn [pg_spectra]. rewrite map_size_insert_None by done. lia.
Qed.

Lemma count_loop_spec env rows counts w :
  match fold_each (count_spectrum env) counts rows w with
  | (w', Return (i, k)) =>
      for_each (insert_spectrum env) rows w = (w', Return tt)
      ∧ ∃ di dk, i = (counts.1 + di)%nat ∧ k = (counts.2 + dk)%nat
                 ∧ (di + dk)%nat = length rows
                 ∧ size (pg_spectra (pending (pg_conn w')))
                   = (size (pg_spectra (pending (pg_conn w))) + di)%nat
  | (w', Raise e) => for_each (insert_spectrum env) rows w = (w', Raise e)
  end.
Proof.
  revert counts w. induction rows as [|[id s] rows IH]; intros [c1 c2] w.
  - simpl. split; [done|]. exists 0%nat, 0%nat. simpl. lia.
  - cbn [fold_each for_each]. unfold bind.
    rewrite count_spectrum_step.
    pose proof (insert_spectrum_size env id s w) as Hstep.
    destruct (insert_spectrum env (id, s) w) as [w1 [[]|e]]; [|done].
    specialize (Hstep w1 eq_refl).
    match goal with |- context [fold_each _ ?c rows w1] => specialize (IH c w1) end.
    destruct (fold_each _ _ rows w1) as [w' [[i k]|e]]; [|done].
    destruct IH as (Hfor & di & dk & -> & -> & Hlen & Hsize).
    split; [exact Hfor|].
    destruct (pg_spectra (pending (pg_conn w)) !! id).
    + exists di, (S dk). simpl in *. lia.
    + exists (S di), dk. simpl in *. lia.
Qed.

Lemma length_select_spectra src : length (select_spectra src) = size (sqlite_spectra src).
Proof.
  unfold select_spectra. rewrite merge_sort_Permutation. apply length_map_to_list.
Qed.

(** The counters the insert loop reports when it goes through: it changes
    the target as the loop without counters does, [inserted_count] is the
    number of source ids the target did not have, [skipped_count] the
    number it had, together they are the number of source rows, and the
    target's table has grown by [inserted_count] rows. *)
Theorem insert_loop_counts env src t0 inserted skipped :
  let o := insert_loop env (select_spectra src) (connect t0) in
  o.2 = Return (inserted, skipped) →
  for_each (insert_spectrum env) (select_spectra src) (connect t0) = (o.1, Return tt)
  ∧ inserted = size (dom (sqlite_spectra src) ∖ dom (pg_spectra t0))
  ∧ skipped = size (dom (sqlite_spectra src) ∩ dom (pg_spectra t0))
  ∧ (inserted + skipped)%nat = size (sqlite_spectra src)
  ∧ size (pg_spectra (pending (pg_conn o.1))) = (size (pg_spectra t0) + inserted)%nat.
Proof.
  intros o Hret. unfold o, insert_loop in *.
  pose proof (count_loop_spec env (select_spectra src) (0%nat, 0%nat) (connect t0)) as H.
  destruct (fold_each _ _ _ _) as [w' r]. simpl in Hret. subst r.
  destruct H as (Hfor & di & dk & -> & -> & Hlen & Hsize).
  cbn [fst snd connect pg_conn pending] in *. rewrite length_select_spectra in Hlen.
  split; [done|].
  destruct (tx_body_for_each _ _ (select_spectra src) (tx_body_insert_spectrum env)
              _ _ _ Hfor) as (_ & _ & Hf).
  cbn [connect pg_conn pending] in Hf.
  pose proof (copy_effect_dom _ _ _ _ Hf) as Hdom.
  assert (Hgrow : size (pg_spectra (pending (pg_conn w')))
                  = (size (pg_spectra t0)
                     + size (dom (sqlite_spectra src) ∖ dom (pg_spectra t0)))%nat).
  { rewrite <- (size_dom (pg_spectra (pending (pg_conn w')))), Hdom, size_union_alt.
    by rewrite size_dom. }
  pose proof (size_difference_alt (dom (sqlite_spectra src)) (dom (pg_spectra t0))) as Hd.
  assert (Hle : (size (dom (sqlite_spectra src) ∩ dom (pg_spectra t0))
                 ≤ size (dom (sqlite_spectra src)))%nat)
    by (apply subseteq_size; set_solver).
  rewrite size_dom in Hd, Hle. simpl. repeat split; lia.
Qed.

(** The source has spectra 1, 2 and 3 and the target spectrum 2: two rows
    are inserted and one is skipped. *)
Lemma insert_loop_counts_witness :
  2%nat = size (dom (sqlite_spectra Examples.src_three) ∖ dom (pg_spectra Examples.tgt_one))
  ∧ 1%nat = size (dom (sqlite_spectra Examples.src_three) ∩ dom (pg_spectra Examples.tgt_one))
  ∧ size (pg_spectra (pending (pg_conn
            (insert_loop Examples.utc_env (select_spectra Examples.src_three)
               (connect Examples.tgt_one)).1)))
    = (size (pg_spectra Examples.tgt_one) + 2)%nat.
Proof.
  destruct (insert_loop_counts Examples.utc_env Examples.src_three Examples.tgt_one 2 1)
    as (_ & Hi & Hk & _ & Hsize).
  - vm_compute; reflexivity.
  - split; [exact Hi|]. split; [exact Hk|exact Hsize].
Defined.

(** ** The closing checks *)

Lemma copy_effect_count tz src db db' :
  copy_effect tz src db = Some db' →
  count_rows (sqlite_spectra src) ≤ count_rows (pg_spectra db').
Proof.
  intros E. unfold count_rows. apply inj_le.
  rewrite <- !size_dom, (copy_effect_dom _ _ _ _ E).
  apply subseteq_size. set_solver.
Qed.

(** Whenever [migrate_spectra.py] reaches its closing check, the check
    passes: the script prints that the migration completed, and its
    warning about a record count mismatch is never printed. *)
Theorem migrate_spectra_check_always_passes env src confirm t0 verified :
  (migrate_spectra_checked env src confirm (connect t0)).2 = Return verified →
  verified = true.
Proof.
  unfold migrate_spectra_checked, bind.
  pose proof (main_spectra_completed env src confirm t0) as H. unfold run in H.
  change (mk_world (mk_conn t0 t0) []) with (connect t0) in H.
  destruct (migrate_spectra.main env src confirm (connect t0)) as [w [[]|e]]; [|done].
  destruct (H eq_refl) as (ta & Hta & [= ->]).
  unfold spectra_verified, bind, pg_read, ret. cbn [snd world_at pg_conn pending].
  rewrite flags_effect_spectra. intros [= <-].
  apply Z.leb_le. by eapply copy_effect_count.
Qed.

(** The run that copies spectra 1 and 3 next to the target's spectrum 2
    ends with the check passed. *)
Lemma migrate_spectra_check_always_passes_witness :
  (migrate_spectra_checked Examples.utc_env Examples.src_three "yes"
     (connect Examples.tgt_one)).2 = Return true.
Proof.
  assert (H : ∃ b, (migrate_spectra_checked Examples.utc_env Examples.src_three "yes"
                      (connect Examples.tgt_one)).2 = Return b)
    by (eexists; vm_compute; reflexivity).
  destruct H as [b Hb]. rewrite Hb.
  f_equal. exact (migrate_spectra_check_always_passes _ _ _ _ _ Hb).
Defined.

(** Whenever [migrate_all_data.py] reaches its closing checks, the first one
    finds nothing: the warning about a spectral records mismatch is never
    printed, whether the insert phase ran or was skipped. *)
Theorem migrate_all_data_spectra_never_mismatch env src ans t0 mismatch :
  (migrate_all_data_checked env src ans (connect t0)).2 = Return mismatch →
  mismatch = false.
Proof.
  unfold migrate_all_data_checked, bind.
  pose proof (main_all_completed env src ans t0) as H. unfold run in H.
  change (mk_world (mk_conn t0 t0) []) with (connect t0) in H.
  destruct (migrate_all_data.main env src ans (connect t0)) as [w [[]|e]]; [|done].
  destruct (H eq_refl) as (_ & ta & Hta & [= ->]).
  unfold spectra_mismatch, bind, pg_read, ret. cbn [snd world_at pg_conn pending].
  rewrite speed_phase_spectra, flags_effect_spectra. intros [= <-].
  apply Z.ltb_ge. unfold spectra_phase in Hta.
  destruct (0 <? spectra_to_migrate src t0) eqn:Hg.
  - by eapply copy_effect_count.
  - injection Hta as <-. apply Z.ltb_ge in Hg. unfold spectra_to_migrate in Hg. lia.
Qed.

Lemma migrate_all_data_spectra_never_mismatch_witness :
  (migrate_all_data_checked Examples.utc_env Examples.src_three Examples.yes_yes
     (connect Examples.tgt_one)).2 = Return false.
Proof.
  assert (H : ∃ b, (migrate_all_data_checked Examples.utc_env Examples.src_three
                      Examples.yes_yes (connect Examples.tgt_one)).2 = Return b)
    by (eexists; vm_compute; reflexivity).
  destruct H as [b Hb]. rewrite Hb.
  f_equal. exact (migrate_all_data_spectra_never_mismatch _ _ _ _ _ Hb).
Defined.

(** ** Declined prompts and sources with nothing to copy *)

(** A run that is answered anything but yes (in any case of the letters)
    changes nothing in the target and exits with code 0: at the prompt of
    [migrate_spectra.py], at the prompt of [update_spectra_columns.py], at
    the second prompt of [migrate_all_data.py] whatever the first answer
    was, and at its first prompt, shown when the counts say everything is
    migrated, whatever the second answer would be. *)
Theorem declined_run_changes_nothing env src t0 answer :
  is_yes answer = false →
  (∀ recheck,
     let o := run (migrate_all_data.main env src
                     (migrate_all_data.mk_answers recheck answer)) t0 in
     target_after o = t0 ∧ exit_code o.2 = 0)
  ∧ (∀ proceed, already_migrated src t0 = true →
     let o := run (migrate_all_data.main env src
                     (migrate_all_data.mk_answers answer proceed)) t0 in
     target_after o = t0 ∧ exit_code o.2 = 0)
  ∧ (let o := run (migrate_spectra.main env src answer) t0 in
     target_after o = t0 ∧ exit_code o.2 = 0)
  ∧ (let o := run (update_spectra_columns.main env src answer) t0 in
     target_after o = t0 ∧ exit_code o.2 = 0).
Proof.
  intros Hno. split; [|split; [|split]].
  - intros recheck o.
    pose proof (main_all_outcome env src (migrate_all_data.mk_answers recheck answer) t0)
      as Ho.
    fold o in Ho.
    inversion Ho as [| | |[_ [_ Hy]]|? [_ [_ Hy]]|? ? [_ [_ Hy]]|? [_ [_ Hy]]];
      try done; simpl in Hy; congruence.
  - intros proceed Ha o.
    pose proof (main_all_outcome env src (migrate_all_data.mk_answers answer proceed) t0)
      as Ho.
    fold o in Ho.
    inversion Ho as [| | |[_ [Hy _]]|? [_ [Hy _]]|? ? [_ [Hy _]]|? [_ [Hy _]]];
      try done; simpl in Hy; specialize (Hy Ha); congruence.
  - intros o. pose proof (main_spectra_outcome env src answer t0) as Ho. fold o in Ho.
    inversion Ho; try done; congruence.
  - intros o. pose proof (main_update_outcome env src answer t0) as Ho. fold o in Ho.
    inversion Ho; try done; congruence.
Qed.

(** Answering no to either script leaves the target with spectrum 2 only. *)
Lemma declined_run_changes_nothing_witness :
  target_after (run (migrate_spectra.main Examples.utc_env Examples.src_three "no")
                  Examples.tgt_one) = Examples.tgt_one
  ∧ target_after (run (migrate_all_data.main Examples.utc_env Examples.src_three
                         (migrate_all_data.mk_answers "yes" "no"))
                    Examples.tgt_one) = Examples.tgt_one.
Proof.
  destruct (declined_run_changes_nothing Examples.utc_env Examples.src_three
              Examples.tgt_one "no") as (Hall & _ & Hspectra & _).
  - reflexivity.
  - split; [exact (proj1 Hspectra)|exact (proj1 (Hall "yes"))].
Defined.

(** A source without spectra is left alone.  [migrate_spectra.py] exits
    with code 0 at once; so does [migrate_all_data.py] when no marker of
    the source has a positive speed either.  Neither touches the target:
    the markers the source flags are not flagged by such a run. *)
Theorem source_without_spectra_is_left_alone env src t0 :
  sqlite_spectra src = ∅ →
  (∀ confirm,
     run (migrate_spectra.main env src confirm) t0
     = (world_at t0 [MsgNothingToMigrate], Raise (SystemExit 0)))
  ∧ (∀ ans,
       (∀ id m, sqlite_markers src !! id = Some m → speed_positive m = false) →
       run (migrate_all_data.main env src ans) t0
       = (world_at t0 [MsgNothingToMigrate], Raise (SystemExit 0))).
Proof.
  intros He.
  assert (Hc : count_rows (sqlite_spectra src) = 0)
    by (unfold count_rows; by rewrite He, map_size_empty).
  split.
  - intros confirm. pose proof (main_spectra_outcome env src confirm t0) as Ho.
    inversion Ho; done.
  - intros ans Hs. pose proof (main_all_outcome env src ans t0) as Ho.
    assert (Hn : nothing_to_migrate src = true).
    { unfold nothing_to_migrate. by rewrite Hc, count_speed_none. }
    inversion Ho as [|Hf|Hf|[Hf _]|? [Hf _]|? ? [Hf _]|? [Hf _]]; try done; congruence.
Qed.

(** The source flags marker 10 and has no spectra: the target's marker 10
    stays unflagged. *)
Lemma source_without_spectra_is_left_alone_witness :
  has_spectrum <$> sqlite_markers Examples.src_flag_only !! 10 = Some true
  ∧ has_spectrum <$>
      pg_markers (target_after (run (migrate_all_data.main Examples.utc_env
                                       Examples.src_flag_only Examples.yes_yes)
                                  Examples.tgt_one)) !! 10
    = has_spectrum <$> pg_markers Examples.tgt_one !! 10.
Proof.
  destruct (source_without_spectra_is_left_alone Examples.utc_env Examples.src_flag_only
              Examples.tgt_one) as [_ Hall].
  - reflexivity.
  - split; [vm_compute; reflexivity|].
    rewrite (Hall Examples.yes_yes); [reflexivity|].
    intros id m Hm. unfold Examples.src_flag_only in Hm. cbn [sqlite_markers] in Hm.
    apply lookup_insert_Some in Hm as [[_ <-]|[_ Hm]]; [reflexivity|].
    apply lookup_singleton_Some in Hm as [_ <-]. reflexivity.
Defined.

Lemma count_null_channels_none (spectra : gmap Z PgSpectrum) :
  (∀ id r, spectra !! id = Some r → channels r ≠ PyNone) →
  update_spectra_columns.count_null_channels spectra = 0.
Proof.
  intros H. unfold update_spectra_columns.count_null_channels.
  replace (filter (λ kv : Z * PgSpectrum, is_none (channels kv.2) = true) spectra)
    with (∅ : gmap Z PgSpectrum); [by rewrite map_size_empty|].
  symmetry. apply map_empty_filter. intros id r Hr. simpl.
  specialize (H id r Hr). by destruct (channels r).
Qed.

(** When no spectrum of the target has NULL channels,
    [update_spectra_columns.py] exits with code 0 before its prompt and
    writes nothing, whatever the source holds. *)
Theorem update_without_null_channels_does_nothing env src confirm t0 :
  (∀ id r, pg_spectra t0 !! id = Some r → channels r ≠ PyNone) →
  run (update_spectra_columns.main env src confirm) t0
  = (world_at t0 [MsgNoRecordsNeedUpdating], Raise (SystemExit 0)).
Proof.
  intros H. apply count_null_channels_none in H.
  pose proof (main_update_outcome env src confirm t0) as Ho.
  inversion Ho; done.
Qed.

(** The target's only spectrum has channels: nothing is written, although
    the source has other values for that spectrum. *)
Lemma update_without_null_channels_does_nothing_witness :
  run (update_spectra_columns.main Examples.utc_env Examples.src_three "yes") Examples.tgt_one
  = (world_at Examples.tgt_one [MsgNoRecordsNeedUpdating], Raise (SystemExit 0)).
Proof.
  apply (update_without_null_channels_does_nothing Examples.utc_env Examples.src_three "yes"
           Examples.tgt_one).
  intros id r Hr. unfold Examples.tgt_one in Hr. cbn [pg_spectra] in Hr.
  apply lookup_singleton_Some in Hr as [_ <-]. discriminate.
Defined.

(** ** What makes the copy of the spectra fail, and what does not *)

(** A source spectrum that the target does not have and whose [created_at]
    cannot be converted (it is NULL, or its local reading or that of an
    instant [fromtimestamp] probes falls in a year outside 1..9999)
    makes the whole copy fail: a confirmed run of [migrate_spectra.py], and
    a run of [migrate_all_data.py] whose insert phase is entered, roll back,
    leave the target as it was, with none of the other spectra copied and
    no flag set, and exit with code 1. *)
Theorem unconvertible_created_at_aborts_the_copy env src t0 id s :
  sqlite_spectra src !! id = Some s →
  pg_spectra t0 !! id = None →
  converted (utcoffset env) s = None →
  (∀ confirm, is_yes confirm = true →
     run (migrate_spectra.main env src confirm) t0
     = (world_at t0 [MsgMigrationError; MsgRolledBack], Raise (SystemExit 1)))
  ∧ (∀ ans, started src ans t0 → 0 < spectra_to_migrate src t0 →
     run (migrate_all_data.main env src ans) t0
     = (world_at t0 [MsgSpectraPhase; MsgSpectraError; MsgRolledBack],
        Raise (SystemExit 1))).
Proof.
  intros Hs Hid Hconv.
  assert (Hnone : ∀ ta, copy_effect (utcoffset env) src t0 = Some ta → False).
  { intros ta E. destruct (copy_effect_convertible _ _ _ _ _ _ E Hs Hid) as [r Hr].
    congruence. }
  split.
  - intros confirm Hy. pose proof (main_spectra_outcome env src confirm t0) as Ho.
    inversion Ho as [Hc|? Hn|?|ta ? ? E]; try done.
    + unfold count_rows in Hc.
      assert (Hz : size (sqlite_spectra src) = 0%nat) by lia.
      apply map_size_empty_iff in Hz. rewrite Hz in Hs. done.
    + congruence.
    + destruct (Hnone ta E).
  - intros ans Hst Hg. pose proof (main_all_outcome env src ans t0) as Ho.
    assert (Hgreet : greeting src t0 = []).
    { unfold greeting, already_migrated.
      destruct (spectra_to_migrate src t0 <=? 0) eqn:Hle; [|done].
      apply Z.leb_le in Hle. lia. }
    assert (Hphase : ∀ ta, spectra_phase (utcoffset env) src t0 = Some ta → False).
    { intros ta. unfold spectra_phase. apply Z.ltb_lt in Hg. rewrite Hg. apply Hnone. }
    destruct Hst as (Hn & Hr & Hy).
    assert (Ha : already_migrated src t0 = false).
    { unfold already_migrated.
      destruct (spectra_to_migrate src t0 <=? 0) eqn:Hle; [|done].
      apply Z.leb_le in Hle. lia. }
    inversion Ho as [?|? ? Hy1|? ? Hy2|?|ta ? E|ta k ? E|ta ? E];
      try congruence;
      first [ by rewrite Hgreet | destruct (Hphase ta E) ].
Qed.

(** Spectrum 5 of the source has no [created_at]: spectrum 4 is not copied
    either and marker 10 is not flagged. *)
Lemma unconvertible_created_at_aborts_the_copy_witness :
  run (migrate_spectra.main Examples.utc_env Examples.src_no_created_at "yes")
    Examples.tgt_one
  = (world_at Examples.tgt_one [MsgMigrationError; MsgRolledBack], Raise (SystemExit 1))
  ∧ run (migrate_all_data.main Examples.utc_env Examples.src_no_created_at Examples.yes_yes)
      Examples.tgt_one
    = (world_at Examples.tgt_one [MsgSpectraPhase; MsgSpectraError; MsgRolledBack],
       Raise (SystemExit 1)).
Proof.
  destruct (unconvertible_created_at_aborts_the_copy Examples.utc_env
              Examples.src_no_created_at Examples.tgt_one 5
              (mk_sqlite_spectrum 10 (PyStr "[7]") (PyInt 1) (PyFloat 0) (PyFloat 0)
                 (PyFloat 0) (PyFloat 0) PyNone PyNone PyNone PyNone PyNone None))
    as [Hspectra Hall].
  - vm_compute; reflexivity.
  - vm_compute; reflexivity.
  - reflexivity.
  - split.
    + apply Hspectra. reflexivity.
    + apply Hall.
      * split; [reflexivity|]. split; [|reflexivity]. intros _. reflexivity.
      * vm_compute; reflexivity.
Defined.

(** When the engine refuses nothing, the host's [localtime] converts
    every instant, and every source spectrum that the target does not have
    has a [created_at] that [fromtimestamp] converts (its local reading,
    and those of the instants [fromtimestamp] probes, fall in the years 1
    to 9999), the migrating scripts go through: a confirmed run of
    [migrate_spectra.py] on a source with spectra, and a run of
    [migrate_all_data.py] that gets past its prompts, return without an
    error exit, commit, and leave the target with a spectrum for every id
    of the source spectra they copy. *)
Theorem migration_completes_unless_refused env src t0 :
  accepts env →
  converts env →
  (∀ id s, sqlite_spectra src !! id = Some s → pg_spectra t0 !! id = None →
           is_Some (converted (utcoffset env) s)) →
  (∀ confirm, sqlite_spectra src ≠ ∅ → is_yes confirm = true →
     let o := run (migrate_spectra.main env src confirm) t0 in
     o.2 = Return tt ∧ dom (sqlite_spectra src) ⊆ dom (pg_spectra (target_after o)))
  ∧ (∀ ans, started src ans t0 →
     let o := run (migrate_all_data.main env src ans) t0 in
     o.2 = Return tt
     ∧ (0 < spectra_to_migrate src t0 →
        dom (sqlite_spectra src) ⊆ dom (pg_spectra (target_after o)))).
Proof.
  intros Hacc Hloc Hconv.
  assert (Hsome : is_Some (copy_effect (utcoffset env) src t0)).
  { apply copy_effect_is_Some. intros id s Hin. apply Hconv.
    by apply elem_of_select_spectra. }
  split.
  - intros confirm Hne Hy o.
    pose proof (main_spectra_returns env Hacc Hloc src confirm t0 Hne Hy Hsome) as Hret.
    split; [done|].
    destruct (main_spectra_completed env src confirm t0 Hret) as (ta & Hta & Ho).
    unfold o, target_after. rewrite Ho. cbn [fst world_at pg_conn committed].
    rewrite flags_effect_spectra, (copy_effect_dom _ _ _ _ Hta). set_solver.
  - intros ans Hst o.
    pose proof (main_all_returns env Hacc Hloc src ans t0 Hst (λ _, Hsome)) as Hret.
    split; [done|]. intros Hg.
    destruct (main_all_completed env src ans t0 Hret) as (_ & ta & Hta & Ho).
    unfold o, target_after. rewrite Ho. cbn [fst world_at pg_conn committed].
    rewrite speed_phase_spectra, flags_effect_spectra.
    unfold spectra_phase in Hta. apply Z.ltb_lt in Hg. rewrite Hg in Hta.
    rewrite (copy_effect_dom _ _ _ _ Hta). set_solver.
Qed.

(** On an engine that refuses nothing, the source with spectra 1, 2 and 3
    is migrated by either script. *)
Lemma migration_completes_unless_refused_witness :
  (run (migrate_spectra.main Examples.utc_env Examples.src_three "yes") Examples.tgt_one).2
  = Return tt
  ∧ (run (migrate_all_data.main Examples.utc_env Examples.src_three Examples.yes_yes)
       Examples.tgt_one).2
    = Return tt.
Proof.
  destruct (migration_completes_unless_refused Examples.utc_env Examples.src_three
              Examples.tgt_one) as [Hspectra Hall].
  - intros st db. reflexivity.
  - intros t. reflexivity.
  - intros id s Hs Hid.
    apply (copy_effect_convertible (utcoffset Examples.utc_env) Examples.src_three
             Examples.tgt_one
             ltac:(let t := eval vm_compute in
                          (default Examples.tgt_one
                             (copy_effect (utcoffset Examples.utc_env) Examples.src_three
                                Examples.tgt_one)) in
                   exact t) id s); [vm_compute; reflexivity|exact Hs|exact Hid].
  - split.
    + apply Hspectra; [|reflexivity].
      intros He. apply (f_equal (λ m, m !! 1)) in He. vm_compute in He. discriminate.
    + apply Hall. split; [reflexivity|]. split; [|reflexivity]. intros _. reflexivity.
Defined.

(** ** The two migrating scripts, side by side *)

Lemma set_flag_if_false_is_set_flag m : set_flag_if_false m = set_flag m.
Proof. destruct m as [[] v]; reflexivity. Qed.

Lemma flags_effect_ext f g src db :
  (∀ m, f m = g m) → flags_effect f src db = flags_effect g src db.
Proof.
  intros H. apply pg_ext; [|done]. apply map_eq. intros k.
  rewrite !flags_effect_lookup. case_decide; [|done].
  destruct (pg_markers db !! k) as [m|]; simpl; [by rewrite H|done].
Qed.

(** The guarded flag update of [migrate_all_data.py] and the unguarded one
    of [migrate_spectra.py] write the same rows.  So from the same source
    and target, when both scripts complete and [migrate_all_data.py] runs
    its insert phase, they leave the same spectra and the same flags; and
    when the speed phase is skipped, the same target altogether. *)
Theorem migrating_scripts_agree env src t0 confirm ans :
  let a := run (migrate_spectra.main env src confirm) t0 in
  let b := run (migrate_all_data.main env src ans) t0 in
  a.2 = Return tt → b.2 = Return tt → 0 < spectra_to_migrate src t0 →
  pg_spectra (target_after b) = pg_spectra (target_after a)
  ∧ (∀ id, has_spectrum <$> pg_markers (target_after b) !! id
           = has_spectrum <$> pg_markers (target_after a) !! id)
  ∧ (speed_to_migrate src t0 ≤ 0 → target_after b = target_after a).
Proof.
  intros a b Ha Hb Hg.
  destruct (main_spectra_completed env src confirm t0 Ha) as (ta & Hta & Hra).
  destruct (main_all_completed env src ans t0 Hb) as (_ & tb & Htb & Hrb).
  unfold spectra_phase in Htb. apply Z.ltb_lt in Hg. rewrite Hg, Hta in Htb.
  injection Htb as <-.
  unfold a, b, target_after. rewrite Hra, Hrb. cbn [fst world_at pg_conn committed].
  rewrite (flags_effect_ext set_flag_if_false set_flag) by apply set_flag_if_false_is_set_flag.
  split; [by rewrite speed_phase_spectra|]. split.
  - intros id. apply speed_phase_flag.
  - intros Hs. unfold speed_phase. apply Z.ltb_ge in Hs. by rewrite Hs.
Qed.

(** From the source with spectra 1, 2 and 3 and the target with spectrum
    2, both scripts leave the same spectra. *)
Lemma migrating_scripts_agree_witness :
  pg_spectra (target_after (run (migrate_all_data.main Examples.utc_env Examples.src_three
                                   Examples.yes_yes) Examples.tgt_one))
  = pg_spectra (target_after (run (migrate_spectra.main Examples.utc_env Examples.src_three
                                     "yes") Examples.tgt_one)).
Proof.
  destruct (migrating_scripts_agree Examples.utc_env Examples.src_three Examples.tgt_one
              "yes" Examples.yes_yes) as [Hspectra _].
  - vm_compute; reflexivity.
  - vm_compute; reflexivity.
  - vm_compute; reflexivity.
  - exact Hspectra.
Defined.

